(** * Scholarly search backend: a shallow embedding of the Python sources

    The definitions follow the layout of [backend/]:
    - [Py]           the Python built-ins that the sources use
    - [Result]       [utils/result.py]
    - [Reliability]  [models/paper.py], class [ReliabilityScore]
    - [PaperModel]   [models/paper.py], the enums and class [Paper]
    - [RateLimiter]  [utils/rate_limiter.py]
    - [Exn]          what a call that can raise gives back
    - [SafeConv]     [utils/result.py], [safe_int]
    - [ArXiv]        [adapters/arxiv.py]
    - [PubMed], [SemanticScholar], [OpenAlex]
                     the keywords of the parsers of those adapters
    - [Orchestrator] [core/orchestrator.py], deduplication and filters
    - [Scoring]      [models/paper.py], levels and [calculate_reliability]
    - [ArXivIds]     [adapters/arxiv.py], [_extract_id]
    - [Pipeline]     [core/orchestrator.py], [search]
    together with the vocabulary of the proofs ([TitleWords], [Dedup],
    [Vocabulary]), concrete inputs ([Examples]) and the properties as the
    specification words them ([Spec]); the proofs follow.

    Python [float] is IEEE binary64 and is modelled by Rocq's primitive
    floats; [int] is [Z]; [str] is [string], a character being read as a
    code point below 256; [Optional[T]] is [option T]; a [dict] is a [gmap].
    A float division by zero raises in Python: [Py.div] returns an [option].
    A call that can raise [ValueError] or [TypeError] returns an
    [Exn.Outcome].

    The papers that [_deduplicate] receives are mutable objects, which
    [_merge] updates in place while the four maps and the [unique] list
    refer to them. They live in an explicit heap: the papers of the input
    list are distinct objects (each comes from a parser), the object at
    position [i] of the input is at position [i] of the heap, and the maps
    and [unique] hold positions. *)

From Stdlib Require Import ZArith List Bool Lia Floats Uint63 Ascii String.
From Stdlib Require Import Sorted.
From stdpp Require Import gmap strings list fin_maps.

Import ListNotations.
Local Open Scope Z_scope.

(** ** Python built-ins used by the sources *)

Module Py.

(** Truthiness of an [Optional[str]]: [None] and the empty string are
    falsy. *)
Definition truthy_str (o : option string) : bool :=
  match o with
  | Some s => negb (String.eqb s "")
  | None => false
  end.

(** Truthiness of an [Optional[int]]: [None] and [0] are falsy. *)
Definition truthy_int (o : option Z) : bool :=
  match o with
  | Some n => negb (n =? 0)
  | None => false
  end.

(** [min(a, b)] on floats: the first argument is kept unless the second
    is strictly smaller. *)
Definition min (a b : float) : float :=
  if PrimFloat.ltb b a then b else a.

(** [max(a, b)] on floats: the first argument is kept unless the second
    is strictly greater. *)
Definition max (a b : float) : float :=
  if PrimFloat.ltb a b then b else a.

(** [float(n)] for a list length [n] (below 2^63 in CPython). *)
Definition float_of_len (n : nat) : float :=
  PrimFloat.of_uint63 (Uint63.of_Z (Z.of_nat n)).

(** [a / b] on floats raises [ZeroDivisionError] when [b == 0.0]. *)
Definition div (a b : float) : option float :=
  if PrimFloat.eqb b 0%float then None else Some (PrimFloat.div a b).

(** [l[:n]] on a list, with Python's reading of a negative bound. *)
Definition slice_to {A} (l : list A) (n : Z) : list A :=
  if 0 <=? n then firstn (Z.to_nat n) l
  else firstn (Z.to_nat (Z.of_nat (length l) + n)) l.

(** *** Strings

    A [str] is a sequence of code points; the functions below work on the
    list of characters and are lifted to [string]. The character classes
    are Python's on the code points 0..255. *)

Definition ord (c : ascii) : N := N_of_ascii c.

Definition between (lo hi n : N) : bool := ((lo <=? n) && (n <=? hi))%N.

(** [c.isspace()], which is also the class [\s] of [re]. *)
Definition isspace (c : ascii) : bool :=
  let n := ord c in
  between 9 13 n || between 28 32 n || (n =? 133)%N || (n =? 160)%N.

(** The class [\w] of [re] on a [str] pattern: alphanumerics and [_]. *)
Definition isword (c : ascii) : bool :=
  let n := ord c in
  between 48 57 n || between 65 90 n || (n =? 95)%N || between 97 122 n
  || (n =? 170)%N || between 178 179 n || (n =? 181)%N
  || between 185 186 n || between 188 190 n
  || between 192 214 n || between 216 246 n || between 248 255 n.

(** [c.lower()] *)
Definition lower_char (c : ascii) : ascii :=
  let n := ord c in
  if between 65 90 n || between 192 214 n || between 216 222 n
  then ascii_of_N (n + 32) else c.

Definition chars (s : string) : list ascii := list_ascii_of_string s.
Definition str (l : list ascii) : string := string_of_list_ascii l.

(** [s.lower()] *)
Definition lower (s : string) : string :=
  str (List.map lower_char (chars s)).

Fixpoint lstrip_chars (l : list ascii) : list ascii :=
  match l with
  | c :: l' => if isspace c then lstrip_chars l' else l
  | [] => []
  end.

(** [s.strip()] *)
Definition strip (s : string) : string :=
  str (rev (lstrip_chars (rev (lstrip_chars (chars s))))).

(** [s.split()] on characters: the maximal runs of non-whitespace. *)
Fixpoint split_chars (l : list ascii) : list (list ascii) :=
  match l with
  | [] => []
  | c :: l' =>
      if isspace c then split_chars l'
      else match l' with
           | [] => [[c]]
           | d :: _ =>
               if isspace d then [c] :: split_chars l'
               else match split_chars l' with
                    | w :: ws => (c :: w) :: ws
                    | [] => [[c]]
                    end
           end
  end.

(** [s.split()] *)
Definition split (s : string) : list string :=
  List.map str (split_chars (chars s)).

(** [' '.join(ws)] on characters. *)
Fixpoint join_chars (ws : list (list ascii)) : list ascii :=
  match ws with
  | [] => []
  | [w] => w
  | w :: ws' => w ++ " "%char :: join_chars ws'
  end.

(** [' '.join(ws)] *)
Definition join_space (ws : list string) : string :=
  str (join_chars (List.map chars ws)).

(** The characters that [re.sub(r'[^\w\s]', '', s)] keeps. *)
Definition keep (c : ascii) : bool := isword c || isspace c.

(** [re.sub(r'[^\w\s]', '', s)] *)
Definition sub_nonword_nonspace (s : string) : string :=
  str (List.filter keep (chars s)).

(** [s[:n]] for [n >= 0] *)
Definition prefix (n : nat) (s : string) : string :=
  str (firstn n (chars s)).

(** [not s or not s.strip()] *)
Definition blank (s : string) : bool :=
  String.eqb s "" || String.eqb (strip s) "".

End Py.

(** ** utils/result.py *)

Module Result.

Inductive Result (T E : Type) : Type :=
| Ok (value : T)
| Err (error : E).
Arguments Ok {T E} value.
Arguments Err {T E} error.

Definition is_ok {T E} (r : Result T E) : bool :=
  match r with Ok _ => true | Err _ => false end.

Definition is_err {T E} (r : Result T E) : bool :=
  match r with Ok _ => false | Err _ => true end.

(** [unwrap] returns a Python value that may be [None]; the value type of
    the result is therefore an [option], whose [None] is Python's. *)
Definition unwrap {T E} (r : Result (option T) E) : option T :=
  match r with
  | Ok value => value
  | Err _ => None
  end.

Definition unwrap_or {T E} (r : Result T E) (default : T) : T :=
  match r with
  | Ok value => value
  | Err _ => default
  end.

Definition map {T U E} (fn : T -> U) (r : Result T E) : Result U E :=
  match r with
  | Ok value => Ok (fn value)
  | Err e => Err e
  end.

Definition and_then {T U E} (fn : T -> Result U E) (r : Result T E)
  : Result U E :=
  match r with
  | Ok value => fn value
  | Err e => Err e
  end.

Definition or_else {T E} (fn : E -> Result T E) (r : Result T E)
  : Result T E :=
  match r with
  | Ok _ => r
  | Err e => fn e
  end.

End Result.

(** ** models/paper.py *)

Module Reliability.

Record ReliabilityScore := {
  peer_review : float;
  journal : float;
  citations : float;
  verification : float;
  recency : float;
  is_retracted : bool;
  contradictions : list string
}.

(** [ReliabilityScore()], every field at its default. *)
Definition default : ReliabilityScore :=
  {| peer_review := 0; journal := 0; citations := 0; verification := 0;
     recency := 0; is_retracted := false; contradictions := [] |}.

(** The literal [0.05], as the binary64 value Python reads it. *)
Definition penalty_unit : float := 0x1.999999999999ap-5%float.

(** [ReliabilityScore.total] *)
Definition total (self : ReliabilityScore) : float :=
  if is_retracted self then 0%float
  else
    let base :=
      (peer_review self + journal self + citations self
       + verification self + recency self)%float in
    let penalty :=
      (Py.float_of_len (length (contradictions self)) * penalty_unit)%float in
    Py.max 0%float (Py.min 1%float (base - penalty)%float).

End Reliability.

Module PaperModel.

Inductive AccessType := OPEN | PAYWALLED | UNKNOWN_ACCESS.

Inductive SourceType :=
| PEER_REVIEWED | PREPRINT | CONFERENCE | THESIS | BOOK_CHAPTER
| GREY_LITERATURE | UNKNOWN_SOURCE.

Definition AccessType_eqb (a b : AccessType) : bool :=
  match a, b with
  | OPEN, OPEN | PAYWALLED, PAYWALLED | UNKNOWN_ACCESS, UNKNOWN_ACCESS => true
  | _, _ => false
  end.

Definition SourceType_eqb (a b : SourceType) : bool :=
  match a, b with
  | PEER_REVIEWED, PEER_REVIEWED | PREPRINT, PREPRINT
  | CONFERENCE, CONFERENCE | THESIS, THESIS | BOOK_CHAPTER, BOOK_CHAPTER
  | GREY_LITERATURE, GREY_LITERATURE | UNKNOWN_SOURCE, UNKNOWN_SOURCE => true
  | _, _ => false
  end.

Record Author := {
  name : string;
  affiliation : option string;
  orcid : option string
}.

Record Paper := {
  id : string;
  title : string;
  authors : list Author;
  year : option Z;
  journal : option string;
  publisher : option string;
  volume : option string;
  issue : option string;
  pages : option string;
  doi : option string;
  pmid : option string;
  pmcid : option string;
  arxiv_id : option string;
  abstract : option string;
  keywords : list string;
  citation_count : Z;
  reference_count : Z;
  access_type : AccessType;
  pdf_url : option string;
  html_url : option string;
  source : string;
  source_type : SourceType;
  sources_found_in : list string;
  reliability : Reliability.ReliabilityScore;
  urls : gmap string string;
  relevance_score : float
}.

(** [Paper.reliability_score] *)
Definition reliability_score (self : Paper) : float :=
  Reliability.total (reliability self).

End PaperModel.

(** ** utils/rate_limiter.py

    [time.time()] is an input of the model: [refill] and [take] receive the
    current time [now]. [take] returns the bucket as it is left and the
    wait, [None] standing for the [ZeroDivisionError] of a float division
    by zero. *)

Module RateLimiter.

Record TokenBucket := {
  capacity : float;
  tokens : float;
  refill_rate : float;
  last_refill : float
}.

(** [TokenBucket.__init__] *)
Definition init (requests_per_second now : float) : TokenBucket :=
  {| capacity := requests_per_second; tokens := requests_per_second;
     refill_rate := requests_per_second; last_refill := now |}.

(** [TokenBucket.refill] *)
Definition refill (now : float) (self : TokenBucket) : TokenBucket :=
  let elapsed := (now - last_refill self)%float in
  {| capacity := capacity self;
     tokens := Py.min (capacity self)
                 (tokens self + elapsed * refill_rate self)%float;
     refill_rate := refill_rate self;
     last_refill := now |}.

(** [TokenBucket.take] *)
Definition take (now : float) (self : TokenBucket)
  : TokenBucket * option float :=
  let self := refill now self in
  if PrimFloat.leb 1 (tokens self) then
    ({| capacity := capacity self;
        tokens := (tokens self - 1)%float;
        refill_rate := refill_rate self;
        last_refill := last_refill self |}, Some 0%float)
  else
    (self, Py.div (1 - tokens self)%float (refill_rate self)).

End RateLimiter.

(** ** Exceptions

    A call that can raise returns an [Outcome]: the value, or the
    exception that goes up to the caller. *)

Module Exn.

Inductive Exception := ValueError | TypeError.

Inductive Outcome (A : Type) : Type :=
| Returns (value : A)
| Raises (exception : Exception).
Arguments Returns {A} value.
Arguments Raises {A} exception.

End Exn.

(** ** utils/result.py: [safe_int] on a string *)

Module SafeConv.

Import Exn.

(** [c.isdigit()], on the code points 0..255: the ASCII digits and the
    superscripts 2, 3 and 1. *)
Definition isdigit (c : ascii) : bool :=
  let n := Py.ord c in
  Py.between 48 57 n || Py.between 178 179 n || (n =? 185)%N.

(** The decimal digits, which are what [int] reads. *)
Definition isdecimal (c : ascii) : bool := Py.between 48 57 (Py.ord c).

(** The characters that [safe_int] keeps: [c.isdigit() or c == '-']. *)
Definition kept (c : ascii) : bool := isdigit c || Ascii.eqb c "-"%char.

(** The number that a sequence of decimal digits writes. *)
Definition decimal (ds : list ascii) : Z :=
  fold_left (fun acc c => 10 * acc + (Z.of_N (Py.ord c) - 48)) ds 0.

(** [sys.get_int_max_str_digits()], as CPython sets it: [int] refuses a
    string of more digits, leading zeros counted and the sign not. *)
Definition max_str_digits : nat := 4300.

(** [int(s)] on a string of kept characters: an optional [-] and one or
    more decimal digits, no more than [max_str_digits] of them, or
    [ValueError]. *)
Definition int_of (s : list ascii) : Outcome Z :=
  let unsigned (ds : list ascii) (sign : Z) : Outcome Z :=
    match ds with
    | [] => Raises ValueError
    | _ :: _ =>
        if forallb isdecimal ds && (length ds <=? max_str_digits)%nat
        then Returns (sign * decimal ds)
        else Raises ValueError
    end in
  match s with
  | c :: rest => if Ascii.eqb c "-"%char then unsigned rest (-1)
                 else unsigned s 1
  | [] => Raises ValueError
  end.

(** [safe_int(value, default)] for a [str] value. *)
Definition safe_int (value : string) (default : Z) : Outcome Z :=
  let digits := List.filter kept (Py.chars value) in
  match digits with
  | c :: _ =>
      if isdigit c || (Ascii.eqb c "-"%char && (1 <? length digits)%nat)
      then int_of digits
      else Returns default
  | [] => Returns default
  end.

End SafeConv.

(** ** adapters/arxiv.py *)

Module ArXiv.

Import Result PaperModel Exn.

(** What [_parse_entry] reads of an Atom [entry]: the text of each child
    element it looks up ([None] when the element or its text is missing),
    and the [term] attribute of the category elements. *)
Record Entry := {
  atom_id : option string;
  atom_title : option string;
  atom_author_names : list (option string);
  atom_published : option string;
  atom_summary : option string;
  atom_category_terms : list (option string);
  arxiv_doi : option string;
  arxiv_journal_ref : option string;
  arxiv_primary_category : option string
}.

Section Adapter.

(** The helpers of the adapter that no property below depends on are
    parameters: the identifier regexes of [_extract_id] and
    [calculate_reliability], neither of which raises. *)
Variable _extract_id : string -> option string.
Variable calculate_reliability :
  Paper -> bool -> option string -> Z -> Z -> option Z ->
  Reliability.ReliabilityScore.

(** The network call [_search_batch(query, start, max_results)], a
    function of the request: one search asks for no page twice. *)
Variable _search_batch : string -> Z -> Z -> Result (list Paper) string.

Definition text_or_none (o : option string) : option string :=
  if Py.truthy_str o then option_map Py.strip o else None.

(** [year = safe_int(published_el.text[:4])] when the element has a
    text, [None] otherwise. *)
Definition year_of_published (published : option string)
  : Outcome (option Z) :=
  match published with
  | Some text =>
      if String.eqb text "" then Returns None
      else match SafeConv.safe_int (Py.prefix 4 text) 0 with
           | Returns y => Returns (Some y)
           | Raises e => Raises e
           end
  | None => Returns None
  end.

(** [ArXivAdapter._parse_entry]: it returns [None] or a paper, or raises
    the [ValueError] of [safe_int]. *)
Definition _parse_entry (entry : Entry) : Outcome (option Paper) :=
  match atom_id entry with
  | None => Returns None
  | Some id_text =>
    if String.eqb id_text "" then Returns None else
    match _extract_id id_text with
    | None => Returns None
    | Some arxiv_id' =>
      if String.eqb arxiv_id' "" then Returns None else
      let title' :=
        match atom_title entry with
        | Some t => if String.eqb t "" then "Unknown" else Py.strip t
        | None => "Unknown"
        end in
      let title' := Py.join_space (Py.split title') in
      let authors' :=
        omap (fun n => if Py.truthy_str n
                       then option_map (fun t => {| name := Py.strip t;
                                                    affiliation := None;
                                                    orcid := None |}) n
                       else None)
             (atom_author_names entry) in
      match year_of_published (atom_published entry) with
      | Raises e => Raises e
      | Returns year' =>
      let abstract' :=
        if Py.truthy_str (atom_summary entry)
        then option_map (fun t => Py.join_space (Py.split (Py.strip t)))
                        (atom_summary entry)
        else None in
      let keywords' :=
        omap (fun term => if Py.truthy_str term then term else None)
             (atom_category_terms entry) in
      let doi' := text_or_none (arxiv_doi entry) in
      let journal' := text_or_none (arxiv_journal_ref entry) in
      let primary := arxiv_primary_category entry in
      let pdf := ("https://arxiv.org/pdf/" ++ arxiv_id' ++ ".pdf")%string in
      let urls' : gmap string string :=
        <["pdf" := pdf]>
          (<["arxiv" := ("https://arxiv.org/abs/" ++ arxiv_id')%string]> ∅) in
      let urls' :=
        match doi' with
        | Some d => if String.eqb d "" then urls'
                    else <["doi" := ("https://doi.org/" ++ d)%string]> urls'
        | None => urls'
        end in
      let paper :=
        {| id := ("arxiv_" ++ arxiv_id')%string;
           title := title';
           authors := authors';
           year := year';
           journal :=
             match primary with
             | Some p =>
                 if String.eqb p "" then Some "arXiv"
                 else if Py.truthy_str journal' then journal'
                      else Some ("arXiv:" ++ p)%string
             | None => Some "arXiv"
             end;
           publisher := None; volume := None; issue := None; pages := None;
           doi := doi';
           pmid := None; pmcid := None;
           arxiv_id := Some arxiv_id';
           abstract := abstract';
           keywords := Py.slice_to keywords' 10;
           citation_count := 0; reference_count := 0;
           access_type := OPEN;
           pdf_url := Some pdf;
           html_url := None;
           source := "arXiv";
           source_type := PREPRINT;
           sources_found_in := ["arXiv"];
           reliability := Reliability.default;
           urls := urls';
           relevance_score := 0 |} in
      Returns (Some
        {| id := id paper; title := title paper; authors := authors paper;
           year := year paper; journal := journal paper;
           publisher := publisher paper; volume := volume paper;
           issue := issue paper; pages := pages paper; doi := doi paper;
           pmid := pmid paper; pmcid := pmcid paper;
           arxiv_id := arxiv_id paper; abstract := abstract paper;
           keywords := keywords paper;
           citation_count := citation_count paper;
           reference_count := reference_count paper;
           access_type := access_type paper; pdf_url := pdf_url paper;
           html_url := html_url paper; source := source paper;
           source_type := source_type paper;
           sources_found_in := sources_found_in paper;
           reliability :=
             calculate_reliability paper false None 0 1 (year paper);
           urls := urls paper;
           relevance_score := relevance_score paper |})
      end
    end
  end.

(** The [while] loop of [ArXivAdapter.search]. [fuel] bounds the number of
    iterations and [None] means that it ran out; [fetched] counts the
    calls of [_search_batch] made so far. *)
Fixpoint search_loop (query : string) (max_results batch_size : Z)
    (fuel : nat) (papers : list Paper) (start : Z) (fetched : nat)
  : option (Result (list Paper) string * nat) :=
  if Z.of_nat (length papers) <? max_results then
    match fuel with
    | O => None
    | S fuel' =>
      match _search_batch query start batch_size with
      | Err e =>
          match papers with
          | _ :: _ => Some (Ok papers, S fetched)
          | [] => Some (Err e, S fetched)
          end
      | Ok results =>
          match results with
          | [] => Some (Ok (Py.slice_to papers max_results), S fetched)
          | _ :: _ =>
              let papers := papers ++ results in
              let start := start + batch_size in
              if Z.of_nat (length results) <? batch_size
              then Some (Ok (Py.slice_to papers max_results), S fetched)
              else search_loop query max_results batch_size fuel'
                     papers start (S fetched)
          end
      end
    end
  else Some (Ok (Py.slice_to papers max_results), fetched).

(** [ArXivAdapter.search]; the result comes with the number of batches
    fetched. Every iteration that goes on adds a paper, so [max_results]
    iterations are enough. *)
Definition search (query : string) (max_results : Z)
  : option (Result (list Paper) string * nat) :=
  if Py.blank query then Some (Err "Empty query", O)
  else
    let batch_size := Z.min 100 max_results in
    search_loop query max_results batch_size (Z.to_nat max_results) [] 0 O.

(** The answer to the request for page [k], which starts at
    [k * batch_size]. *)
Definition page (query : string) (max_results : Z) (k : nat)
  : Result (list Paper) string :=
  _search_batch query (Z.of_nat k * Z.min 100 max_results)
    (Z.min 100 max_results).

(** The papers of the pages [0 .. n-1], in order. *)
Definition pages_before (query : string) (max_results : Z) (n : nat)
  : list Paper :=
  concat (List.map
            (fun k => match page query max_results k with
                      | Ok results => results
                      | Err _ => []
                      end)
            (seq 0 n)).

(** The pages [0 .. n-1] were fetched with success and each brought
    papers. *)
Definition fetched_ok (query : string) (max_results : Z) (n : nat) : Prop :=
  forall j, (j < n)%nat ->
    exists results, page query max_results j = Ok results /\ results <> [].

(** What makes the loop ask for page [n]: each page before it was
    fetched with success and was full, and together they hold fewer than
    [max_results] papers. For the first page this is
    [0 < max_results]. *)
Definition asks_for (query : string) (max_results : Z) (n : nat) : Prop :=
  (forall j, (j < n)%nat ->
     exists results,
       page query max_results j = Ok results /\
       Z.min 100 max_results <= Z.of_nat (length results)) /\
  Z.of_nat (length (pages_before query max_results n)) < max_results.

End Adapter.

End ArXiv.

(** ** The keywords that the other parsers give to a paper

    PubMed, Semantic Scholar and OpenAlex are the other adapters whose
    parser passes [keywords] to [Paper]; CrossRef, CORE, BASE and Europe
    PMC pass none, and the field is then the empty list. *)

Module PubMed.

(** [PubMedAdapter._parse_article], the [keywords] of the paper.
    [mesh_headings] is [None] when the citation has no [MeshHeadingList];
    otherwise it holds, for each [MeshHeading], the text of its
    [DescriptorName] ([None] when the element or its text is missing). *)
Definition keywords (mesh_headings : option (list (option string)))
  : list string :=
  let keywords :=
    match mesh_headings with
    | Some headings =>
        omap (fun text => if Py.truthy_str text then text else None)
             headings
    | None => []
    end in
  Py.slice_to keywords 10.

End PubMed.

Module SemanticScholar.

Import Exn.

(** [SemanticScholarAdapter._parse_paper], the [keywords] of the paper:
    [safe_get(data, "fieldsOfStudy", [])[:10]]. The field of the JSON
    object is absent ([None]), [null] ([Some None]) or a list of
    strings; slicing [None] raises [TypeError]. *)
Definition keywords (fieldsOfStudy : option (option (list string)))
  : Outcome (list string) :=
  match fieldsOfStudy with
  | None => Returns (Py.slice_to [] 10)
  | Some None => Raises TypeError
  | Some (Some keywords) => Returns (Py.slice_to keywords 10)
  end.

End SemanticScholar.

Module OpenAlex.

Import Exn.

(** [OpenAlexAdapter._parse_work], the [keywords] of the paper: the
    names of the first ten of [safe_get(data, "concepts", [])]. The field
    is absent, [null] or a list of concepts, each given by its
    [display_name] ([None] when it has none). *)
Definition keywords (concepts : option (option (list (option string))))
  : Outcome (list string) :=
  let names (concepts : list (option string)) : list string :=
    omap (fun name => if Py.truthy_str name then name else None)
         (Py.slice_to concepts 10) in
  match concepts with
  | None => Returns (names [])
  | Some None => Raises TypeError
  | Some (Some concepts) => Returns (names concepts)
  end.

End OpenAlex.

(** ** core/orchestrator.py *)

Module Orchestrator.

Import Result PaperModel.

Record SearchConfig := {
  max_per_source : Z;
  expand_citations : bool;
  citation_depth : Z;
  include_preprints : bool;
  min_reliability : float;
  year_start : option Z;
  year_end : option Z
}.

Definition stopwords : list string :=
  ["the"; "a"; "an"; "and"; "or"; "of"; "in"; "on"; "for"; "to"; "with"].

Definition is_stopword (w : string) : bool :=
  existsb (String.eqb w) stopwords.

(** [SearchOrchestrator._normalize_title] *)
Definition _normalize_title (title : string) : string :=
  if String.eqb title "" then ""
  else
    let title := Py.lower title in
    let title := Py.sub_nonword_nonspace title in
    let title := Py.join_space (Py.split title) in
    let words := List.filter (fun w => negb (is_stopword w)) (Py.split title) in
    Py.join_space words.

(** The loop [for x in xs: if x not in acc: acc.append(x)] of [_merge]. *)
Definition append_new (acc xs : list string) : list string :=
  fold_left
    (fun acc x => if existsb (String.eqb x) acc then acc else acc ++ [x])
    xs acc.

(** [SearchOrchestrator._merge]: the value of [target] once [source] has
    been merged into it. *)
Definition _merge (target source : Paper) : Paper :=
  let fill (t s : option string) : option string :=
    if negb (Py.truthy_str t) && Py.truthy_str s then s else t in
  let is_open := AccessType_eqb (access_type source) OPEN in
  {| id := id target;
     title := title target;
     authors := authors target;
     year := year target;
     journal := journal target;
     publisher := publisher target;
     volume := volume target;
     issue := issue target;
     pages := pages target;
     doi := fill (doi target) (doi source);
     pmid := fill (pmid target) (pmid source);
     pmcid := pmcid target;
     arxiv_id := fill (arxiv_id target) (arxiv_id source);
     abstract := fill (abstract target) (abstract source);
     keywords := append_new (keywords target) (keywords source);
     citation_count :=
       if citation_count target <? citation_count source
       then citation_count source else citation_count target;
     reference_count := reference_count target;
     access_type := if is_open then OPEN else access_type target;
     pdf_url :=
       if is_open && Py.truthy_str (pdf_url source)
       then pdf_url source else pdf_url target;
     html_url := html_url target;
     source := PaperModel.source target;
     source_type := source_type target;
     sources_found_in :=
       append_new (sources_found_in target) (sources_found_in source);
     reliability := reliability target;
     urls := urls source ∪ urls target;
     relevance_score := relevance_score target |}.

(** The keys of the four maps of [_deduplicate]. *)
Definition doi_key (p : Paper) : option string :=
  if Py.truthy_str (doi p)
  then option_map (fun d => Py.strip (Py.lower d)) (doi p) else None.

Definition pmid_key (p : Paper) : option string :=
  if Py.truthy_str (pmid p) then option_map Py.strip (pmid p) else None.

Definition arxiv_key (p : Paper) : option string :=
  if Py.truthy_str (arxiv_id p)
  then option_map (fun a => Py.strip (Py.lower a)) (arxiv_id p) else None.

Definition title_key (p : Paper) : string := _normalize_title (title p).

(** The state of the loop of [_deduplicate]. The papers are objects that
    [_merge] mutates while the maps and [unique] refer to them: [heap] holds
    the object at each position of the input list, and the maps and
    [unique] hold positions. *)
Record DedupState := {
  heap : list Paper;
  by_doi : gmap string nat;
  by_pmid : gmap string nat;
  by_arxiv : gmap string nat;
  by_title : gmap string nat;
  unique : list nat
}.

(** [self._merge(objects[t], objects[i])] *)
Definition merge_at (h : list Paper) (t i : nat) : list Paper :=
  match h !! t, h !! i with
  | Some target, Some source => <[t := _merge target source]> h
  | _, _ => h
  end.

(** [if key in m: self._merge(m[key], paper); merged = True
     else: m[key] = paper] *)
Definition probe (m : gmap string nat) (key : string) (i : nat)
    (h : list Paper) : gmap string nat * list Paper * bool :=
  match m !! key with
  | Some t => (m, merge_at h t i, true)
  | None => (<[key := i]> m, h, false)
  end.

(** One check of the loop, [if not merged and paper.<id>: ...]: skipped
    when the paper is merged already or has no such identifier. The title
    check, [if not merged: ...], always has a key. *)
Definition check (key : option string) (i : nat)
    (s : gmap string nat * list Paper * bool)
  : gmap string nat * list Paper * bool :=
  let '(m, h, merged) := s in
  match key with
  | Some k => if merged then s else probe m k i h
  | None => s
  end.

(** The body of the loop of [_deduplicate], for the paper at position [i]. *)
Definition dedup_paper (st : DedupState) (i : nat) : DedupState :=
  match heap st !! i with
  | None => st
  | Some paper =>
    let '(d, h, merged) :=
      check (doi_key paper) i (by_doi st, heap st, false) in
    let '(p, h, merged) := check (pmid_key paper) i (by_pmid st, h, merged) in
    let '(a, h, merged) := check (arxiv_key paper) i (by_arxiv st, h, merged) in
    let '(t, h, merged) :=
      check (Some (title_key paper)) i (by_title st, h, merged) in
    {| heap := h; by_doi := d; by_pmid := p; by_arxiv := a; by_title := t;
       unique := if merged then unique st else unique st ++ [i] |}
  end.

Definition dedup_init (papers : list Paper) : DedupState :=
  {| heap := papers; by_doi := ∅; by_pmid := ∅; by_arxiv := ∅;
     by_title := ∅; unique := [] |}.

Definition dedup_run (papers : list Paper) : DedupState :=
  fold_left dedup_paper (seq 0 (length papers)) (dedup_init papers).

(** The positions, in the input list, of the papers that [_deduplicate]
    returns. *)
Definition _deduplicate_positions (papers : list Paper) : list nat :=
  unique (dedup_run papers).

(** [SearchOrchestrator._deduplicate]: the papers of [unique], as the
    merges left them. *)
Definition _deduplicate (papers : list Paper) : list Paper :=
  let st := dedup_run papers in
  omap (fun i => heap st !! i) (unique st).

(** The filters of [SearchOrchestrator.search], applied to the ranked
    list. *)
Definition apply_filters (config : SearchConfig) (ranked_papers : list Paper)
  : list Paper :=
  let ranked_papers :=
    if PrimFloat.ltb 0 (min_reliability config)
    then List.filter
           (fun p => PrimFloat.leb (min_reliability config)
                       (reliability_score p))
           ranked_papers
    else ranked_papers in
  let ranked_papers :=
    match year_start config with
    | Some ys =>
        if Py.truthy_int (Some ys)
        then List.filter
               (fun p => match year p with
                         | Some y => Py.truthy_int (Some y) && (ys <=? y)
                         | None => false
                         end)
               ranked_papers
        else ranked_papers
    | None => ranked_papers
    end in
  let ranked_papers :=
    match year_end config with
    | Some ye =>
        if Py.truthy_int (Some ye)
        then List.filter
               (fun p => match year p with
                         | Some y => Py.truthy_int (Some y) && (y <=? ye)
                         | None => false
                         end)
               ranked_papers
        else ranked_papers
    | None => ranked_papers
    end in
  if include_preprints config then ranked_papers
  else List.filter
         (fun p => negb (SourceType_eqb (source_type p) PREPRINT))
         ranked_papers.

(** *** The filters as the specification words them

    Year range first, then the reliability threshold, then the preprint
    exclusion. [bound_of] gives a year bound when it counts as set and
    [year_of] the year of a paper when it counts as having one. *)
Section SpecFilters.

Variable bound_of : option Z -> option Z.
Variable year_of : Paper -> option Z.

Definition in_year_range (config : SearchConfig) (p : Paper) : bool :=
  match bound_of (year_start config), bound_of (year_end config) with
  | None, None => true
  | lo, hi =>
      match year_of p with
      | None => false
      | Some y =>
          match lo with Some ys => ys <=? y | None => true end
          && match hi with Some ye => y <=? ye | None => true end
      end
  end.

Definition filters_in_spec_order (config : SearchConfig)
    (ranked_papers : list Paper) : list Paper :=
  let by_year := List.filter (in_year_range config) ranked_papers in
  let by_reliability :=
    List.filter
      (fun p => negb (PrimFloat.ltb (reliability_score p)
                        (min_reliability config)))
      by_year in
  List.filter
    (fun p => include_preprints config
              || negb (SourceType_eqb (source_type p) PREPRINT))
    by_reliability.

End SpecFilters.

(** A bound or a year that is falsy ([None] or [0]) counts as absent. *)
Definition nonzero (o : option Z) : option Z :=
  if Py.truthy_int o then o else None.

End Orchestrator.

(** ** Words of a normalized title *)

Module TitleWords.

(** A word: not empty and free of whitespace. *)
Definition word (w : list ascii) : Prop :=
  w <> [] /\ Forall (fun c => Py.isspace c = false) w.

Definition content_word (w : list ascii) : bool :=
  negb (Orchestrator.is_stopword (Py.str w)).

(** A character that [lower()] and the substitution leave alone. *)
Definition settled (c : ascii) : Prop :=
  Py.lower_char c = c /\ Py.keep c = true.

End TitleWords.

(** ** The loop of [_deduplicate], check by check *)

Module Dedup.

Import PaperModel Orchestrator.
Local Open Scope nat_scope.

(** The four checks of the loop, in the order in which it makes them. *)
Inductive Check := ByDoi | ByPmid | ByArxiv | ByTitle.

Definition rank (X : Check) : nat :=
  match X with ByDoi => 0 | ByPmid => 1 | ByArxiv => 2 | ByTitle => 3 end.

Definition key_of (X : Check) (p : Paper) : option string :=
  match X with
  | ByDoi => doi_key p
  | ByPmid => pmid_key p
  | ByArxiv => arxiv_key p
  | ByTitle => Some (title_key p)
  end.

Definition map_of (X : Check) (st : DedupState) : gmap string nat :=
  match X with
  | ByDoi => by_doi st
  | ByPmid => by_pmid st
  | ByArxiv => by_arxiv st
  | ByTitle => by_title st
  end.

(** The state after the first [n] papers. *)
Definition dedup_upto (papers : list Paper) (n : nat) : DedupState :=
  fold_left dedup_paper (seq 0 n) (dedup_init papers).

(** Check [Y] of the paper [S] at position [n] missed and left its key in
    the map, or had no key to look up. *)
Definition registered (st st' : DedupState) (n : nat) (S : Paper)
    (Y : Check) : Prop :=
  match key_of Y S with
  | Some k => map_of Y st !! k = None /\
              map_of Y st' = <[k := n]> (map_of Y st)
  | None => map_of Y st' = map_of Y st
  end.

(** The paper at [n] was merged by check [X] into the paper at [t]. *)
Definition merged_by (st st' : DedupState) (n : nat) (S : Paper)
    (X : Check) (t : nat) : Prop :=
  (exists k, key_of X S = Some k /\ map_of X st !! k = Some t) /\
  heap st' = merge_at (heap st) t n /\
  unique st' = unique st /\
  (forall Y, rank Y < rank X -> registered st st' n S Y) /\
  (forall Y, rank X <= rank Y -> map_of Y st' = map_of Y st).

(** The paper at [n] was kept. *)
Definition kept (st st' : DedupState) (n : nat) (S : Paper) : Prop :=
  heap st' = heap st /\
  unique st' = unique st ++ [n] /\
  forall Y, registered st st' n S Y.

(** A map after a step: what it held is still there, and what is new is
    the position [n] under a key of the paper [S]. *)
Definition grown (st st' : DedupState) (n : nat) (S : Paper) (Y : Check)
  : Prop :=
  (forall k v, map_of Y st !! k = Some v -> map_of Y st' !! k = Some v) /\
  (forall k v, map_of Y st' !! k = Some v ->
     map_of Y st !! k = Some v \/ (v = n /\ key_of Y S = Some k)).

(** What the loop has established after [n] papers of [L]: the papers not
    yet reached are untouched; a paper keeps the keys it came with; the
    maps hold positions already reached, under a key that the paper there
    came with; a kept paper owns the keys it came with; and the DOIs of
    the kept papers, back-filled ones included, are in [by_doi] and
    differ. *)
Record dedup_inv (L : list Paper) (n : nat) (st : DedupState) : Prop := {
  inv_len : length (heap st) = length L;
  inv_rest : forall i, n <= i -> heap st !! i = L !! i;
  inv_keep : forall i P0 P X k,
    L !! i = Some P0 -> heap st !! i = Some P ->
    key_of X P0 = Some k -> key_of X P = Some k;
  inv_maps : forall X k t,
    map_of X st !! k = Some t ->
    t < n /\ exists P0, L !! t = Some P0 /\ key_of X P0 = Some k;
  inv_unique_lt : forall u, In u (unique st) -> u < n;
  inv_unique_nodup : NoDup (unique st);
  inv_owner : forall u P0 X k,
    In u (unique st) -> L !! u = Some P0 -> key_of X P0 = Some k ->
    map_of X st !! k = Some u;
  inv_doi_dom : forall u P k,
    In u (unique st) -> heap st !! u = Some P -> doi_key P = Some k ->
    is_Some (by_doi st !! k);
  inv_doi_distinct : forall u v P Q k,
    In u (unique st) -> In v (unique st) -> u <> v ->
    heap st !! u = Some P -> heap st !! v = Some Q ->
    doi_key P = Some k -> doi_key Q <> Some k
}.

(** What the loop has established after [n] papers of a list [O] in which
    no check can hit. *)
Record fixed_inv (O : list Paper) (n : nat) (st : DedupState) : Prop := {
  fixed_heap : heap st = O;
  fixed_unique : unique st = seq 0 n;
  fixed_maps : forall X k t,
    map_of X st !! k = Some t ->
    t < n /\ exists P, O !! t = Some P /\ key_of X P = Some k
}.

End Dedup.

(** ** Concrete papers, entries and configurations *)

Module Examples.

Import Result PaperModel Orchestrator.

(** A paper as an adapter builds it, from its title, identifiers and
    keywords. *)
Definition paper_of (t : string) (d p a : option string)
    (kw : list string) : Paper :=
  {| id := t; title := t; authors := []; year := None; journal := None;
     publisher := None; volume := None; issue := None; pages := None;
     doi := d; pmid := p; pmcid := None; arxiv_id := a; abstract := None;
     keywords := kw; citation_count := 0; reference_count := 0;
     access_type := UNKNOWN_ACCESS; pdf_url := None; html_url := None;
     source := "PubMed"; source_type := UNKNOWN_SOURCE;
     sources_found_in := ["PubMed"];
     reliability := Reliability.default; urls := ∅; relevance_score := 0 |}.

(** Two papers with one title and two DOIs. *)
Definition same_title_papers : list Paper :=
  [ paper_of "Deep Learning" (Some "10.1/a") None None [];
    paper_of "Deep learning." (Some "10.1/b") None None [] ].

(** A paper found by DOI, one found by PMID, and a third record that
    carries the DOI of the first and the PMID of the second. *)
Definition backfill_papers : list Paper :=
  [ paper_of "Alpha" (Some "10.1/a") None None [];
    paper_of "Beta" None (Some "7") None [];
    paper_of "Gamma" (Some "10.1/A") (Some "7") None [] ].

(** The same for arXiv identifiers. *)
Definition backfill_arxiv_papers : list Paper :=
  [ paper_of "Alpha" (Some "10.1/a") None None [];
    paper_of "Beta" None None (Some "2301.01234") [];
    paper_of "Gamma" (Some "10.1/A") None (Some "2301.01234") [] ].

Definition ten_keywords : list string :=
  ["k0"; "k1"; "k2"; "k3"; "k4"; "k5"; "k6"; "k7"; "k8"; "k9"].

(** Two records of one DOI, of ten keywords and of one more. *)
Definition keyword_papers : list Paper :=
  [ paper_of "Alpha" (Some "10.1/a") None None ten_keywords;
    paper_of "Alpha" (Some "10.1/a") None None ["k10"] ].

(** [SearchConfig()] with [year_start=0]. *)
Definition year_zero_config : SearchConfig :=
  {| max_per_source := 100; expand_citations := true; citation_depth := 1;
     include_preprints := true; min_reliability := 0;
     year_start := Some 0; year_end := None |}.

(** An entry with twelve categories. *)
Definition entry_of_twelve : ArXiv.Entry :=
  {| ArXiv.atom_id := Some "http://arxiv.org/abs/2301.01234v2";
     ArXiv.atom_title := Some " Attention  is all ";
     ArXiv.atom_author_names := [Some "A. Author"; None];
     ArXiv.atom_published := Some "2023-01-03T00:00:00Z";
     ArXiv.atom_summary := None;
     ArXiv.atom_category_terms :=
       List.map Some (ten_keywords ++ ["k10"; "k11"]);
     ArXiv.arxiv_doi := None;
     ArXiv.arxiv_journal_ref := None;
     ArXiv.arxiv_primary_category := Some "cs.CL" |}.

(** A source of two full pages of a hundred papers, then of errors. *)
Definition two_pages_then_error (query : string) (start size : Z)
  : Result (list Paper) string :=
  if start <? 200
  then Ok (repeat (paper_of "P" None None None []) 100)
  else Err "Search failed: timeout".

(** Two records of one DOI and a third paper, each PMID its own. *)
Definition clean_papers : list Paper :=
  [ paper_of "Alpha" (Some "10.1/a") (Some "1") None [];
    paper_of "Beta" None (Some "2") None [];
    paper_of "alpha" (Some "10.1/A") None None [] ].

(** A record of the same work with keywords of its own, two of which
    the arXiv entry has and one of which comes twice. *)
Definition other_record : Paper :=
  paper_of "Attention is all" None None (Some "2301.01234")
    ["k10"; "k3"; "k12"; "k10"; "k0"; "k13"].

(** Two papers that share no key. *)
Definition distinct_papers : list Paper :=
  [ paper_of "Alpha" (Some "10.1/a") (Some "1") None [];
    paper_of "Beta" (Some "10.1/b") None (Some "2301.01234") [] ].

(** Stand-ins for the helpers of the arXiv adapter. *)
Definition extract_id_stub (url_or_id : string) : option string :=
  Some "2301.01234".
Definition calculate_reliability_stub (paper : Paper) (is_peer_reviewed : bool)
    (journal_name : option string) (citation_count sources_found : Z)
    (year : option Z) : Reliability.ReliabilityScore :=
  Reliability.default.

End Examples.

(** ** The properties, as the specification words them *)

Module Spec.

Import Result PaperModel Orchestrator.
Local Open Scope nat_scope.

(** What [take()] does at time [now]: refill, then take a token and wait 0,
    or keep the refilled tokens and wait [(1 - tokens) / refill_rate]. *)
Definition take_as_specified (now : float) (b : RateLimiter.TokenBucket)
  : Prop :=
  let refilled :=
    Py.min (RateLimiter.capacity b)
      (RateLimiter.tokens b
       + (now - RateLimiter.last_refill b) * RateLimiter.refill_rate b)%float in
  let bucket (t : float) :=
    {| RateLimiter.capacity := RateLimiter.capacity b;
       RateLimiter.tokens := t;
       RateLimiter.refill_rate := RateLimiter.refill_rate b;
       RateLimiter.last_refill := now |} in
  if PrimFloat.leb 1 refilled
  then RateLimiter.take now b = (bucket (refilled - 1)%float, Some 0%float)
  else RateLimiter.take now b
       = (bucket refilled,
          Some ((1 - refilled) / RateLimiter.refill_rate b)%float).

(** No two papers at distinct positions of [l] have the same [key]. *)
Definition distinct_by (key : Paper -> option string) (l : list Paper)
  : Prop :=
  forall (a b : nat) (P Q : Paper) (k : string),
    a <> b -> l !! a = Some P -> l !! b = Some Q ->
    key P = Some k -> key Q <> Some k.

Definition distinct_titles (l : list Paper) : Prop :=
  distinct_by (fun p => Some (title_key p)) l.

(** No two papers of the output of [_deduplicate] came into it with the
    same [key]: the papers at distinct positions of the output are looked
    up in the input [l], at the positions they were taken from. *)
Definition distinct_as_found (key : Paper -> option string) (l : list Paper)
  : Prop :=
  forall (a b i j : nat) (P Q : Paper) (k : string),
    a <> b ->
    _deduplicate_positions l !! a = Some i ->
    _deduplicate_positions l !! b = Some j ->
    l !! i = Some P -> l !! j = Some Q ->
    key P = Some k -> key Q <> Some k.



Definition keywords_capped (p : Paper) : Prop :=
  (length (keywords p) <= 10)%nat.

(** The elements of [l], each once, where it first occurs. *)
Fixpoint first_occurrences (l : list string) : list string :=
  match l with
  | [] => []
  | x :: rest =>
      x :: List.filter (fun y => negb (String.eqb y x))
             (first_occurrences rest)
  end.

(** The ordered union of two lists of keywords: those of [a], as they
    are, followed by those of [b] that [a] does not have, each once, in
    the order in which they first occur in [b]. *)
Definition ordered_union (a b : list string) : list string :=
  a ++ first_occurrences
         (List.filter (fun x => negb (existsb (String.eqb x) a)) b).

End Spec.

(** ** models/paper.py: levels and [calculate_reliability] *)

Module Scoring.

Import PaperModel Reliability.

Inductive ReliabilityLevel := HIGH | MEDIUM | LOW.

(** [ReliabilityLevel.value] *)
Definition level_value (l : ReliabilityLevel) : string :=
  match l with HIGH => "green" | MEDIUM => "yellow" | LOW => "red" end.

(** The literals of the module, as the binary64 values Python reads. *)
Definition f0_8 : float := 0x1.999999999999ap-1%float.
Definition f0_5 : float := 0x1p-1%float.
Definition f0_30 : float := 0x1.3333333333333p-2%float.
Definition f0_20 : float := 0x1.999999999999ap-3%float.
Definition f0_15 : float := 0x1.3333333333333p-3%float.
Definition f0_10 : float := 0x1.999999999999ap-4%float.
Definition f0_07 : float := 0x1.1eb851eb851ecp-4%float.
Definition f0_05 : float := 0x1.999999999999ap-5%float.
Definition f0_04 : float := 0x1.47ae147ae147bp-5%float.
Definition f0_02 : float := 0x1.47ae147ae147bp-6%float.

(** [ReliabilityScore.level] *)
Definition level (self : ReliabilityScore) : ReliabilityLevel :=
  let score := total self in
  if PrimFloat.leb f0_8 score then HIGH
  else if PrimFloat.leb f0_5 score then MEDIUM
  else LOW.

(** [ReliabilityScore.color] *)
Definition color (self : ReliabilityScore) : string :=
  level_value (level self).

Definition HIGH_IMPACT_JOURNALS : list string :=
  ["nature"; "science"; "cell"; "the lancet";
   "new england journal of medicine"; "jama"; "bmj";
   "nature medicine"; "nature genetics"; "nature biotechnology";
   "nature communications";
   "proceedings of the national academy of sciences";
   "physical review letters"; "journal of the american chemical society";
   "angewandte chemie"; "chemical reviews"; "chemical society reviews";
   "neuron"; "immunity"; "molecular cell"].

Definition REPUTABLE_PUBLISHERS : list string :=
  ["nature publishing group"; "springer"; "elsevier"; "wiley";
   "cell press"; "american chemical society"; "royal society of chemistry";
   "ieee"; "american physical society"; "oxford university press";
   "cambridge university press"; "plos"; "frontiers"; "bmc"].

Fixpoint starts_with (needle hay : list ascii) : bool :=
  match needle, hay with
  | [], _ => true
  | c :: needle', d :: hay' => Ascii.eqb c d && starts_with needle' hay'
  | _ :: _, [] => false
  end.

Fixpoint contains_chars (needle hay : list ascii) : bool :=
  starts_with needle hay
  || match hay with
     | [] => false
     | _ :: hay' => contains_chars needle hay'
     end.

(** [needle in hay] on strings *)
Definition contains (needle hay : string) : bool :=
  contains_chars (Py.chars needle) (Py.chars hay).

(** The peer-review component. *)
Definition peer_review_score (paper : Paper) (is_peer_reviewed : bool)
  : float :=
  if is_peer_reviewed then f0_30
  else if SourceType_eqb (source_type paper) PREPRINT then f0_10
  else if SourceType_eqb (source_type paper) CONFERENCE then f0_20
  else f0_05.

(** The journal component. *)
Definition journal_score (paper : Paper) (journal_name : option string)
  : float :=
  match journal_name with
  | Some j =>
      if String.eqb j "" then 0%float
      else
        let journal_lower := Py.lower j in
        if existsb (fun h => contains h journal_lower) HIGH_IMPACT_JOURNALS
        then f0_20
        else
          match publisher paper with
          | Some p =>
              if negb (String.eqb p "")
                 && existsb (String.eqb (Py.lower p)) REPUTABLE_PUBLISHERS
              then f0_15 else f0_10
          | None => f0_10
          end
  | None => 0%float
  end.

(** The citation component. *)
Definition citations_score (citation_count : Z) : float :=
  if 500 <=? citation_count then f0_20
  else if 100 <=? citation_count then f0_15
  else if 25 <=? citation_count then f0_10
  else if 5 <=? citation_count then f0_05
  else if 1 <=? citation_count then f0_02
  else 0%float.

(** The verification component. *)
Definition verification_score (sources_found : Z) : float :=
  if 5 <=? sources_found then f0_20
  else if 3 <=? sources_found then f0_15
  else if 2 <=? sources_found then f0_10
  else f0_05.

(** The recency component; [current_year] is [datetime.now().year]. *)
Definition recency_score (current_year : Z) (year : option Z) : float :=
  match year with
  | Some y =>
      if y =? 0 then 0%float
      else
        let age := current_year - y in
        if age <=? 2 then f0_10
        else if age <=? 5 then f0_07
        else if age <=? 10 then f0_04
        else f0_02
  | None => 0%float
  end.

(** [calculate_reliability] *)
Definition calculate_reliability (current_year : Z) (paper : Paper)
    (is_peer_reviewed : bool) (journal_name : option string)
    (citation_count sources_found : Z) (year : option Z)
    (is_retracted : bool) : ReliabilityScore :=
  if is_retracted then
    {| peer_review := 0; Reliability.journal := 0; citations := 0;
       verification := 0; recency := 0; is_retracted := true;
       contradictions := [] |}
  else
    {| peer_review := peer_review_score paper is_peer_reviewed;
       Reliability.journal := journal_score paper journal_name;
       citations := citations_score citation_count;
       verification := verification_score sources_found;
       recency := recency_score current_year year;
       is_retracted := false;
       contradictions := [] |}.

(** [Paper.author_string] *)
Definition author_string (self : Paper) : string :=
  let names := List.map name (authors self) in
  match names with
  | [] => "Unknown"
  | _ =>
      if (length names <=? 3)%nat then String.concat ", " names
      else (String.concat ", " (firstn 3 names) ++ " et al.")%string
  end.

End Scoring.

(** ** adapters/arxiv.py: [_extract_id] *)

Module ArXivIds.

(** [\d] on a [str] pattern, on the code points 0..255. *)
Definition isdecimal (c : ascii) : bool := Py.between 48 57 (Py.ord c).

(** The class [[a-z-]]. *)
Definition islowerdash (c : ascii) : bool :=
  Py.between 97 122 (Py.ord c) || Ascii.eqb c "-"%char.

(** [\d{n}] at the head of [l]: the digits and what follows them. *)
Fixpoint take_digits (n : nat) (l : list ascii)
  : option (list ascii * list ascii) :=
  match n with
  | O => Some ([], l)
  | S n' =>
      match l with
      | c :: l' =>
          if isdecimal c
          then match take_digits n' l' with
               | Some (ds, rest) => Some (c :: ds, rest)
               | None => None
               end
          else None
      | [] => None
      end
  end.

Fixpoint take_while (f : ascii -> bool) (l : list ascii) : list ascii :=
  match l with
  | c :: l' => if f c then c :: take_while f l' else []
  | [] => []
  end.

(** Group 1 of [(\d{4}\.\d{4,5})(v\d+)?] matched at the head of [l]: the
    second group is optional and the quantifier [{4,5}] is greedy. *)
Definition new_style_at (l : list ascii) : option (list ascii) :=
  match take_digits 4 l with
  | Some (yymm, c :: rest) =>
      if Ascii.eqb c "."%char then
        match take_digits 4 rest with
        | Some (number, rest') =>
            let fifth :=
              match rest' with
              | d :: _ => if isdecimal d then [d] else []
              | [] => []
              end in
            Some (yymm ++ "."%char :: number ++ fifth)
        | None => None
        end
      else None
  | _ => None
  end.

(** Group 1 of [([a-z-]+/\d{7})(v\d+)?] matched at the head of [l]: the
    run of [[a-z-]] is the longest one, since a [/] has to follow it. *)
Definition old_style_at (l : list ascii) : option (list ascii) :=
  let category := take_while islowerdash l in
  match category with
  | [] => None
  | _ :: _ =>
      match skipn (length category) l with
      | c :: rest =>
          if Ascii.eqb c "/"%char then
            match take_digits 7 rest with
            | Some (number, _) => Some (category ++ "/"%char :: number)
            | None => None
            end
          else None
      | [] => None
      end
  end.

(** [re.search]: the match at the leftmost position that has one. *)
Fixpoint first_match (at_head : list ascii -> option (list ascii))
    (l : list ascii) : option (list ascii) :=
  match at_head l with
  | Some m => Some m
  | None =>
      match l with
      | _ :: l' => first_match at_head l'
      | [] => None
      end
  end.

Definition extract_chars (l : list ascii) : option (list ascii) :=
  match first_match new_style_at l with
  | Some m => Some m
  | None => first_match old_style_at l
  end.

(** [ArXivAdapter._extract_id] *)
Definition _extract_id (url_or_id : string) : option string :=
  if String.eqb url_or_id "" then None
  else option_map Py.str (extract_chars (Py.chars url_or_id)).

End ArXivIds.

(** ** core/orchestrator.py: the phases of [search] *)

Module Pipeline.

Import Result PaperModel Orchestrator.

Record SearchResult := {
  query : string;
  papers : list Paper;
  total_found : Z;
  sources_searched : list string;
  duplicates_removed : Z;
  search_time_seconds : float;
  high_reliability : Z;
  medium_reliability : Z;
  low_reliability : Z;
  open_access : Z;
  paywalled : Z;
  earliest_year : option Z;
  latest_year : option Z
}.

(** [SearchConfig()] *)
Definition default_config : SearchConfig :=
  {| max_per_source := 100; expand_citations := true; citation_depth := 1;
     include_preprints := true; min_reliability := 0;
     year_start := None; year_end := None |}.

(** [paper.reliability = r] *)
Definition set_reliability (p : Paper) (r : Reliability.ReliabilityScore)
  : Paper :=
  {| id := id p; title := title p; authors := authors p; year := year p;
     journal := journal p; publisher := publisher p; volume := volume p;
     issue := issue p; pages := pages p; doi := doi p; pmid := pmid p;
     pmcid := pmcid p; arxiv_id := arxiv_id p; abstract := abstract p;
     keywords := keywords p; citation_count := citation_count p;
     reference_count := reference_count p; access_type := access_type p;
     pdf_url := pdf_url p; html_url := html_url p;
     source := PaperModel.source p; source_type := source_type p;
     sources_found_in := sources_found_in p; reliability := r;
     urls := urls p; relevance_score := relevance_score p |}.

(** [SearchOrchestrator._update_reliability]; [current_year] is
    [datetime.now().year]. *)
Definition _update_reliability (current_year : Z) (papers : list Paper)
  : list Paper :=
  List.map
    (fun paper =>
       let sources_count := Z.of_nat (length (sources_found_in paper)) in
       set_reliability paper
         (Scoring.calculate_reliability current_year paper
            (SourceType_eqb (source_type paper) PEER_REVIEWED)
            (journal paper) (citation_count paper) sources_count
            (year paper) false))
    papers.

(** Phase 1 of [search]: each adapter, given by its name and by what its
    [search] answers, is asked in turn; the papers of the successful ones
    are collected and their names recorded. *)
Definition fan_out
    (adapters : list (string * (string -> Z -> Result (list Paper) string)))
    (query : string) (max_per_source : Z) : list Paper * list string :=
  fold_left
    (fun '(all_papers, sources_searched) '(name, search) =>
       match search query max_per_source with
       | Ok papers => (all_papers ++ papers, sources_searched ++ [name])
       | Err _ => (all_papers, sources_searched)
       end)
    adapters ([], []).

(** [sorted(l, key=lambda p: p.citation_count, reverse=True)]: a stable
    sort, the papers of equal count staying in their order. *)
Fixpoint insert_by_citations (p : Paper) (sorted : list Paper) : list Paper :=
  match sorted with
  | q :: rest =>
      if citation_count p <? citation_count q
      then q :: insert_by_citations p rest
      else p :: sorted
  | [] => [p]
  end.

Definition sort_by_citations (l : list Paper) : list Paper :=
  fold_right insert_by_citations [] l.

(** The papers whose citations are followed: the 20 most cited ones. *)
Definition top_papers (all_papers : list Paper) : list Paper :=
  Py.slice_to
    (sort_by_citations
       (List.filter (fun p => 0 <? citation_count p) all_papers))
    20.

(** The papers that the citation walk brings: for each top paper, the
    first 5 that cite it and the first 5 that it cites, a failed request
    bringing none. *)
Definition citation_papers
    (get_citations get_references : Paper -> Result (list Paper) string)
    (top : list Paper) : list Paper :=
  flat_map
    (fun paper =>
       match get_citations paper with
       | Ok cites => Py.slice_to cites 5
       | Err _ => []
       end
       ++ match get_references paper with
          | Ok refs => Py.slice_to refs 5
          | Err _ => []
          end)
    top.

(** Phase 2 of [search] *)
Definition expand
    (get_citations get_references : Paper -> Result (list Paper) string)
    (config : SearchConfig) (all_papers : list Paper) : list Paper :=
  match all_papers with
  | _ :: _ =>
      if expand_citations config
      then all_papers
           ++ citation_papers get_citations get_references
                (top_papers all_papers)
      else all_papers
  | [] => all_papers
  end.

(** [sum(1 for p in ranked_papers if test(p))] *)
Definition count (test : Paper -> bool) (l : list Paper) : Z :=
  Z.of_nat (length (List.filter test l)).

(** [min(years)] and [max(years)], [None] standing for the empty list,
    on which they are not called. *)
Definition min_year (years : list Z) : option Z :=
  match years with
  | y :: rest => Some (fold_left Z.min rest y)
  | [] => None
  end.

Definition max_year (years : list Z) : option Z :=
  match years with
  | y :: rest => Some (fold_left Z.max rest y)
  | [] => None
  end.

(** [[p.year for p in ranked_papers if p.year]] *)
Definition years_of (l : list Paper) : list Z :=
  omap (fun p => if Py.truthy_int (year p) then year p else None) l.

(** The end of [search]: the result and its statistics. *)
Definition build_result (query : string) (ranked_papers : list Paper)
    (sources_searched : list string) (duplicates_removed : Z)
    (duration : float) : SearchResult :=
  {| query := query;
     papers := ranked_papers;
     total_found := Z.of_nat (length ranked_papers);
     sources_searched := sources_searched;
     duplicates_removed := duplicates_removed;
     search_time_seconds := duration;
     high_reliability :=
       count (fun p => PrimFloat.leb Scoring.f0_8 (reliability_score p))
         ranked_papers;
     medium_reliability :=
       count (fun p => PrimFloat.leb Scoring.f0_5 (reliability_score p)
                       && PrimFloat.ltb (reliability_score p) Scoring.f0_8)
         ranked_papers;
     low_reliability :=
       count (fun p => PrimFloat.ltb (reliability_score p) Scoring.f0_5)
         ranked_papers;
     open_access :=
       count (fun p => AccessType_eqb (access_type p) OPEN) ranked_papers;
     paywalled :=
       count (fun p => AccessType_eqb (access_type p) PAYWALLED)
         ranked_papers;
     earliest_year := min_year (years_of ranked_papers);
     latest_year := max_year (years_of ranked_papers) |}.

Section Search.

(** The adapters and the two requests of the citation walk answer as
    functions of what they are asked. [_rank_papers] takes a logarithm
    and sorts on floats: it is a parameter, as are the year and the
    duration that the clock gives. No progress callback is set. *)
Variable adapters :
  list (string * (string -> Z -> Result (list Paper) string)).
Variable get_citations get_references : Paper -> Result (list Paper) string.
Variable _rank_papers : list Paper -> string -> list Paper.
Variable current_year : Z.
Variable duration : float.

(** [SearchOrchestrator.search] *)
Definition search (query : string) (config : option SearchConfig)
  : Result SearchResult string :=
  if Py.blank query then Err "Empty query"
  else
    let config :=
      match config with Some c => c | None => default_config end in
    let '(all_papers, sources_searched) :=
      fan_out adapters query (max_per_source config) in
    let all_papers :=
      expand get_citations get_references config all_papers in
    let original_count := Z.of_nat (length all_papers) in
    let unique_papers := _deduplicate all_papers in
    let duplicates_removed :=
      original_count - Z.of_nat (length unique_papers) in
    let unique_papers := _update_reliability current_year unique_papers in
    let ranked_papers := _rank_papers unique_papers query in
    let ranked_papers := apply_filters config ranked_papers in
    Ok (build_result query ranked_papers sources_searched
          duplicates_removed duration).

End Search.

End Pipeline.

(** ** The vocabulary of the further properties *)

Module Vocabulary.

Import Result PaperModel Orchestrator TitleWords Dedup.

(** The total of a score that is not retracted and has no
    contradiction. *)
Definition total_of (pr j c v r : float) : float :=
  Reliability.total
    {| Reliability.peer_review := pr; Reliability.journal := j;
       Reliability.citations := c; Reliability.verification := v;
       Reliability.recency := r; Reliability.is_retracted := false;
       Reliability.contradictions := [] |}.

(** [test] holds of every element of [l]. *)
Definition all_in {A} (l : list A) (test : A -> bool) : bool :=
  forallb test l.

(** The words of a normalized title. *)
Definition title_words (t : string) : list (list ascii) :=
  List.filter content_word
    (Py.split_chars
       (List.filter Py.keep (List.map Py.lower_char (Py.chars t)))).

(** Two keys of one kind are the same key. *)
Definition same_key (a b : option string) : bool :=
  match a, b with
  | Some x, Some y => String.eqb x y
  | _, _ => false
  end.

(** The two papers have one key of some kind. *)
Definition share_a_key (P Q : Paper) : bool :=
  same_key (doi_key P) (doi_key Q)
  || same_key (pmid_key P) (pmid_key Q)
  || same_key (arxiv_key P) (arxiv_key Q)
  || String.eqb (title_key P) (title_key Q).

(** [P] is the record [P0] with what merges have brought: the fields that
    a merge does not write are those of [P0]; the sources and the
    keywords of [P0] come first; the keys of [P0] are kept; the citation
    count has not gone down and an open access has stayed open. *)
Definition enriched (P0 P : Paper) : Prop :=
  (id P = id P0 /\ title P = title P0 /\ authors P = authors P0 /\
   year P = year P0 /\ journal P = journal P0 /\
   publisher P = publisher P0 /\ volume P = volume P0 /\
   issue P = issue P0 /\ pages P = pages P0 /\ pmcid P = pmcid P0 /\
   reference_count P = reference_count P0 /\ html_url P = html_url P0 /\
   PaperModel.source P = PaperModel.source P0 /\
   source_type P = source_type P0 /\ reliability P = reliability P0 /\
   relevance_score P = relevance_score P0) /\
  (exists added, sources_found_in P = sources_found_in P0 ++ added) /\
  (exists added, keywords P = keywords P0 ++ added) /\
  (forall X k, key_of X P0 = Some k -> key_of X P = Some k) /\
  (citation_count P0 <= citation_count P)%Z /\
  (access_type P0 = OPEN -> access_type P = OPEN).

(** What the four filters of [search] ask of one paper. *)
Definition passes (config : SearchConfig) (p : Paper) : Prop :=
  (PrimFloat.ltb 0 (min_reliability config) = true ->
   PrimFloat.leb (min_reliability config) (reliability_score p) = true) /\
  (forall ys, year_start config = Some ys -> ys <> 0 ->
     exists y, year p = Some y /\ y <> 0 /\ ys <= y) /\
  (forall ye, year_end config = Some ye -> ye <> 0 ->
     exists y, year p = Some y /\ y <> 0 /\ y <= ye) /\
  (include_preprints config = false -> source_type p <> PREPRINT).

(** The same as one test. *)
Definition passes_test (config : SearchConfig) (p : Paper) : bool :=
  (negb (PrimFloat.ltb 0 (min_reliability config))
   || PrimFloat.leb (min_reliability config) (reliability_score p))
  && match year_start config with
     | Some ys =>
         negb (Py.truthy_int (Some ys))
         || match year p with
            | Some y => Py.truthy_int (Some y) && (ys <=? y)
            | None => false
            end
     | None => true
     end
  && match year_end config with
     | Some ye =>
         negb (Py.truthy_int (Some ye))
         || match year p with
            | Some y => Py.truthy_int (Some y) && (y <=? ye)
            | None => false
            end
     | None => true
     end
  && (include_preprints config
      || negb (SourceType_eqb (source_type p) PREPRINT)).

Definition level_eqb (a b : Scoring.ReliabilityLevel) : bool :=
  match a, b with
  | Scoring.HIGH, Scoring.HIGH
  | Scoring.MEDIUM, Scoring.MEDIUM
  | Scoring.LOW, Scoring.LOW => true
  | _, _ => false
  end.

(** [paper.reliability.level == l] *)
Definition has_level (l : Scoring.ReliabilityLevel) (p : Paper) : bool :=
  level_eqb (Scoring.level (reliability p)) l.


(** Most cited first. *)
Definition by_citations (p q : Paper) : Prop :=
  citation_count q <= citation_count p.

(** An identifier of the new style, [YYMM.NNNN] or [YYMM.NNNNN]. *)
Definition new_style (m : list ascii) : Prop :=
  exists yymm number fifth,
    m = yymm ++ "."%char :: number ++ fifth /\
    length yymm = 4%nat /\ length number = 4%nat /\
    (length fifth <= 1)%nat /\
    Forall (fun c => ArXivIds.isdecimal c = true) (yymm ++ number ++ fifth).

(** An identifier of the old style, [category/YYMMNNN]. *)
Definition old_style (m : list ascii) : Prop :=
  exists category number,
    m = category ++ "/"%char :: number /\
    category <> [] /\
    Forall (fun c => ArXivIds.islowerdash c = true) category /\
    length number = 7%nat /\
    Forall (fun c => ArXivIds.isdecimal c = true) number.

End Vocabulary.

(** * Proofs *)

Import Result PaperModel.

(** ** Order on floats *)

Lemma ltb_leb (x y : float) :
  PrimFloat.ltb x y = true -> PrimFloat.leb x y = true.
Proof.
  rewrite FloatAxioms.ltb_spec, FloatAxioms.leb_spec. unfold SFltb, SFleb.
  destruct (SFcompare (Prim2SF x) (Prim2SF y)) as [[]|]; congruence.
Qed.

Lemma clamp_range (x : float) :
  PrimFloat.leb 0 (Py.max 0 (Py.min 1 x)) = true /\
  PrimFloat.leb (Py.max 0 (Py.min 1 x)) 1 = true.
Proof.
  unfold Py.max, Py.min.
  destruct (PrimFloat.ltb x 1) eqn:Hx1.
  - destruct (PrimFloat.ltb 0 x) eqn:H0x.
    + split; now apply ltb_leb.
    + split; reflexivity.
  - split; reflexivity.
Qed.

Lemma total_range (r : Reliability.ReliabilityScore) :
  PrimFloat.leb 0 (Reliability.total r) = true /\
  PrimFloat.leb (Reliability.total r) 1 = true.
Proof.
  unfold Reliability.total. destruct (Reliability.is_retracted r).
  - split; reflexivity.
  - apply clamp_range.
Qed.

Lemma SFcompare_antisym (x y : spec_float) :
  SFcompare y x = option_map CompOpp (SFcompare x y).
Proof.
  destruct x as [s1 | s1 | | s1 m1 e1], y as [s2 | s2 | | s2 m2 e2];
    simpl; try reflexivity; try (destruct s1; reflexivity);
    try (destruct s2; reflexivity); try (destruct s1, s2; reflexivity).
  destruct s1, s2; simpl; try reflexivity;
    rewrite (Z.compare_antisym e1 e2); destruct (e1 ?= e2)%Z; simpl;
    try reflexivity;
    change (Pos.compare_cont Eq m2 m1)
      with (Pos.compare_cont (CompOpp Eq) m2 m1);
    rewrite <- (Pos.compare_cont_antisym m1 m2 Eq);
    destruct (Pos.compare_cont Eq m1 m2); reflexivity.
Qed.

(** Above a positive threshold, [t >= m] is the negation of [t < m] for a
    score [t] that is not below 0. *)
Lemma leb_negb_ltb (m t : float) :
  PrimFloat.ltb 0 m = true -> PrimFloat.leb 0 t = true ->
  PrimFloat.leb m t = negb (PrimFloat.ltb t m).
Proof.
  rewrite !FloatAxioms.ltb_spec, !FloatAxioms.leb_spec.
  unfold SFltb, SFleb. rewrite (SFcompare_antisym (Prim2SF m) (Prim2SF t)).
  change (Prim2SF 0) with (S754_zero false).
  destruct (Prim2SF m) as [s1 | s1 | | s1 m1 e1],
           (Prim2SF t) as [s2 | s2 | | s2 m2 e2];
    simpl; try discriminate; intros _ _;
    try (destruct s1; reflexivity); try (destruct s2; reflexivity);
    try (destruct s1, s2; reflexivity).
  destruct (match s1 with true => _ | false => _ end); reflexivity.
Qed.

(** A score that is not below 0 is not below a threshold that is not
    positive (a NaN threshold included). *)
Lemma not_below_nonpositive (m t : float) :
  PrimFloat.ltb 0 m = false -> PrimFloat.leb 0 t = true ->
  PrimFloat.ltb t m = false.
Proof.
  rewrite !FloatAxioms.ltb_spec, !FloatAxioms.leb_spec.
  unfold SFltb, SFleb.
  change (Prim2SF 0) with (S754_zero false).
  destruct (Prim2SF m) as [s1 | s1 | | s1 m1 e1],
           (Prim2SF t) as [s2 | s2 | | s2 m2 e2];
    simpl; try reflexivity; try (destruct s1; simpl; congruence);
    try (destruct s2; simpl; congruence);
    try (destruct s1, s2; simpl; congruence).
Qed.

(** ** [Result] and [ReliabilityScore] *)

(** C10. [Err(e).unwrap()] is [None] for every error [e]: nothing is raised
    and the error value is not surfaced, so the outcome is the one that
    [Ok(None).unwrap()] gives. *)
Theorem C10_err_unwrap_is_none (T E : Type) (e : E) :
  unwrap (Err e : Result (option T) E) = None /\
  unwrap (Err e : Result (option T) E) = unwrap (Ok None : Result (option T) E).
Proof. split; reflexivity. Qed.

(** C2. A retracted score totals 0 whatever its components; otherwise the
    total is [max(0, min(1, sum - 0.05 * len(contradictions)))]; in both
    cases the total lies between 0 and 1. *)
Theorem C2_total_clamped (r : Reliability.ReliabilityScore) :
  (if Reliability.is_retracted r then Reliability.total r = 0%float
   else Reliability.total r =
        Py.max 0 (Py.min 1
          ((Reliability.peer_review r + Reliability.journal r
            + Reliability.citations r + Reliability.verification r
            + Reliability.recency r)
           - Py.float_of_len (length (Reliability.contradictions r))
             * Reliability.penalty_unit)%float))
  /\ PrimFloat.leb 0 (Reliability.total r) = true
  /\ PrimFloat.leb (Reliability.total r) 1 = true.
Proof.
  split; [| apply total_range].
  unfold Reliability.total. destruct (Reliability.is_retracted r); reflexivity.
Qed.

(** ** The token bucket *)

Lemma div_nonzero (a b : float) :
  PrimFloat.eqb b 0 = false -> Py.div a b = Some (a / b)%float.
Proof. intros H. unfold Py.div. now rewrite H. Qed.

(** C9, as stated, fails for a bucket of rate 0 (which
    [TokenBucket(0.0)] builds): no token is available and the division by
    the rate raises instead of returning a wait. *)
Lemma C9_counterexample :
  let b := RateLimiter.init 0 1 in
  RateLimiter.capacity b = RateLimiter.refill_rate b /\
  PrimFloat.leb (RateLimiter.last_refill b) 5 = true /\
  RateLimiter.take 5 b = (RateLimiter.refill 5 b, None) /\
  ~ Spec.take_as_specified 5 b.
Proof.
  repeat split. unfold Spec.take_as_specified. vm_compute. discriminate.
Qed.

(** C9, amended. For every bucket whose refill rate is not zero and every
    current time, [take()] first sets the tokens to
    [min(capacity, tokens + (now - last_refill) * refill_rate)]; if that is
    at least 1 it takes one token and returns a wait of 0, otherwise it
    returns a wait of [(1 - tokens) / refill_rate] and leaves the refilled
    tokens as they are. *)
Theorem C9_take_refills_then_takes (b : RateLimiter.TokenBucket)
    (now : float) :
  PrimFloat.eqb (RateLimiter.refill_rate b) 0 = false ->
  Spec.take_as_specified now b.
Proof.
  intros Hrate. unfold Spec.take_as_specified, RateLimiter.take.
  cbn [RateLimiter.refill RateLimiter.tokens RateLimiter.capacity
       RateLimiter.refill_rate RateLimiter.last_refill].
  destruct (PrimFloat.leb 1 _) eqn:Hle.
  - reflexivity.
  - now rewrite (div_nonzero _ _ Hrate).
Qed.

Lemma C9_take_witness :
  PrimFloat.eqb 2 0 = false /\
  Spec.take_as_specified 5
    {| RateLimiter.capacity := 2; RateLimiter.tokens := 0.5;
       RateLimiter.refill_rate := 2; RateLimiter.last_refill := 4.875 |}.
Proof.
  split; [reflexivity|].
  apply C9_take_refills_then_takes. reflexivity.
Defined.

(** There the bucket is refilled to 0.75 tokens and the wait is an eighth
    of a second. *)
Example take_waits :
  RateLimiter.take 5
    {| RateLimiter.capacity := 2; RateLimiter.tokens := 0.5;
       RateLimiter.refill_rate := 2; RateLimiter.last_refill := 4.875 |}
  = ({| RateLimiter.capacity := 2; RateLimiter.tokens := 0.75;
        RateLimiter.refill_rate := 2; RateLimiter.last_refill := 5 |},
     Some 0.125%float).
Proof. reflexivity. Qed.

(** ** Paging in the arXiv adapter *)

Section Paging.

Variable batch : string -> Z -> Z -> Result (list Paper) string.
Variable query : string.
Variable max_results : Z.

Local Abbreviation bs := (Z.min 100 max_results).
Local Abbreviation page := (ArXiv.page batch query max_results).
Local Abbreviation pages_before := (ArXiv.pages_before batch query max_results).
Local Abbreviation fetched_ok := (ArXiv.fetched_ok batch query max_results).
Local Abbreviation asks_for := (ArXiv.asks_for batch query max_results).

Lemma pages_before_S (k : nat) :
  pages_before (S k)
  = pages_before k ++ match page k with Ok r => r | Err _ => [] end.
Proof.
  unfold ArXiv.pages_before. rewrite seq_S, map_app, concat_app. simpl.
  now rewrite app_nil_r.
Qed.

Lemma pages_before_nonempty (k : nat) :
  (0 < k)%nat -> fetched_ok k -> pages_before k <> [].
Proof.
  intros Hk Hok. destruct k as [|k]; [lia|].
  rewrite pages_before_S. destruct (Hok k) as (r & Hr & Hne); [lia|].
  rewrite Hr. intros Happ. apply app_eq_nil in Happ. tauto.
Qed.

Lemma pages_before_length (k n : nat) :
  (k <= n)%nat ->
  (length (pages_before k) <= length (pages_before n))%nat.
Proof.
  induction 1 as [|n Hle IH]; [lia|].
  rewrite pages_before_S, length_app. lia.
Qed.

(** From a state that the loop can be in when it asks for page [k], the
    loop returns; an error at a page that it fetched is the error of the
    first page, returned as it is, or comes after pages whose papers are
    returned. *)
Lemma search_loop_outcome (fuel : nat) :
  forall (k : nat) (papers : list Paper),
    papers = pages_before k ->
    fetched_ok k ->
    max_results - Z.of_nat (length papers) <= Z.of_nat fuel ->
    exists res fetched,
      ArXiv.search_loop batch query max_results bs fuel papers
        (Z.of_nat k * bs) k = Some (res, fetched) /\
      forall n e, (n < fetched)%nat -> page n = Err e ->
        (n = 0%nat -> res = Err e) /\
        ((0 < n)%nat -> res = Ok (pages_before n) /\ fetched_ok n).
Proof.
  induction fuel as [|fuel IH]; intros k papers Hpapers Hok Hfuel.
  all: cbn [ArXiv.search_loop].
  all: destruct (Z.of_nat (length papers) <? max_results) eqn:Hlt.
  all: try (apply Z.ltb_lt in Hlt; lia).
  all: try (eexists _, _; split; [reflexivity|]; intros n e Hn Hpage;
            destruct (Hok n Hn) as (r & Hr & _); congruence).
  fold (page k). destruct (page k) as [results|e] eqn:Hk.
  - destruct results as [|p results].
    + eexists _, _; split; [reflexivity|]. intros n e Hn Hpage.
      assert (n = k \/ n < k)%nat as [->|Hn'] by lia; [congruence|].
      destruct (Hok n Hn') as (r & Hr & _); congruence.
    + assert (Hok' : fetched_ok (S k)).
      { intros j Hj. assert (j = k \/ j < k)%nat as [->|Hj'] by lia.
        - exists (p :: results). split; [exact Hk | discriminate].
        - now apply Hok. }
      destruct (Z.of_nat (length (p :: results)) <? bs).
      * eexists _, _; split; [reflexivity|]. intros n e Hn Hpage.
        destruct (Hok' n Hn) as (r & Hr & _); congruence.
      * replace (Z.of_nat k * bs + bs) with (Z.of_nat (S k) * bs) by lia.
        apply IH.
        -- rewrite pages_before_S. now rewrite Hk, Hpapers.
        -- exact Hok'.
        -- apply Z.ltb_lt in Hlt. rewrite length_app. simpl length. lia.
  - assert (Hlast : forall n e', (n < S k)%nat -> page n = Err e' ->
                                 n = k /\ e' = e).
    { intros n e' Hn Hpage.
      assert (n = k \/ n < k)%nat as [->|Hn'] by lia.
      - split; congruence.
      - destruct (Hok n Hn') as (r & Hr & _); congruence. }
    destruct papers as [|p papers].
    + eexists _, _; split; [reflexivity|]. intros n e' Hn Hpage.
      destruct (Hlast n e' Hn Hpage) as [-> ->]. split; [reflexivity|].
      intros Hpos. exfalso.
      now apply (pages_before_nonempty k Hpos Hok).
    + eexists _, _; split; [reflexivity|]. intros n e' Hn Hpage.
      destruct (Hlast n e' Hn Hpage) as [-> ->]. split.
      * intros ->. discriminate Hpapers.
      * intros _. split; [now rewrite Hpapers | exact Hok].
Qed.

(** The loop stops after page [k] when that page is not a full page of
    papers: the pages asked for are those up to [k]. *)
Lemma asked_up_to (k : nat) :
  (forall j, (j < k)%nat -> asks_for j) -> asks_for k ->
  ~ (exists results, page k = Ok results /\
                     bs <= Z.of_nat (length results)) ->
  forall n, (n < S k)%nat <-> asks_for n.
Proof.
  intros Hbefore Hk Hstop n. split.
  - intros Hn. assert (n = k \/ n < k)%nat as [->|Hn'] by lia;
      [exact Hk | now apply Hbefore].
  - intros [Hfull _].
    destruct (Nat.lt_ge_cases n (S k)) as [Hn|Hn]; [exact Hn|].
    exfalso. apply Hstop. apply Hfull. lia.
Qed.

(** The number of requests that the loop makes: page [n] is fetched
    exactly when the loop has reason to ask for it. *)
Lemma search_loop_fetched (fuel : nat) :
  forall (k : nat) (papers : list Paper),
    papers = pages_before k ->
    (forall j, (j < k)%nat -> asks_for j) ->
    (forall j, (j < k)%nat ->
       exists results, page j = Ok results /\
                       bs <= Z.of_nat (length results)) ->
    max_results - Z.of_nat (length papers) <= Z.of_nat fuel ->
    exists res fetched,
      ArXiv.search_loop batch query max_results bs fuel papers
        (Z.of_nat k * bs) k = Some (res, fetched) /\
      forall n, (n < fetched)%nat <-> asks_for n.
Proof.
  induction fuel as [|fuel IH]; intros k papers Hpapers Hasked Hfull Hfuel.
  all: cbn [ArXiv.search_loop].
  all: destruct (Z.of_nat (length papers) <? max_results) eqn:Hlt.
  all: try (apply Z.ltb_lt in Hlt; lia).
  all: try (eexists _, _; split; [reflexivity|]; intros n; split;
            [apply Hasked|]; intros [_ Hn];
            destruct (Nat.lt_ge_cases n k) as [Hlt'|Hge]; [exact Hlt'|];
            apply Z.ltb_ge in Hlt;
            pose proof (pages_before_length k n Hge); subst papers; lia).
  apply Z.ltb_lt in Hlt.
  assert (Hk : asks_for k) by (split; [exact Hfull | now rewrite <- Hpapers]).
  fold (page k). destruct (page k) as [results|e] eqn:Hpage.
  - destruct results as [|p results].
    + eexists _, _; split; [reflexivity|].
      apply (asked_up_to k Hasked Hk).
      intros (r & Hr & Hlen). rewrite Hpage in Hr. injection Hr as <-.
      simpl length in Hlen. lia.
    + destruct (Z.of_nat (length (p :: results)) <? bs) eqn:Hshort.
      * eexists _, _; split; [reflexivity|].
        apply (asked_up_to k Hasked Hk).
        intros (r & Hr & Hlen). rewrite Hpage in Hr. injection Hr as <-.
        apply Z.ltb_lt in Hshort. lia.
      * apply Z.ltb_ge in Hshort.
        replace (Z.of_nat k * bs + bs) with (Z.of_nat (S k) * bs) by lia.
        apply IH.
        -- rewrite pages_before_S. now rewrite Hpage, Hpapers.
        -- intros j Hj. assert (j = k \/ j < k)%nat as [->|Hj'] by lia;
             [exact Hk | now apply Hasked].
        -- intros j Hj. assert (j = k \/ j < k)%nat as [->|Hj'] by lia;
             [now exists (p :: results) | now apply Hfull].
        -- rewrite length_app. simpl length. lia.
  - assert (Hstop : forall n, (n < S k)%nat <-> asks_for n).
    { apply (asked_up_to k Hasked Hk).
      intros (r & Hr & _). rewrite Hpage in Hr. discriminate Hr. }
    destruct papers; eexists _, _; (split; [reflexivity | exact Hstop]).
Qed.

End Paging.

(** C5. A search over a non-empty query returns. It asks for the first
    page when [max_results] is positive, and for a later page when each
    page before it was fetched with success and full and they hold fewer
    than [max_results] papers together; [fetched] counts the pages asked
    for. If the first page answers with an error, the search returns that
    error. If a later page that it asks for answers with an error, the
    search returns, as a success, the papers of the pages before it, all
    fetched with success. *)
Theorem C5_first_page_error_else_partial_success
    (batch : string -> Z -> Z -> Result (list Paper) string)
    (query : string) (max_results : Z) :
  Py.blank query = false ->
  exists res fetched,
    ArXiv.search batch query max_results = Some (res, fetched) /\
    (forall n, (n < fetched)%nat
               <-> ArXiv.asks_for batch query max_results n) /\
    (forall e, 0 < max_results ->
       ArXiv.page batch query max_results 0 = Err e -> res = Err e) /\
    (forall n e, (n < fetched)%nat ->
       ArXiv.page batch query max_results n = Err e ->
       (n = 0%nat -> res = Err e) /\
       ((0 < n)%nat ->
        res = Ok (ArXiv.pages_before batch query max_results n) /\
        ArXiv.fetched_ok batch query max_results n)).
Proof.
  intros Hquery. unfold ArXiv.search. rewrite Hquery. cbv zeta.
  destruct (search_loop_outcome batch query max_results
              (Z.to_nat max_results) 0%nat [])
    as (res & fetched & Hrun & Herr);
    [reflexivity | intros j Hj; lia | simpl length; lia |].
  destruct (search_loop_fetched batch query max_results
              (Z.to_nat max_results) 0%nat [])
    as (res' & fetched' & Hrun' & Hasked);
    [reflexivity | intros j Hj; lia | intros j Hj; lia
    | simpl length; lia |].
  rewrite Hrun in Hrun'. injection Hrun' as <- <-.
  exists res, fetched. split; [exact Hrun|]. split; [exact Hasked|].
  split; [|exact Herr].
  intros e Hmax Hpage.
  assert (H0 : (0 < fetched)%nat).
  { apply Hasked. split; [intros j Hj; lia | exact Hmax]. }
  now apply (Herr 0%nat e H0 Hpage).
Qed.

Lemma C5_search_witness :
  Py.blank "graph neural networks" = false /\
  exists res fetched,
    ArXiv.search Examples.two_pages_then_error "graph neural networks" 250
    = Some (res, fetched) /\
    (forall n, (n < fetched)%nat
               <-> ArXiv.asks_for Examples.two_pages_then_error
                     "graph neural networks" 250 n) /\
    (forall e, 0 < 250 ->
       ArXiv.page Examples.two_pages_then_error "graph neural networks"
         250 0 = Err e -> res = Err e) /\
    (forall n e, (n < fetched)%nat ->
       ArXiv.page Examples.two_pages_then_error "graph neural networks" 250 n
       = Err e ->
       (n = 0%nat -> res = Err e) /\
       ((0 < n)%nat ->
        res = Ok (ArXiv.pages_before Examples.two_pages_then_error
                    "graph neural networks" 250 n) /\
        ArXiv.fetched_ok Examples.two_pages_then_error
          "graph neural networks" 250 n)).
Proof.
  split; [reflexivity|].
  apply C5_first_page_error_else_partial_success. reflexivity.
Defined.

(** On that source the third request fails and the two hundred papers of
    the first two pages are returned. *)
Example search_two_pages :
  ArXiv.search Examples.two_pages_then_error "graph neural networks" 250
  = Some (Ok (repeat (Examples.paper_of "P" None None None []) 200), 3%nat).
Proof. vm_compute. reflexivity. Qed.

(** And when the first request fails, its error is what comes back. *)
Example search_first_page_error :
  ArXiv.search (fun _ _ _ => Err "Search failed: timeout") "q" 250
  = Some (Err "Search failed: timeout", 1%nat).
Proof. reflexivity. Qed.

(** ** Keywords *)

Import Orchestrator Exn.

Lemma append_new_extends (xs : list string) :
  forall acc, exists extra,
    append_new acc xs = acc ++ extra /\ (length extra <= length xs)%nat.
Proof.
  unfold append_new.
  induction xs as [|x xs IH]; intros acc; simpl.
  - exists []. split; [now rewrite app_nil_r | simpl; lia].
  - destruct (existsb (String.eqb x) acc).
    + destruct (IH acc) as (extra & -> & Hlen).
      exists extra. split; [reflexivity | lia].
    + destruct (IH (acc ++ [x])) as (extra & -> & Hlen).
      exists (x :: extra). split; [now rewrite <- app_assoc | simpl; lia].
Qed.

Lemma slice_to_length {A} (l : list A) (n : nat) :
  (length (Py.slice_to l (Z.of_nat n)) <= n)%nat.
Proof.
  unfold Py.slice_to. destruct (0 <=? Z.of_nat n) eqn:H.
  - rewrite Nat2Z.id, length_firstn. lia.
  - apply Z.leb_gt in H. lia.
Qed.

Lemma length_omap_le {A B} (f : A -> option B) (l : list A) :
  (length (omap f l) <= length l)%nat.
Proof.
  induction l as [|x l IH]; [reflexivity|].
  cbn [omap list_omap]. destruct (f x); cbn [length]; lia.
Qed.

Lemma filter_swap {A} (f g : A -> bool) (l : list A) :
  List.filter f (List.filter g l) = List.filter g (List.filter f l).
Proof.
  induction l as [|x l IH]; [reflexivity|]. cbn [List.filter].
  destruct (f x) eqn:Hf, (g x) eqn:Hg; cbn [List.filter];
    rewrite ?Hf, ?Hg, IH; reflexivity.
Qed.

Lemma filter_twice {A} (f : A -> bool) (l : list A) :
  List.filter f (List.filter f l) = List.filter f l.
Proof.
  induction l as [|x l IH]; [reflexivity|]. cbn [List.filter].
  destruct (f x) eqn:Hf; cbn [List.filter]; rewrite ?Hf, IH; reflexivity.
Qed.

(** Leaving [x] out before or after the repetitions are dropped gives
    the same list. *)
Lemma first_occurrences_without (x : string) (l : list string) :
  Spec.first_occurrences (List.filter (fun y => negb (String.eqb y x)) l)
  = List.filter (fun y => negb (String.eqb y x)) (Spec.first_occurrences l).
Proof.
  induction l as [|y l IH]; [reflexivity|].
  cbn [List.filter Spec.first_occurrences].
  destruct (String.eqb_spec y x) as [->|Hne]; cbn [negb].
  - now rewrite IH, filter_twice.
  - cbn [Spec.first_occurrences]. rewrite IH. f_equal. apply filter_swap.
Qed.

Lemma filter_not_in_snoc (x : string) (acc l : list string) :
  List.filter (fun y => negb (existsb (String.eqb y) (acc ++ [x]))) l
  = List.filter (fun y => negb (String.eqb y x))
      (List.filter (fun y => negb (existsb (String.eqb y) acc)) l).
Proof.
  induction l as [|y l IH]; [reflexivity|]. cbn [List.filter].
  rewrite existsb_app. cbn [existsb]. rewrite orb_false_r, negb_orb.
  destruct (existsb (String.eqb y) acc); cbn [negb andb List.filter];
    [exact IH|].
  destruct (String.eqb y x); cbn [negb]; now rewrite IH.
Qed.

(** What [_merge] does with two lists is their ordered union. *)
Lemma append_new_ordered_union (xs : list string) :
  forall acc, append_new acc xs = Spec.ordered_union acc xs.
Proof.
  unfold append_new, Spec.ordered_union.
  induction xs as [|x xs IH]; intros acc; cbn [fold_left List.filter].
  - cbn [Spec.first_occurrences]. now rewrite app_nil_r.
  - destruct (existsb (String.eqb x) acc) eqn:Hin; cbn [negb].
    + apply IH.
    + rewrite IH, <- app_assoc. cbn [app Spec.first_occurrences].
      do 2 f_equal. rewrite <- first_occurrences_without. f_equal.
      apply filter_not_in_snoc.
Qed.

(** C7, as stated, fails after a merge: of two records of one DOI, of ten
    keywords and of one more, the survivor has eleven. *)
Lemma C7_counterexample :
  Forall Spec.keywords_capped Examples.keyword_papers /\
  ~ Forall Spec.keywords_capped (_deduplicate Examples.keyword_papers).
Proof.
  split.
  - repeat constructor; unfold Spec.keywords_capped; simpl; lia.
  - intros H.
    assert (Hout : exists p, _deduplicate Examples.keyword_papers = [p] /\
                             length (keywords p) = 11%nat)
      by (eexists; split; vm_compute; reflexivity).
    destruct Hout as (p & Heq & Hlen). rewrite Heq in H.
    apply List.Forall_inv in H. unfold Spec.keywords_capped in H. lia.
Qed.

(** C7, amended. A paper that an adapter's parser produces has at most
    10 keywords: the parsers of arXiv, PubMed and Semantic Scholar cut
    the list to 10 and that of OpenAlex reads the first 10 concepts (the
    other adapters set no keywords). A merge leaves in the target the
    ordered union of the two keyword lists: the keywords of the target,
    as they are, followed by those of the source that the target does not
    have, each once, in the order in which they first occur in the
    source; it is not cut to 10. *)
Theorem C7_parser_caps_and_merge_unions
    (_extract_id : string -> option string)
    (calculate_reliability :
       Paper -> bool -> option string -> Z -> Z -> option Z ->
       Reliability.ReliabilityScore)
    (entry : ArXiv.Entry) (p : Paper)
    (mesh_headings : option (list (option string)))
    (fieldsOfStudy : option (option (list string))) (fields : list string)
    (concepts : option (option (list (option string))))
    (names : list string) (target source : Paper) :
  (ArXiv._parse_entry _extract_id calculate_reliability entry
   = Returns (Some p) -> Spec.keywords_capped p) /\
  (length (PubMed.keywords mesh_headings) <= 10)%nat /\
  (SemanticScholar.keywords fieldsOfStudy = Returns fields ->
   (length fields <= 10)%nat) /\
  (OpenAlex.keywords concepts = Returns names ->
   (length names <= 10)%nat) /\
  keywords (_merge target source)
  = Spec.ordered_union (keywords target) (keywords source).
Proof.
  split; [|split; [|split; [|split]]].
  - intros Hparse. unfold ArXiv._parse_entry in Hparse.
    destruct (ArXiv.atom_id entry) as [id_text|]; [|discriminate].
    destruct (String.eqb id_text ""); [discriminate|].
    destruct (_extract_id id_text) as [a|]; [|discriminate].
    destruct (String.eqb a ""); [discriminate|].
    destruct (ArXiv.year_of_published (ArXiv.atom_published entry));
      [|discriminate].
    injection Hparse as <-. unfold Spec.keywords_capped. cbn [keywords].
    apply (slice_to_length _ 10).
  - apply (slice_to_length _ 10).
  - intros Hfields. unfold SemanticScholar.keywords in Hfields.
    destruct fieldsOfStudy as [[l|]|]; try discriminate;
      injection Hfields as <-; apply (slice_to_length _ 10).
  - intros Hnames. unfold OpenAlex.keywords in Hnames.
    destruct concepts as [[l|]|]; try discriminate;
      injection Hnames as <-;
      first [ etransitivity;
              [apply length_omap_le | apply (slice_to_length _ 10)]
            | cbn; lia ].
  - apply append_new_ordered_union.
Qed.

(** The entry of twelve categories gives a paper of ten keywords, and
    the merge of another record of six into it leaves thirteen: the ten,
    then [k10], [k12] and [k13]. *)
Lemma C7_parser_witness :
  exists p,
    ArXiv._parse_entry Examples.extract_id_stub
      Examples.calculate_reliability_stub Examples.entry_of_twelve
    = Returns (Some p) /\
    SemanticScholar.keywords (Some (Some (Examples.ten_keywords ++ ["k10"])))
    = Returns Examples.ten_keywords /\
    OpenAlex.keywords (Some (Some [Some "k0"; None; Some "k2"]))
    = Returns ["k0"; "k2"] /\
    Spec.keywords_capped p /\
    (length (PubMed.keywords (Some [Some "k0"; None])) <= 10)%nat /\
    (length Examples.ten_keywords <= 10)%nat /\
    (length ["k0"; "k2"] <= 10)%nat /\
    keywords (_merge p Examples.other_record)
    = Spec.ordered_union (keywords p) (keywords Examples.other_record) /\
    keywords (_merge p Examples.other_record)
    = Examples.ten_keywords ++ ["k10"; "k12"; "k13"].
Proof.
  destruct (ArXiv._parse_entry Examples.extract_id_stub
              Examples.calculate_reliability_stub Examples.entry_of_twelve)
    as [[p|]|] eqn:Hparse;
    [| vm_compute in Hparse; discriminate Hparse ..].
  exists p. split; [reflexivity|].
  split; [reflexivity|]. split; [reflexivity|].
  destruct (C7_parser_caps_and_merge_unions Examples.extract_id_stub
              Examples.calculate_reliability_stub Examples.entry_of_twelve
              p (Some [Some "k0"; None])
              (Some (Some (Examples.ten_keywords ++ ["k10"])))
              Examples.ten_keywords
              (Some (Some [Some "k0"; None; Some "k2"])) ["k0"; "k2"]
              p Examples.other_record) as (H1 & H2 & H3 & H4 & H5).
  split; [exact (H1 Hparse)|]. split; [exact H2|].
  split; [exact (H3 eq_refl)|]. split; [exact (H4 eq_refl)|].
  split; [exact H5|].
  vm_compute in Hparse. injection Hparse as <-. vm_compute. reflexivity.
Defined.

(** ** Filters *)

Lemma filter_and {A} (f g : A -> bool) (l : list A) :
  List.filter f (List.filter g l) = List.filter (fun x => g x && f x) l.
Proof.
  induction l as [|x l IH]; simpl; [reflexivity|].
  destruct (g x) eqn:Hg; simpl; [destruct (f x)|]; now rewrite IH.
Qed.

Lemma filter_all {A} (f : A -> bool) (l : list A) :
  (forall x, f x = true) -> List.filter f l = l.
Proof.
  intros H. induction l as [|x l IH]; simpl; [reflexivity|].
  now rewrite H, IH.
Qed.

Lemma filter_when {A} (b : bool) (f : A -> bool) (l : list A) :
  (if b then List.filter f l else l) = List.filter (fun x => negb b || f x) l.
Proof.
  destruct b; simpl; [reflexivity|].
  symmetry. now apply filter_all.
Qed.

Lemma filter_unless {A} (b : bool) (f : A -> bool) (l : list A) :
  (if b then l else List.filter f l) = List.filter (fun x => b || f x) l.
Proof.
  destruct b; simpl; [|reflexivity].
  symmetry. now apply filter_all.
Qed.

(** The year filter of [year_start], as one filter. *)
Lemma year_start_filter (config : SearchConfig) (l : list Paper) :
  match year_start config with
  | Some ys =>
      if Py.truthy_int (Some ys)
      then List.filter
             (fun p => match year p with
                       | Some y => Py.truthy_int (Some y) && (ys <=? y)
                       | None => false
                       end) l
      else l
  | None => l
  end
  = List.filter
      (fun p => match nonzero (year_start config) with
                | Some ys => match nonzero (year p) with
                             | Some y => ys <=? y
                             | None => false
                             end
                | None => true
                end) l.
Proof.
  unfold nonzero. destruct (year_start config) as [ys|].
  - rewrite filter_when. destruct (Py.truthy_int (Some ys)); simpl.
    + apply filter_ext. intros p. destruct (year p) as [y|]; [|reflexivity].
      simpl. destruct (y =? 0); reflexivity.
    + reflexivity.
  - symmetry. apply filter_all. intros p. reflexivity.
Qed.

(** The year filter of [year_end], as one filter. *)
Lemma year_end_filter (config : SearchConfig) (l : list Paper) :
  match year_end config with
  | Some ye =>
      if Py.truthy_int (Some ye)
      then List.filter
             (fun p => match year p with
                       | Some y => Py.truthy_int (Some y) && (y <=? ye)
                       | None => false
                       end) l
      else l
  | None => l
  end
  = List.filter
      (fun p => match nonzero (year_end config) with
                | Some ye => match nonzero (year p) with
                             | Some y => y <=? ye
                             | None => false
                             end
                | None => true
                end) l.
Proof.
  unfold nonzero. destruct (year_end config) as [ye|].
  - rewrite filter_when. destruct (Py.truthy_int (Some ye)); simpl.
    + apply filter_ext. intros p. destruct (year p) as [y|]; [|reflexivity].
      simpl. destruct (y =? 0); reflexivity.
    + reflexivity.
  - symmetry. apply filter_all. intros p. reflexivity.
Qed.

(** The reliability filter, guarded by [min_reliability > 0], drops the
    papers whose total is below the threshold and no other. *)
Lemma reliability_filter (config : SearchConfig) (p : Paper) :
  negb (PrimFloat.ltb 0 (min_reliability config))
  || PrimFloat.leb (min_reliability config) (reliability_score p)
  = negb (PrimFloat.ltb (reliability_score p) (min_reliability config)).
Proof.
  pose proof (total_range (reliability p)) as [H0 _].
  fold (reliability_score p) in H0.
  destruct (PrimFloat.ltb 0 (min_reliability config)) eqn:Hmin; simpl.
  - apply (leb_negb_ltb _ _ Hmin H0).
  - now rewrite (not_below_nonpositive _ _ Hmin H0).
Qed.

(** C6, as stated, fails when a year bound is set to 0: the bound counts
    as not set and a paper with no year stays. *)
Lemma C6_counterexample :
  apply_filters Examples.year_zero_config
    [Examples.paper_of "Alpha" None None None []]
  <> filters_in_spec_order (fun o => o) year Examples.year_zero_config
       [Examples.paper_of "Alpha" None None None []].
Proof. vm_compute. discriminate. Qed.

(** C6, amended. The final list is the ranked list filtered by the
    inclusive year range, then by the reliability threshold, then by the
    preprint exclusion, where a year bound of 0 counts as not set and a
    year of 0 as no year: a paper with no year is dropped whenever a bound
    other than 0 is set. *)
Theorem C6_filters_in_spec_order (config : SearchConfig)
    (ranked_papers : list Paper) :
  apply_filters config ranked_papers
  = filters_in_spec_order nonzero (fun p => nonzero (year p)) config
      ranked_papers.
Proof.
  unfold apply_filters, filters_in_spec_order.
  rewrite (filter_when (PrimFloat.ltb 0 (min_reliability config))).
  rewrite year_start_filter, year_end_filter.
  rewrite filter_unless, !filter_and. apply filter_ext. intros p.
  rewrite reliability_filter. unfold in_year_range.
  destruct (include_preprints config
            || negb (SourceType_eqb (source_type p) PREPRINT));
  destruct (negb (PrimFloat.ltb (reliability_score p)
                    (min_reliability config)));
    destruct (nonzero (year_start config)) as [ys|],
             (nonzero (year_end config)) as [ye|],
             (nonzero (year p)) as [y|]; simpl;
    repeat match goal with
           | |- context [Z.leb ?a ?b] => destruct (Z.leb a b)
           end; reflexivity.
Qed.

(** ** Title normalization *)

Import TitleWords.

Lemma chars_str (l : list ascii) : Py.chars (Py.str l) = l.
Proof. apply list_ascii_of_string_of_list_ascii. Qed.

Lemma map_chars_str (ws : list (list ascii)) :
  List.map Py.chars (List.map Py.str ws) = ws.
Proof.
  rewrite List.map_map. rewrite <- (List.map_id ws) at 2.
  apply List.map_ext. intros w. apply chars_str.
Qed.

Lemma lower_char_idem (c : ascii) :
  Py.lower_char (Py.lower_char c) = Py.lower_char c.
Proof. destruct c as [[] [] [] [] [] [] [] []]; reflexivity. Qed.

Lemma split_chars_cons (c : ascii) (l : list ascii) :
  Py.split_chars (c :: l)
  = if Py.isspace c then Py.split_chars l
    else match l with
         | [] => [[c]]
         | d :: _ =>
             if Py.isspace d then [c] :: Py.split_chars l
             else match Py.split_chars l with
                  | w :: ws => (c :: w) :: ws
                  | [] => [[c]]
                  end
         end.
Proof. reflexivity. Qed.

Lemma split_chars_words (l : list ascii) : Forall word (Py.split_chars l).
Proof.
  induction l as [|c l IH]; [constructor|].
  rewrite split_chars_cons. destruct (Py.isspace c) eqn:Hc; [exact IH|].
  assert (Hone : word [c]) by (split; [discriminate | now constructor]).
  destruct l as [|d l']; [now constructor|].
  destruct (Py.isspace d); [now constructor|].
  destruct (Py.split_chars (d :: l')) as [|w ws]; [now constructor|].
  inversion IH as [|? ? [Hw1 Hw2] Hws]; subst. constructor; [|exact Hws].
  split; [discriminate | now constructor].
Qed.

Lemma split_chars_Forall (P : ascii -> Prop) (l : list ascii) :
  Forall P l -> Forall (Forall P) (Py.split_chars l).
Proof.
  induction l as [|c l IH]; intros Hl; [constructor|].
  inversion Hl as [|? ? Hc Hl']; subst. specialize (IH Hl').
  rewrite split_chars_cons. destruct (Py.isspace c); [exact IH|].
  assert (Hone : Forall P [c]) by now constructor.
  destruct l as [|d l']; [now constructor|].
  destruct (Py.isspace d); [now constructor|].
  destruct (Py.split_chars (d :: l')) as [|w ws]; [now constructor|].
  inversion IH; subst. constructor; [now constructor | assumption].
Qed.

Lemma split_chars_word (w : list ascii) : word w -> Py.split_chars w = [w].
Proof.
  intros [Hne Hw]. induction w as [|c w IH]; [congruence|].
  inversion Hw as [|? ? Hc Hw']; subst.
  rewrite split_chars_cons, Hc. destruct w as [|d w']; [reflexivity|].
  inversion Hw' as [|? ? Hd _]; subst. rewrite Hd.
  rewrite IH; [reflexivity | discriminate | exact Hw'].
Qed.

Lemma split_chars_word_space (w rest : list ascii) :
  word w ->
  Py.split_chars (w ++ " "%char :: rest) = w :: Py.split_chars rest.
Proof.
  intros [Hne Hw]. induction w as [|c w IH]; [congruence|].
  inversion Hw as [|? ? Hc Hw']; subst.
  rewrite <- app_comm_cons, split_chars_cons, Hc.
  destruct w as [|d w'].
  - simpl app. change (Py.isspace " "%char) with true. cbv iota.
    now rewrite (split_chars_cons " "%char rest).
  - inversion Hw' as [|? ? Hd _]; subst.
    rewrite <- app_comm_cons, Hd.
    rewrite app_comm_cons, IH; [reflexivity | discriminate | exact Hw'].
Qed.

(** Splitting what was joined gives the words back. *)
Lemma split_join_chars (ws : list (list ascii)) :
  Forall word ws -> Py.split_chars (Py.join_chars ws) = ws.
Proof.
  induction ws as [|w ws IH]; intros Hws; [reflexivity|].
  inversion Hws as [|? ? Hw Hws']; subst.
  destruct ws as [|w' ws'].
  - now apply split_chars_word.
  - change (Py.join_chars (w :: w' :: ws'))
      with (w ++ " "%char :: Py.join_chars (w' :: ws')).
    rewrite (split_chars_word_space _ _ Hw). now rewrite IH.
Qed.

Lemma join_chars_Forall (P : ascii -> Prop) (ws : list (list ascii)) :
  P " "%char -> Forall (Forall P) ws -> Forall P (Py.join_chars ws).
Proof.
  intros Hsp. induction ws as [|w ws IH]; intros Hws; [constructor|].
  inversion Hws as [|? ? Hw Hws']; subst.
  destruct ws as [|w' ws']; [exact Hw|].
  change (Py.join_chars (w :: w' :: ws'))
    with (w ++ " "%char :: Py.join_chars (w' :: ws')).
  apply Forall_app. split; [exact Hw|].
  constructor; [exact Hsp | now apply IH].
Qed.

Lemma filter_idem {A} (f : A -> bool) (l : list A) :
  List.filter f (List.filter f l) = List.filter f l.
Proof.
  induction l as [|x l IH]; simpl; [reflexivity|].
  destruct (f x) eqn:Hf; simpl; [now rewrite Hf, IH | exact IH].
Qed.

Lemma filter_map_str (f : string -> bool) (ws : list (list ascii)) :
  List.filter f (List.map Py.str ws)
  = List.map Py.str (List.filter (fun w => f (Py.str w)) ws).
Proof.
  induction ws as [|w ws IH]; simpl; [reflexivity|].
  destruct (f (Py.str w)); simpl; now rewrite IH.
Qed.

(** [_normalize_title] on the characters of a title that is not empty. *)
Lemma normalize_title_chars (t : string) :
  t <> ""%string ->
  _normalize_title t
  = Py.str (Py.join_chars
              (List.filter content_word
                 (Py.split_chars
                    (List.filter Py.keep
                       (List.map Py.lower_char (Py.chars t)))))).
Proof.
  intros Ht. unfold _normalize_title.
  destruct (String.eqb_spec t ""); [contradiction|].
  unfold Py.join_space, Py.split, Py.sub_nonword_nonspace, Py.lower.
  repeat (rewrite chars_str || rewrite map_chars_str).
  rewrite (split_join_chars _ (split_chars_words _)).
  now rewrite filter_map_str, map_chars_str.
Qed.

Lemma normalized_settled (l : list ascii) :
  Forall settled
    (Py.join_chars
       (List.filter content_word
          (Py.split_chars (List.filter Py.keep (List.map Py.lower_char l))))).
Proof.
  apply join_chars_Forall; [split; reflexivity|].
  apply List.Forall_forall. intros w Hw. apply filter_In in Hw as [Hw _].
  revert w Hw. apply List.Forall_forall. apply split_chars_Forall.
  apply List.Forall_forall. intros c Hc. apply filter_In in Hc as [Hc Hk].
  apply in_map_iff in Hc as (c0 & <- & _).
  split; [apply lower_char_idem | exact Hk].
Qed.

Lemma settled_fixed (l : list ascii) :
  Forall settled l ->
  List.filter Py.keep (List.map Py.lower_char l) = l.
Proof.
  induction 1 as [|c l [Hlow Hkeep] _ IH]; simpl; [reflexivity|].
  now rewrite Hlow, Hkeep, IH.
Qed.

(** C8. [_normalize_title] is idempotent. *)
Theorem C8_normalize_title_idempotent (t : string) :
  _normalize_title (_normalize_title t) = _normalize_title t.
Proof.
  destruct (String.eqb_spec t "") as [->|Ht]; [reflexivity|].
  rewrite (normalize_title_chars t Ht).
  set (ws := List.filter content_word _).
  destruct (String.eqb_spec (Py.str (Py.join_chars ws)) "") as [He|Hne].
  - now rewrite He.
  - rewrite (normalize_title_chars _ Hne), chars_str.
    pose proof (normalized_settled (Py.chars t)) as Hs. fold ws in Hs.
    rewrite (settled_fixed _ Hs), split_join_chars.
    + unfold ws. now rewrite filter_idem.
    + apply List.Forall_forall. intros w Hw. apply filter_In in Hw as [Hw _].
      revert w Hw. apply List.Forall_forall. apply split_chars_words.
Qed.

Example normalize_title_scenario :
  _normalize_title "The Role of A, an Enzyme" = "role enzyme".
Proof. reflexivity. Qed.

(** ** Deduplication *)

Import Dedup.
Local Open Scope nat_scope.

(** *** What a merge does to the keys *)

Lemma fill_key (f : string -> string) (t s : option string) :
  let key o := if Py.truthy_str o then option_map f o else None in
  key (if negb (Py.truthy_str t) && Py.truthy_str s then s else t)
  = match key t with Some k => Some k | None => key s end.
Proof.
  cbv zeta. unfold Py.truthy_str.
  destruct t as [t|], s as [s|];
    try destruct (String.eqb t "") eqn:Ht;
    try destruct (String.eqb s "") eqn:Hs;
    cbn [negb andb option_map]; rewrite ?Ht, ?Hs; reflexivity.
Qed.

(** The target keeps a key that it has and takes the key of the source
    otherwise. *)
Lemma merge_key (X : Check) (T S : Paper) :
  key_of X (_merge T S)
  = match key_of X T with Some k => Some k | None => key_of X S end.
Proof.
  destruct X; cbn [key_of]; [| | | reflexivity];
    unfold doi_key, pmid_key, arxiv_key, _merge;
    cbn [doi pmid arxiv_id].
  - apply (fill_key (fun d => Py.strip (Py.lower d))).
  - apply (fill_key Py.strip).
  - apply (fill_key (fun d => Py.strip (Py.lower d))).
Qed.

Lemma merge_key_kept (X : Check) (T S : Paper) (k : string) :
  key_of X T = Some k -> key_of X (_merge T S) = Some k.
Proof. intros H. now rewrite merge_key, H. Qed.

Lemma merge_at_insert (h : list Paper) (t n : nat) (T S : Paper) :
  h !! t = Some T -> h !! n = Some S ->
  merge_at h t n = <[t := _merge T S]> h.
Proof. intros Ht Hn. unfold merge_at. now rewrite Ht, Hn. Qed.

(** *** One step of the loop *)

Ltac use_key_equations :=
  unfold registered; cbn [key_of map_of by_doi by_pmid by_arxiv by_title];
  repeat match goal with
         | H : ?key ?S = _ |- context [?key ?S] => rewrite H
         end;
  auto.

Ltac merged_at X Hkey Hmap :=
  left; exists X; eexists;
  split; [eexists; split; [exact Hkey | exact Hmap]|];
  split; [reflexivity|]; split; [reflexivity|];
  split; [intros [| | |]; cbn [rank]; try lia; intros _; use_key_equations
         |intros [| | |]; cbn [rank]; try lia; reflexivity].

Ltac kept_at :=
  right; split; [reflexivity|]; split; [reflexivity|];
  intros [| | |]; use_key_equations.

(** The paper at [n] is merged by the first check that hits, the checks
    before it having left their keys, or it is kept and every check has
    left its key. *)
Lemma dedup_paper_outcome (st : DedupState) (n : nat) (S : Paper) :
  heap st !! n = Some S ->
  (exists X t, merged_by st (dedup_paper st n) n S X t) \/
  kept st (dedup_paper st n) n S.
Proof.
  intros HS. unfold dedup_paper. rewrite HS.
  unfold check, probe.
  destruct (doi_key S) as [kd|] eqn:Hd;
    [destruct (by_doi st !! kd) as [td|] eqn:Hmd|];
  (destruct (pmid_key S) as [kp|] eqn:Hp;
    [destruct (by_pmid st !! kp) as [tp|] eqn:Hmp|]);
  (destruct (arxiv_key S) as [ka|] eqn:Ha;
    [destruct (by_arxiv st !! ka) as [ta|] eqn:Hma|]);
  destruct (by_title st !! title_key S) as [tt|] eqn:Hmt;
  cbn beta iota zeta;
  first [ kept_at; fail
        | merged_at ByDoi Hd Hmd; fail
        | merged_at ByPmid Hp Hmp; fail
        | merged_at ByArxiv Ha Hma; fail
        | merged_at ByTitle (eq_refl (Some (title_key S))) Hmt ].
Qed.

Lemma registered_grown st st' n S Y :
  registered st st' n S Y -> grown st st' n S Y.
Proof.
  unfold registered, grown. destruct (key_of Y S) as [k0|].
  - intros [Hnone ->]. split; intros k v.
    + intros Hk. rewrite lookup_insert_ne; [exact Hk | congruence].
    + rewrite lookup_insert. case_decide as Hkk.
      * intros [= <-]. right. subst. auto.
      * auto.
  - intros ->. split; auto.
Qed.

Lemma unchanged_grown st st' n S Y :
  map_of Y st' = map_of Y st -> grown st st' n S Y.
Proof. unfold grown. intros ->. split; auto. Qed.

Lemma merged_by_grown st st' n S X t Y :
  merged_by st st' n S X t -> grown st st' n S Y.
Proof.
  intros (_ & _ & _ & Hreg & Hsame).
  destruct (Nat.lt_ge_cases (rank Y) (rank X)).
  - apply registered_grown. now apply Hreg.
  - apply unchanged_grown. now apply Hsame.
Qed.

Lemma kept_grown st st' n S Y : kept st st' n S -> grown st st' n S Y.
Proof. intros (_ & _ & Hreg). apply registered_grown, Hreg. Qed.

Lemma outcome_grown st n S Y :
  heap st !! n = Some S -> grown st (dedup_paper st n) n S Y.
Proof.
  intros HS. destruct (dedup_paper_outcome st n S HS) as [(X & t & H)|H].
  - eapply merged_by_grown, H.
  - apply kept_grown, H.
Qed.

Lemma outcome_unique st n S :
  heap st !! n = Some S ->
  unique (dedup_paper st n) = unique st \/
  unique (dedup_paper st n) = unique st ++ [n].
Proof.
  intros HS. destruct (dedup_paper_outcome st n S HS) as [(X & t & H)|H].
  - left. apply H.
  - right. apply H.
Qed.

(** *** The invariant of the loop *)

Section Step.

Variable L : list Paper.
Variable n : nat.
Variable st : DedupState.
Variable S : Paper.
Hypothesis Hinv : dedup_inv L n st.
Hypothesis HS : L !! n = Some S.

Local Abbreviation st' := (dedup_paper st n).

Lemma step_heap_n : heap st !! n = Some S.
Proof. rewrite (inv_rest _ _ _ Hinv n); [exact HS | lia]. Qed.

Lemma step_maps X k t :
  map_of X st' !! k = Some t ->
  t < Datatypes.S n /\ exists P0, L !! t = Some P0 /\ key_of X P0 = Some k.
Proof.
  intros Hk. destruct (outcome_grown st n S X step_heap_n) as [_ Hnew].
  destruct (Hnew k t Hk) as [Hold|[-> HkS]].
  - destruct (inv_maps _ _ _ Hinv X k t Hold) as [Hlt HP].
    split; [lia | exact HP].
  - split; [lia | eauto].
Qed.

Lemma step_owner_old u P0 X k :
  In u (unique st) -> L !! u = Some P0 -> key_of X P0 = Some k ->
  map_of X st' !! k = Some u.
Proof.
  intros Hu HP Hk. destruct (outcome_grown st n S X step_heap_n) as [Hmono _].
  apply Hmono. eapply inv_owner; eauto.
Qed.

(** The DOI part of the invariant follows once every survivor with a DOI
    either had it before the step or is the one paper [w] whose DOI the
    step has just put in [by_doi]. *)
Lemma step_doi (w : nat) :
  (forall u P k,
     In u (unique st') -> heap st' !! u = Some P -> doi_key P = Some k ->
     (In u (unique st) /\
      exists P', heap st !! u = Some P' /\ doi_key P' = Some k) \/
     (u = w /\ by_doi st !! k = None /\ by_doi st' !! k = Some n)) ->
  (forall u P k,
     In u (unique st') -> heap st' !! u = Some P -> doi_key P = Some k ->
     is_Some (by_doi st' !! k)) /\
  (forall u v P Q k,
     In u (unique st') -> In v (unique st') -> u <> v ->
     heap st' !! u = Some P -> heap st' !! v = Some Q ->
     doi_key P = Some k -> doi_key Q <> Some k).
Proof.
  intros Hcases.
  destruct (outcome_grown st n S ByDoi step_heap_n) as [Hmono _].
  cbn [map_of] in Hmono. split.
  - intros u P k Hu HP Hk.
    destruct (Hcases u P k Hu HP Hk) as [(Hu0 & P' & HP' & Hk')|(_ & _ & Hn)].
    + destruct (inv_doi_dom _ _ _ Hinv u P' k Hu0 HP' Hk') as [x Hx].
      exists x. now apply Hmono.
    + now exists n.
  - intros u v P Q k Hu Hv Hne HP HQ Hk HkQ.
    destruct (Hcases u P k Hu HP Hk)
      as [(Hu0 & P' & HP' & Hk')|(-> & Hnone & _)];
    destruct (Hcases v Q k Hv HQ HkQ)
      as [(Hv0 & Q' & HQ' & HkQ')|(-> & Hnone' & _)].
    + exact (inv_doi_distinct _ _ _ Hinv u v P' Q' k
               Hu0 Hv0 Hne HP' HQ' Hk' HkQ').
    + destruct (inv_doi_dom _ _ _ Hinv u P' k Hu0 HP' Hk') as [x Hx].
      congruence.
    + destruct (inv_doi_dom _ _ _ Hinv v Q' k Hv0 HQ' HkQ') as [x Hx].
      congruence.
    + congruence.
Qed.

Lemma step_merged X t :
  merged_by st st' n S X t -> dedup_inv L (Datatypes.S n) st'.
Proof.
  intros Hm.
  pose proof Hm as ((k & HkS & Hmap) & Hheap & Huniq & Hreg & Hsame).
  destruct (inv_maps _ _ _ Hinv X k t Hmap) as (Hlt & P0 & HP0 & HkP0).
  assert (Htlen : t < length (heap st)).
  { rewrite (inv_len _ _ _ Hinv). apply lookup_lt_Some in HP0. exact HP0. }
  destruct (lookup_lt_is_Some_2 _ _ Htlen) as [T HT].
  assert (HkT : key_of X T = Some k) by (eapply inv_keep; eauto).
  rewrite (merge_at_insert _ _ _ T S HT step_heap_n) in Hheap.
  assert (Hlook : forall i, heap st' !! i =
            if decide (i = t) then Some (_merge T S) else heap st !! i).
  { intros i. rewrite Hheap. case_decide as Hi.
    - subst i. now apply list_lookup_insert_eq.
    - apply list_lookup_insert_ne. congruence. }
  assert (Hdoi := step_doi t).
  destruct Hdoi as [Hdom Hdist].
  { intros u P kk Hu HP Hkk. rewrite Huniq in Hu. rewrite Hlook in HP.
    case_decide as Hut.
    - injection HP as <-. rewrite (merge_key ByDoi) in Hkk.
      cbn [key_of] in Hkk. destruct (doi_key T) as [k0|] eqn:HdT.
      + left. split; [exact Hu|]. exists T. subst u. split; congruence.
      + right. split; [exact Hut|].
        assert (Hrank : rank ByDoi < rank X).
        { destruct X; cbn [rank]; try lia. cbn [key_of] in HkT. congruence. }
        specialize (Hreg ByDoi Hrank). unfold registered in Hreg.
        cbn [key_of map_of] in Hreg. rewrite Hkk in Hreg.
        destruct Hreg as [Hnone Hins]. split; [exact Hnone|].
        rewrite Hins. apply lookup_insert_eq.
    - left. split; [exact Hu|]. exists P. split; assumption. }
  constructor.
  - rewrite Hheap, length_insert. apply (inv_len _ _ _ Hinv).
  - intros i Hi. rewrite Hlook. case_decide; [lia|].
    apply (inv_rest _ _ _ Hinv). lia.
  - intros i Q0 Q Y kk HQ0 HQ Hkk. rewrite Hlook in HQ. case_decide.
    + injection HQ as <-. subst i. apply merge_key_kept.
      eapply inv_keep; eauto.
    + eapply inv_keep; eauto.
  - apply step_maps.
  - intros u Hu. rewrite Huniq in Hu.
    pose proof (inv_unique_lt _ _ _ Hinv u Hu). lia.
  - rewrite Huniq. apply (inv_unique_nodup _ _ _ Hinv).
  - intros u Q0 Y kk Hu. rewrite Huniq in Hu. now apply step_owner_old.
  - exact Hdom.
  - exact Hdist.
Qed.

Lemma step_kept : kept st st' n S -> dedup_inv L (Datatypes.S n) st'.
Proof.
  intros (Hheap & Huniq & Hreg).
  assert (Hdoi := step_doi n).
  destruct Hdoi as [Hdom Hdist].
  { intros u P kk Hu HP Hkk. rewrite Huniq in Hu. rewrite Hheap in HP.
    apply in_app_or in Hu as [Hu|[<-|[]]].
    - left. eauto.
    - right. split; [reflexivity|].
      rewrite step_heap_n in HP. injection HP as <-.
      specialize (Hreg ByDoi). unfold registered in Hreg.
      cbn [key_of map_of] in Hreg. rewrite Hkk in Hreg.
      destruct Hreg as [Hnone Hins]. split; [exact Hnone|].
      rewrite Hins. apply lookup_insert_eq. }
  constructor.
  - rewrite Hheap. apply (inv_len _ _ _ Hinv).
  - intros i Hi. rewrite Hheap. apply (inv_rest _ _ _ Hinv). lia.
  - intros i Q0 Q Y kk HQ0 HQ. rewrite Hheap in HQ. eapply inv_keep; eauto.
  - apply step_maps.
  - intros u Hu. rewrite Huniq in Hu. apply in_app_or in Hu as [Hu|[<-|[]]].
    + pose proof (inv_unique_lt _ _ _ Hinv u Hu). lia.
    + lia.
  - rewrite Huniq. apply NoDup_app.
    split; [apply (inv_unique_nodup _ _ _ Hinv)|].
    split; [|apply NoDup_singleton].
    intros u Hu Hn. apply list_elem_of_In in Hu.
    apply list_elem_of_singleton in Hn.
    pose proof (inv_unique_lt _ _ _ Hinv u Hu). lia.
  - intros u Q0 Y kk Hu HQ0 Hkk. rewrite Huniq in Hu.
    apply in_app_or in Hu as [Hu|[<-|[]]].
    + now apply (step_owner_old u Q0).
    + assert (Q0 = S) as -> by congruence.
      specialize (Hreg Y). unfold registered in Hreg. rewrite Hkk in Hreg.
      destruct Hreg as [_ Hins]. rewrite Hins. apply lookup_insert_eq.
  - exact Hdom.
  - exact Hdist.
Qed.

Lemma dedup_inv_step : dedup_inv L (Datatypes.S n) st'.
Proof.
  destruct (dedup_paper_outcome st n S step_heap_n) as [(X & t & H)|H].
  - now apply (step_merged X t).
  - now apply step_kept.
Qed.

End Step.

Lemma dedup_upto_S (L : list Paper) (n : nat) :
  dedup_upto L (S n) = dedup_paper (dedup_upto L n) n.
Proof. unfold dedup_upto. now rewrite seq_S, fold_left_app. Qed.

Lemma dedup_inv_init (L : list Paper) : dedup_inv L 0 (dedup_init L).
Proof.
  constructor; cbn [dedup_init heap unique by_doi].
  - reflexivity.
  - reflexivity.
  - intros i P0 P X k H0 H1. congruence.
  - intros [] k t H;
      cbn [map_of dedup_init by_doi by_pmid by_arxiv by_title] in H;
      rewrite lookup_empty in H; discriminate.
  - intros u [].
  - constructor.
  - intros u P0 X k [].
  - intros u P k [].
  - intros u v P Q k [].
Qed.

Lemma dedup_inv_upto (L : list Paper) (n : nat) :
  n <= length L -> dedup_inv L n (dedup_upto L n).
Proof.
  induction n as [|n IH]; intros Hn.
  - apply dedup_inv_init.
  - rewrite dedup_upto_S.
    destruct (lookup_lt_is_Some_2 L n) as [S HS]; [lia|].
    apply (dedup_inv_step L n _ S); [apply IH; lia | exact HS].
Qed.

Lemma dedup_run_upto (L : list Paper) : dedup_run L = dedup_upto L (length L).
Proof. reflexivity. Qed.

Lemma dedup_run_inv (L : list Paper) :
  dedup_inv L (length L) (dedup_run L).
Proof. rewrite dedup_run_upto. now apply dedup_inv_upto. Qed.

(** *** The output *)

Lemma lookup_omap_heap (h : list Paper) (l : list nat) :
  (forall u, In u l -> u < length h) ->
  forall a, omap (fun i => h !! i) l !! a = l !! a ≫= (fun i => h !! i).
Proof.
  induction l as [|u l IH]; intros Hl a; [reflexivity|].
  destruct (lookup_lt_is_Some_2 h u) as [P HP]; [apply Hl; now left|].
  cbn [omap list_omap]. rewrite HP.
  destruct a as [|a]; cbn; [now rewrite HP|].
  apply IH. intros v Hv. apply Hl. now right.
Qed.

(** A paper of the output is the object, as the run left it, at a
    position of [unique]. *)
Lemma deduplicate_lookup (L : list Paper) (a : nat) (P : Paper) :
  _deduplicate L !! a = Some P ->
  exists u, _deduplicate_positions L !! a = Some u /\
            In u (unique (dedup_run L)) /\
            heap (dedup_run L) !! u = Some P.
Proof.
  pose proof (dedup_run_inv L) as Hinv.
  unfold _deduplicate, _deduplicate_positions. cbv zeta.
  rewrite lookup_omap_heap.
  - destruct (unique (dedup_run L) !! a) as [u|] eqn:Hu; [|discriminate].
    cbn. intros HP. exists u. split; [reflexivity|]. split; [|exact HP].
    apply list_elem_of_In. eapply list_elem_of_lookup_2, Hu.
  - intros u Hu. rewrite (inv_len _ _ _ Hinv).
    apply (inv_unique_lt _ _ _ Hinv u Hu).
Qed.

(** It is the paper of the input at that position, and has the keys that
    this one came with. *)
Lemma deduplicate_survivor (L : list Paper) (a : nat) (P : Paper) :
  _deduplicate L !! a = Some P ->
  exists i P0,
    _deduplicate_positions L !! a = Some i /\ L !! i = Some P0 /\
    forall X k, key_of X P0 = Some k -> key_of X P = Some k.
Proof.
  intros HP. apply deduplicate_lookup in HP as (u & Hu & Hin & HP).
  pose proof (dedup_run_inv L) as Hinv.
  destruct (lookup_lt_is_Some_2 L u) as [P0 HP0];
    [apply (inv_unique_lt _ _ _ Hinv u Hin)|].
  exists u, P0. split; [exact Hu|]. split; [exact HP0|].
  intros X k. now apply (inv_keep _ _ _ Hinv u P0 P X k).
Qed.

Lemma positions_distinct (L : list Paper) (a b u v : nat) :
  a <> b ->
  _deduplicate_positions L !! a = Some u ->
  _deduplicate_positions L !! b = Some v -> u <> v.
Proof.
  intros Hab Ha Hb ->. apply Hab.
  eapply NoDup_lookup; [|exact Ha|exact Hb].
  apply (inv_unique_nodup _ _ _ (dedup_run_inv L)).
Qed.

(** *** Distinct keys *)

Lemma dedup_distinct_doi (L : list Paper) :
  Spec.distinct_by doi_key (_deduplicate L).
Proof.
  intros a b P Q k Hab HP HQ Hk.
  apply deduplicate_lookup in HP as (u & Hu & Hinu & HP).
  apply deduplicate_lookup in HQ as (v & Hv & Hinv & HQ).
  eapply (inv_doi_distinct _ _ _ (dedup_run_inv L) u v); eauto.
  eapply positions_distinct; eauto.
Qed.

Lemma owner_unique (L : list Paper) (X : Check) (u v : nat) (P Q : Paper)
    (k : string) :
  In u (unique (dedup_run L)) -> In v (unique (dedup_run L)) ->
  L !! u = Some P -> L !! v = Some Q ->
  key_of X P = Some k -> key_of X Q = Some k -> u = v.
Proof.
  intros Hu Hv HP HQ HkP HkQ.
  pose proof (inv_owner _ _ _ (dedup_run_inv L) u P X k Hu HP HkP) as H1.
  pose proof (inv_owner _ _ _ (dedup_run_inv L) v Q X k Hv HQ HkQ) as H2.
  congruence.
Qed.

Lemma dedup_distinct_titles (L : list Paper) :
  Spec.distinct_titles (_deduplicate L).
Proof.
  intros a b P Q k Hab HP HQ [= Hk] [= HkQ].
  apply deduplicate_lookup in HP as (u & Hu & Hinu & HP).
  apply deduplicate_lookup in HQ as (v & Hv & Hinv & HQ).
  pose proof (dedup_run_inv L) as Hinv'.
  destruct (lookup_lt_is_Some_2 L u) as [P0 HP0];
    [apply (inv_unique_lt _ _ _ Hinv' u Hinu)|].
  destruct (lookup_lt_is_Some_2 L v) as [Q0 HQ0];
    [apply (inv_unique_lt _ _ _ Hinv' v Hinv)|].
  pose proof (inv_keep _ _ _ Hinv' u P0 P ByTitle _ HP0 HP eq_refl) as HkP.
  pose proof (inv_keep _ _ _ Hinv' v Q0 Q ByTitle _ HQ0 HQ eq_refl) as HkQ'.
  cbn [key_of] in HkP, HkQ'.
  apply (positions_distinct L a b u v Hab Hu Hv).
  apply (owner_unique L ByTitle u v P0 Q0 k Hinu Hinv HP0 HQ0);
    cbn [key_of]; congruence.
Qed.

Lemma dedup_distinct_found (L : list Paper) (X : Check) :
  Spec.distinct_as_found (key_of X) L.
Proof.
  intros a b i j P Q k Hab Hi Hj HP HQ Hk HkQ.
  apply (positions_distinct L a b i j Hab Hi Hj).
  apply (owner_unique L X i j P Q k); auto;
    apply list_elem_of_In; eapply list_elem_of_lookup_2; eassumption.
Qed.

(** C1, as stated, fails for PMIDs (and for arXiv ids in the same way): a
    record that is merged on its DOI brings its PMID to a survivor, while
    another survivor has that PMID already. *)
Lemma C1_counterexample :
  ~ (Spec.distinct_by doi_key (_deduplicate Examples.backfill_papers) /\
     Spec.distinct_by pmid_key (_deduplicate Examples.backfill_papers) /\
     Spec.distinct_by arxiv_key (_deduplicate Examples.backfill_papers) /\
     Spec.distinct_titles (_deduplicate Examples.backfill_papers)).
Proof.
  intros (_ & Hpmid & _).
  eapply (Hpmid 0 1 _ _ "7"%string); [lia | vm_compute; reflexivity ..].
Qed.

(** The same run with arXiv ids. *)
Example backfill_arxiv_shared :
  ~ Spec.distinct_by arxiv_key (_deduplicate Examples.backfill_arxiv_papers).
Proof.
  intros H.
  eapply (H 0 1 _ _ "2301.01234"%string); [lia | vm_compute; reflexivity ..].
Qed.

(** C1, amended. For any two distinct papers of the list that
    [_deduplicate] returns: when both have a DOI, their lowercased and
    trimmed DOIs differ; their normalized titles differ; and when both came
    into [_deduplicate] with a PMID, those trimmed PMIDs differ, and
    likewise for the arXiv ids they came with. *)
Theorem C1_survivors_distinct (L : list Paper) :
  Spec.distinct_by doi_key (_deduplicate L) /\
  Spec.distinct_titles (_deduplicate L) /\
  Spec.distinct_as_found pmid_key L /\
  Spec.distinct_as_found arxiv_key L.
Proof.
  split; [apply dedup_distinct_doi|].
  split; [apply dedup_distinct_titles|].
  split.
  - apply (dedup_distinct_found L ByPmid).
  - apply (dedup_distinct_found L ByArxiv).
Qed.

(** *** Equal titles *)









(** *** Lists that deduplication leaves as they are *)

Lemma omap_lookup_seq (pre l : list Paper) :
  omap (fun i => (pre ++ l) !! i) (seq (length pre) (length l)) = l.
Proof.
  revert pre. induction l as [|x l IH]; intros pre; [reflexivity|].
  cbn [length seq omap list_omap]. rewrite list_lookup_middle; [|reflexivity].
  f_equal. specialize (IH (pre ++ [x])).
  rewrite <- app_assoc, length_app, Nat.add_1_r in IH. exact IH.
Qed.

Lemma fixed_inv_upto (O : list Paper) :
  (forall X, Spec.distinct_by (key_of X) O) ->
  forall n, n <= length O -> fixed_inv O n (dedup_upto O n).
Proof.
  intros Hdist. induction n as [|n IH]; intros Hn.
  - constructor; [reflexivity | reflexivity |].
    intros [] k t H; cbn in H; rewrite lookup_empty in H; discriminate.
  - destruct IH as [Hheap Huniq Hmaps]; [lia|].
    destruct (lookup_lt_is_Some_2 O n) as [P HP]; [lia|].
    assert (HP' : heap (dedup_upto O n) !! n = Some P) by now rewrite Hheap.
    rewrite dedup_upto_S.
    assert (Hmaps' : forall X k t,
      map_of X (dedup_paper (dedup_upto O n) n) !! k = Some t ->
      t < S n /\ exists Q, O !! t = Some Q /\ key_of X Q = Some k).
    { intros X k t Hk.
      destruct (outcome_grown _ n P X HP') as [_ Hnew].
      destruct (Hnew k t Hk) as [Hold|[-> HkP]].
      - destruct (Hmaps X k t Hold) as [Hlt HQ]. split; [lia | exact HQ].
      - split; [lia | eauto]. }
    destruct (dedup_paper_outcome _ n P HP') as [(X & t & Hm)|Hk].
    + exfalso. destruct Hm as ((k & HkP & Hmap) & _).
      destruct (Hmaps X k t Hmap) as (Hlt & Q & HQ & HkQ).
      apply (Hdist X t n Q P k); [lia | assumption..].
    + destruct Hk as (Hh & Hu & _). constructor.
      * now rewrite Hh.
      * now rewrite Hu, Huniq, seq_S.
      * exact Hmaps'.
Qed.

(** A list whose papers differ in every key is returned as it is. *)
Lemma deduplicate_fixed (O : list Paper) :
  (forall X, Spec.distinct_by (key_of X) O) -> _deduplicate O = O.
Proof.
  intros Hdist.
  destruct (fixed_inv_upto O Hdist (length O) ltac:(lia)) as [Hheap Huniq _].
  unfold _deduplicate. cbv zeta. rewrite dedup_run_upto, Hheap, Huniq.
  apply (omap_lookup_seq [] O).
Qed.

(** C4, as stated, fails: the first pass can leave two papers with one
    PMID, which the second pass merges. *)
Lemma C4_counterexample :
  _deduplicate (_deduplicate Examples.backfill_papers)
  <> _deduplicate Examples.backfill_papers.
Proof.
  intros H. apply (f_equal (@length Paper)) in H.
  vm_compute in H. discriminate H.
Qed.

(** C4, amended. Deduplication is idempotent on every list whose
    deduplicated list has no two papers with one PMID or with one arXiv
    id: then [_deduplicate(_deduplicate(L))] equals [_deduplicate(L)]
    elementwise. *)
Theorem C4_idempotent_when_ids_distinct (L : list Paper) :
  Spec.distinct_by pmid_key (_deduplicate L) ->
  Spec.distinct_by arxiv_key (_deduplicate L) ->
  _deduplicate (_deduplicate L) = _deduplicate L.
Proof.
  intros Hpmid Harxiv. apply deduplicate_fixed. intros [].
  - apply dedup_distinct_doi.
  - exact Hpmid.
  - exact Harxiv.
  - apply dedup_distinct_titles.
Qed.

Ltac distinct_in_two :=
  intros a b P Q k Hab HP HQ Hk HkQ;
  destruct a as [|[|a]], b as [|[|b]];
  vm_compute in HP, HQ; try discriminate; try lia;
  injection HP as <-; injection HQ as <-;
  vm_compute in Hk, HkQ; congruence.

Lemma clean_papers_pmids :
  Spec.distinct_by pmid_key (_deduplicate Examples.clean_papers).
Proof. distinct_in_two. Qed.

Lemma clean_papers_arxiv_ids :
  Spec.distinct_by arxiv_key (_deduplicate Examples.clean_papers).
Proof. distinct_in_two. Qed.

Lemma C4_idempotent_witness :
  Spec.distinct_by pmid_key (_deduplicate Examples.clean_papers) /\
  Spec.distinct_by arxiv_key (_deduplicate Examples.clean_papers) /\
  _deduplicate (_deduplicate Examples.clean_papers)
  = _deduplicate Examples.clean_papers.
Proof.
  split; [apply clean_papers_pmids|]. split; [apply clean_papers_arxiv_ids|].
  apply (C4_idempotent_when_ids_distinct Examples.clean_papers).
  - apply clean_papers_pmids.
  - apply clean_papers_arxiv_ids.
Defined.

(** Scenario: two DOIs that differ in case are one paper, found in both
    sources. *)
Example dedup_by_doi_scenario :
  List.map (fun p => (title p, pmid p))
    (_deduplicate Examples.clean_papers)
  = [("Alpha"%string, Some "1"%string); ("Beta"%string, Some "2"%string)].
Proof. vm_compute. reflexivity. Qed.

(** * Further properties of the code *)

Import Vocabulary.
Local Open Scope Z_scope.

(** ** [Result]: how the combinators compose *)

(** [and_then] and [map] follow the laws of a monad: [Ok] is a unit on
    both sides, chaining is associative, two [map]s fuse, and an [Err]
    goes through every chain as it is. *)
Theorem result_combinators_compose (T U V E : Type)
    (f : T -> Result U E) (g : U -> Result V E)
    (h : T -> U) (k : U -> V) (v : T) (e : E) (r : Result T E) :
  and_then f (Ok v) = f v /\
  and_then Ok r = r /\
  and_then g (and_then f r)
  = and_then (fun x => and_then g (f x)) r /\
  Result.map k (Result.map h r) = Result.map (fun x => k (h x)) r /\
  Result.map h r = and_then (fun x => Ok (h x)) r /\
  and_then g (and_then f (Err e)) = Err e /\
  Result.map k (Result.map h (Err e : Result T E)) = Err e.
Proof. repeat split; destruct r; reflexivity. Qed.

(** ** [safe_int] on strings *)

Section SafeInt.

Import SafeConv.

Lemma decimal_step (ds : list ascii) (acc : Z) :
  0 <= acc -> Forall (fun c => isdecimal c = true) ds ->
  0 <= fold_left (fun acc c => 10 * acc + (Z.of_N (Py.ord c) - 48)) ds acc.
Proof.
  intros Hacc Hds. revert acc Hacc.
  induction Hds as [|c ds Hc _ IH]; intros acc Hacc; [exact Hacc|].
  simpl. apply IH. unfold isdecimal, Py.between in Hc.
  apply andb_prop in Hc as [H1 H2].
  apply N.leb_le in H1. lia.
Qed.

Lemma filter_kept_decimal (l : list ascii) :
  (forall c, In c l -> kept c = true -> isdecimal c = true) ->
  List.filter kept l = List.filter isdecimal l.
Proof.
  intros H. apply filter_ext_in. intros c Hc.
  destruct (kept c) eqn:Hk.
  - symmetry. now apply H.
  - unfold kept, isdigit, isdecimal in *.
    destruct (Py.between 48 57 (Py.ord c)); [discriminate Hk | reflexivity].
Qed.

(** On a string in which every character that [safe_int] keeps is a
    decimal digit (no [-], no superscript), and which has no more digits
    than [int] reads, [safe_int] does not raise: it returns the number
    that the digits of the string write, which is not negative, whatever
    stands between them, and the default when there is no digit. *)
Theorem safe_int_reads_digits (value : string) (default : Z) :
  (forall c, In c (Py.chars value) -> kept c = true -> isdecimal c = true) ->
  (length (List.filter isdecimal (Py.chars value)) <= max_str_digits)%nat ->
  safe_int value default
  = match List.filter isdecimal (Py.chars value) with
    | [] => Returns default
    | ds => Returns (decimal ds)
    end
  /\ 0 <= decimal (List.filter isdecimal (Py.chars value)).
Proof.
  intros Hdec Hlen. split.
  - unfold safe_int. rewrite (filter_kept_decimal _ Hdec).
    destruct (List.filter isdecimal (Py.chars value)) as [|c ds] eqn:Hf;
      [reflexivity|].
    assert (Hall : forallb isdecimal (c :: ds) = true).
    { apply forallb_forall. intros x Hx. rewrite <- Hf in Hx.
      now apply filter_In in Hx. }
    pose proof Hall as Hc. cbn [forallb] in Hc.
    apply andb_prop in Hc as [Hc _].
    assert (Hdigit : isdigit c = true)
      by (unfold isdigit; unfold isdecimal in Hc; now rewrite Hc).
    rewrite Hdigit. cbn [orb]. unfold int_of.
    destruct (Ascii.eqb_spec c "-"%char) as [->|_]; [discriminate Hc|].
    rewrite Hall, (proj2 (Nat.leb_le _ _) Hlen). cbn [andb].
    f_equal. lia.
  - apply decimal_step; [lia|].
    apply List.Forall_forall. intros c Hc. now apply filter_In in Hc.
Qed.

Lemma safe_int_reads_digits_witness :
  (forall c, In c (Py.chars "pp. 12, 34") -> kept c = true ->
             isdecimal c = true) /\
  (length (List.filter isdecimal (Py.chars "pp. 12, 34"))
   <= max_str_digits)%nat /\
  safe_int "pp. 12, 34" 0 = Returns 1234.
Proof.
  assert (H : forall c, In c (Py.chars "pp. 12, 34") -> kept c = true ->
                        isdecimal c = true).
  { intros c Hc. simpl in Hc.
    repeat destruct Hc as [<-|Hc]; try (intros _; reflexivity);
      try discriminate; contradiction. }
  assert (Hlen : (length (List.filter isdecimal (Py.chars "pp. 12, 34"))
                  <= max_str_digits)%nat)
    by (apply Nat.leb_le; vm_compute; reflexivity).
  split; [exact H|]. split; [exact Hlen|].
  exact (proj1 (safe_int_reads_digits "pp. 12, 34" 0 H Hlen)).
Defined.

(** [safe_int] is not safe: it raises [ValueError] on a string whose
    first kept character is a digit and in which a [-] or a superscript
    digit comes later, as in a date or a page range, and on a string of
    more digits than [int] reads. *)
Theorem safe_int_raises (value : string) (default : Z)
    (c : ascii) (rest : list ascii) :
  List.filter kept (Py.chars value) = c :: rest ->
  isdigit c = true ->
  (exists d, In d rest /\ isdecimal d = false)
  \/ (max_str_digits < length (c :: rest))%nat ->
  safe_int value default = Raises ValueError.
Proof.
  intros Hkept Hc Hbad. unfold safe_int. rewrite Hkept, Hc. cbn [orb].
  unfold int_of.
  assert (Hnot : forallb isdecimal (c :: rest)
                 && (length (c :: rest) <=? max_str_digits)%nat = false).
  { destruct Hbad as [(d & Hd & Hnd)|Hlong].
    - apply andb_false_intro1. apply not_true_is_false. intros Hall.
      rewrite forallb_forall in Hall.
      specialize (Hall d (or_intror Hd)). congruence.
    - apply andb_false_intro2. now apply Nat.leb_gt. }
  destruct (Ascii.eqb_spec c "-"%char) as [->|_]; [discriminate Hc|].
  now rewrite Hnot.
Qed.

Lemma safe_int_raises_witness :
  List.filter kept (Py.chars "2023-01-03")
  = "2"%char :: Py.chars "023-01-03" /\
  isdigit "2"%char = true /\
  (exists d, In d (Py.chars "023-01-03") /\ isdecimal d = false) /\
  safe_int "2023-01-03" 0 = Raises ValueError.
Proof.
  assert (Hbad : exists d, In d (Py.chars "023-01-03")
                           /\ isdecimal d = false)
    by (exists "-"%char; split; [simpl; auto 10 | reflexivity]).
  split; [reflexivity|]. split; [reflexivity|]. split; [exact Hbad|].
  apply (safe_int_raises "2023-01-03" 0 "2"%char (Py.chars "023-01-03"));
    [reflexivity | reflexivity | left; exact Hbad].
Defined.

End SafeInt.


(** ** [calculate_reliability] *)

Import Scoring.

(** The values that each component takes. *)
Lemma peer_review_score_values (paper : Paper) (b : bool) :
  In (peer_review_score paper b) [f0_30; f0_10; f0_20; f0_05].
Proof.
  unfold peer_review_score.
  destruct b; [|destruct (SourceType_eqb _ PREPRINT);
                [|destruct (SourceType_eqb _ CONFERENCE)]];
    simpl; auto.
Qed.

Lemma journal_score_values (paper : Paper) (j : option string) :
  In (journal_score paper j) [0%float; f0_20; f0_15; f0_10].
Proof.
  unfold journal_score. destruct j as [j|]; [|simpl; auto].
  destruct (String.eqb j ""); [simpl; auto|].
  destruct (existsb _ HIGH_IMPACT_JOURNALS); [simpl; auto|].
  destruct (publisher paper) as [p|]; [|simpl; auto].
  destruct (negb _ && _); simpl; auto.
Qed.

Lemma recency_score_values (current_year : Z) (y : option Z) :
  In (recency_score current_year y) [0%float; f0_10; f0_07; f0_04; f0_02].
Proof.
  unfold recency_score. destruct y as [y|]; [|simpl; auto].
  destruct (y =? 0); [simpl; auto|].
  destruct (_ <=? 2); [simpl; auto|].
  destruct (_ <=? 5); [simpl; auto|].
  destruct (_ <=? 10); simpl; auto 6.
Qed.

(** The two components that grow with the evidence, for less and for
    more of it. *)
Lemma citations_score_grows (n n' : Z) :
  n <= n' ->
  In (citations_score n, citations_score n')
    [ (f0_20, f0_20);
      (f0_15, f0_20); (f0_15, f0_15);
      (f0_10, f0_20); (f0_10, f0_15); (f0_10, f0_10);
      (f0_05, f0_20); (f0_05, f0_15); (f0_05, f0_10); (f0_05, f0_05);
      (f0_02, f0_20); (f0_02, f0_15); (f0_02, f0_10); (f0_02, f0_05);
      (f0_02, f0_02);
      (0%float, f0_20); (0%float, f0_15); (0%float, f0_10);
      (0%float, f0_05); (0%float, f0_02); (0%float, 0%float) ].
Proof.
  intros Hle. unfold citations_score.
  repeat match goal with
         | |- context [?a <=? ?b] => destruct (Z.leb_spec a b)
         end; try lia; simpl; auto 25.
Qed.

Lemma verification_score_grows (n n' : Z) :
  n <= n' ->
  In (verification_score n, verification_score n')
    [ (f0_20, f0_20);
      (f0_15, f0_20); (f0_15, f0_15);
      (f0_10, f0_20); (f0_10, f0_15); (f0_10, f0_10);
      (f0_05, f0_20); (f0_05, f0_15); (f0_05, f0_10); (f0_05, f0_05) ].
Proof.
  intros Hle. unfold verification_score.
  repeat match goal with
         | |- context [?a <=? ?b] => destruct (Z.leb_spec a b)
         end; try lia; simpl; auto 15.
Qed.

Lemma all_in_spec {A} (l : list A) (test : A -> bool) :
  all_in l test = true -> forall x, In x l -> test x = true.
Proof. unfold all_in. rewrite forallb_forall. auto. Qed.

(** Every combination of component values gives a total that is the plain
    sum, at least 0.1 and below 1. *)
Lemma totals_checked :
  all_in [f0_30; f0_10; f0_20; f0_05] (fun pr =>
  all_in [0%float; f0_20; f0_15; f0_10] (fun j =>
  all_in [f0_20; f0_15; f0_10; f0_05; f0_02; 0%float] (fun c =>
  all_in [f0_20; f0_15; f0_10; f0_05] (fun v =>
  all_in [0%float; f0_10; f0_07; f0_04; f0_02] (fun r =>
    PrimFloat.Leibniz.eqb (total_of pr j c v r) (pr + j + c + v + r)%float
    && PrimFloat.leb f0_10 (total_of pr j c v r)
    && PrimFloat.ltb (total_of pr j c v r) 1))))) = true.
Proof. vm_compute. reflexivity. Qed.

(** More citations and more sources do not lower the total. *)
Lemma totals_grow_checked :
  all_in [f0_30; f0_10; f0_20; f0_05] (fun pr =>
  all_in [0%float; f0_20; f0_15; f0_10] (fun j =>
  all_in [0%float; f0_10; f0_07; f0_04; f0_02] (fun r =>
  all_in
    [ (f0_20, f0_20);
      (f0_15, f0_20); (f0_15, f0_15);
      (f0_10, f0_20); (f0_10, f0_15); (f0_10, f0_10);
      (f0_05, f0_20); (f0_05, f0_15); (f0_05, f0_10); (f0_05, f0_05);
      (f0_02, f0_20); (f0_02, f0_15); (f0_02, f0_10); (f0_02, f0_05);
      (f0_02, f0_02);
      (0%float, f0_20); (0%float, f0_15); (0%float, f0_10);
      (0%float, f0_05); (0%float, f0_02); (0%float, 0%float) ] (fun c =>
  all_in
    [ (f0_20, f0_20);
      (f0_15, f0_20); (f0_15, f0_15);
      (f0_10, f0_20); (f0_10, f0_15); (f0_10, f0_10);
      (f0_05, f0_20); (f0_05, f0_15); (f0_05, f0_10); (f0_05, f0_05) ]
    (fun v =>
       PrimFloat.leb (total_of pr j (fst c) (fst v) r)
         (total_of pr j (snd c) (snd v) r)))))) = true.
Proof. vm_compute. reflexivity. Qed.

(** The total that [calculate_reliability] gives to a paper that is not
    retracted: the clamp of [total] is idle. *)
Lemma calculate_reliability_sum (current_year : Z) (paper : Paper)
    (is_peer_reviewed : bool) (journal_name : option string)
    (citation_count sources_found : Z) (year : option Z) :
  let score :=
    calculate_reliability current_year paper is_peer_reviewed journal_name
      citation_count sources_found year false in
  Reliability.total score
  = (Reliability.peer_review score + Reliability.journal score
     + Reliability.citations score + Reliability.verification score
     + Reliability.recency score)%float
  /\ PrimFloat.leb f0_10 (Reliability.total score) = true
  /\ PrimFloat.ltb (Reliability.total score) 1 = true.
Proof.
  cbv zeta. unfold calculate_reliability.
  cbn [Reliability.peer_review Reliability.journal Reliability.citations
       Reliability.verification Reliability.recency].
  fold (total_of (peer_review_score paper is_peer_reviewed)
          (journal_score paper journal_name)
          (citations_score citation_count)
          (verification_score sources_found)
          (recency_score current_year year)).
  pose proof totals_checked as H.
  pose proof (all_in_spec _ _ H _
                (peer_review_score_values paper is_peer_reviewed)) as H1;
    cbv beta in H1.
  pose proof (all_in_spec _ _ H1 _
                (journal_score_values paper journal_name)) as H2;
    cbv beta in H2.
  assert (Hc : In (citations_score citation_count)
                 [f0_20; f0_15; f0_10; f0_05; f0_02; 0%float]).
  { pose proof (citations_score_grows citation_count citation_count
                  (Z.le_refl _)) as Hin.
    apply (in_map fst) in Hin. simpl in Hin. simpl.
    repeat destruct Hin as [Hin|Hin]; auto 10; contradiction. }
  assert (Hv : In (verification_score sources_found)
                 [f0_20; f0_15; f0_10; f0_05]).
  { pose proof (verification_score_grows sources_found sources_found
                  (Z.le_refl _)) as Hin.
    apply (in_map fst) in Hin. simpl in Hin. simpl.
    repeat destruct Hin as [Hin|Hin]; auto 10; contradiction. }
  pose proof (all_in_spec _ _ H2 _ Hc) as H3; cbv beta in H3.
  pose proof (all_in_spec _ _ H3 _ Hv) as H4; cbv beta in H4.
  pose proof (all_in_spec _ _ H4 _
                (recency_score_values current_year year)) as H5;
    cbv beta in H5.
  apply andb_prop in H5 as [H5 Hlt]. apply andb_prop in H5 as [Heq Hle].
  apply FloatAxioms.Leibniz.eqb_spec in Heq.
  repeat split; assumption.
Qed.

Lemma calculate_reliability_range (current_year : Z) (paper : Paper)
    (is_peer_reviewed : bool) (journal_name : option string)
    (citation_count sources_found : Z) (year : option Z) :
  let score :=
    calculate_reliability current_year paper is_peer_reviewed journal_name
      citation_count sources_found year false in
  PrimFloat.leb f0_10 (Reliability.total score) = true /\
  PrimFloat.ltb (Reliability.total score) 1 = true.
Proof. apply calculate_reliability_sum. Qed.

(** A score that [calculate_reliability] gives to a retracted paper
    totals 0. For a paper that is not retracted the clamp of [total] is
    idle: the total is the plain sum of the five components, it is at
    least 0.1 and it stays below 1 (the five maxima add up to
    0.9999999999999999). *)
Theorem calculate_reliability_total (current_year : Z) (paper : Paper)
    (is_peer_reviewed : bool) (journal_name : option string)
    (citation_count sources_found : Z) (year : option Z)
    (is_retracted : bool) :
  let score :=
    calculate_reliability current_year paper is_peer_reviewed journal_name
      citation_count sources_found year is_retracted in
  if is_retracted then Reliability.total score = 0%float
  else
    Reliability.total score
    = (Reliability.peer_review score + Reliability.journal score
       + Reliability.citations score + Reliability.verification score
       + Reliability.recency score)%float
    /\ PrimFloat.leb f0_10 (Reliability.total score) = true
    /\ PrimFloat.ltb (Reliability.total score) 1 = true.
Proof.
  destruct is_retracted; [reflexivity | apply calculate_reliability_sum].
Qed.

(** Found in more sources or cited more, a paper that is otherwise the
    same does not get a lower total from [calculate_reliability]. *)
Theorem calculate_reliability_grows (current_year : Z) (paper : Paper)
    (is_peer_reviewed : bool) (journal_name : option string)
    (citation_count citation_count' sources_found sources_found' : Z)
    (year : option Z) :
  citation_count <= citation_count' -> sources_found <= sources_found' ->
  PrimFloat.leb
    (Reliability.total
       (calculate_reliability current_year paper is_peer_reviewed
          journal_name citation_count sources_found year false))
    (Reliability.total
       (calculate_reliability current_year paper is_peer_reviewed
          journal_name citation_count' sources_found' year false))
  = true.
Proof.
  intros Hc Hv. unfold calculate_reliability.
  fold (total_of (peer_review_score paper is_peer_reviewed)
          (journal_score paper journal_name)
          (citations_score citation_count)
          (verification_score sources_found)
          (recency_score current_year year)).
  fold (total_of (peer_review_score paper is_peer_reviewed)
          (journal_score paper journal_name)
          (citations_score citation_count')
          (verification_score sources_found')
          (recency_score current_year year)).
  pose proof totals_grow_checked as H.
  pose proof (all_in_spec _ _ H _
                (peer_review_score_values paper is_peer_reviewed)) as H1;
    cbv beta in H1.
  pose proof (all_in_spec _ _ H1 _
                (journal_score_values paper journal_name)) as H2;
    cbv beta in H2.
  pose proof (all_in_spec _ _ H2 _
                (recency_score_values current_year year)) as H3;
    cbv beta in H3.
  pose proof (all_in_spec _ _ H3 _ (citations_score_grows _ _ Hc)) as H4;
    cbv beta in H4.
  pose proof (all_in_spec _ _ H4 _ (verification_score_grows _ _ Hv))
    as H5; cbv beta in H5.
  exact H5.
Qed.

Lemma calculate_reliability_grows_witness :
  25 <= 150 /\ 1 <= 3 /\
  PrimFloat.leb
    (Reliability.total
       (calculate_reliability 2026
          (Examples.paper_of "Alpha" None None None []) true
          (Some "Nature") 25 1 (Some 2025) false))
    (Reliability.total
       (calculate_reliability 2026
          (Examples.paper_of "Alpha" None None None []) true
          (Some "Nature") 150 3 (Some 2025) false))
  = true.
Proof.
  split; [lia|]. split; [lia|].
  apply calculate_reliability_grows; lia.
Defined.


(** ** The normalized title as a key *)

Lemma str_chars (s : string) : Py.str (Py.chars s) = s.
Proof. apply string_of_list_ascii_of_string. Qed.

Lemma str_nil_inv (l : list ascii) : Py.str l = ""%string -> l = [].
Proof. intros H. apply (f_equal Py.chars) in H. now rewrite chars_str in H. Qed.

Lemma normalize_title_words (t : string) :
  _normalize_title t = Py.str (Py.join_chars (title_words t)).
Proof.
  destruct (String.eqb_spec t "") as [->|Ht]; [reflexivity|].
  now apply normalize_title_chars.
Qed.

Lemma title_words_are_words (t : string) : Forall word (title_words t).
Proof.
  apply List.Forall_forall. intros w Hw. apply filter_In in Hw as [Hw _].
  revert w Hw. apply List.Forall_forall. apply split_chars_words.
Qed.



(** A normalized title is in normal form: it is made of its words, joined
    by single spaces; none of them is a stopword; [lower()] and the
    removal of punctuation leave it as it is. *)
Theorem normalize_title_normal_form (t : string) :
  Py.join_space (Py.split (_normalize_title t)) = _normalize_title t /\
  Forall (fun w => is_stopword w = false) (Py.split (_normalize_title t)) /\
  Py.lower (_normalize_title t) = _normalize_title t /\
  Py.sub_nonword_nonspace (_normalize_title t) = _normalize_title t.
Proof.
  rewrite normalize_title_words.
  pose proof (title_words_are_words t) as Hwords.
  assert (Hsplit : Py.split (Py.str (Py.join_chars (title_words t)))
                   = List.map Py.str (title_words t)).
  { unfold Py.split. now rewrite chars_str, split_join_chars. }
  pose proof (normalized_settled (Py.chars t)) as Hs.
  fold (title_words t) in Hs.
  split; [|split; [|split]].
  - rewrite Hsplit. unfold Py.join_space. now rewrite map_chars_str.
  - rewrite Hsplit. apply List.Forall_forall. intros w Hw.
    apply in_map_iff in Hw as (cs & <- & Hcs).
    apply filter_In in Hcs as [_ Hcw]. unfold content_word in Hcw.
    now apply negb_true_iff in Hcw.
  - unfold Py.lower. rewrite chars_str. f_equal.
    clear -Hs. induction Hs as [|c l [Hlow _] _ IH]; [reflexivity|].
    simpl. now rewrite Hlow, IH.
  - unfold Py.sub_nonword_nonspace. rewrite chars_str. f_equal.
    clear -Hs. induction Hs as [|c l [_ Hk] _ IH]; [reflexivity|].
    simpl. now rewrite Hk, IH.
Qed.


Lemma stopword_is_word (w : string) :
  In w stopwords -> word (Py.chars w) /\ Forall settled (Py.chars w).
Proof.
  intros Hw. simpl in Hw.
  repeat destruct Hw as [<-|Hw]; try contradiction;
    (split; [split; [discriminate | repeat constructor]
            | repeat constructor]).
Qed.

Lemma is_stopword_In (w : string) : In w stopwords -> is_stopword w = true.
Proof.
  intros Hw. unfold is_stopword. apply existsb_exists.
  exists w. split; [exact Hw | apply String.eqb_refl].
Qed.

(** A stopword put in front of a title, with a space after it, does not
    change the normalized title. *)
Theorem normalize_title_drops_leading_stopword (w t : string) :
  In w stopwords ->
  _normalize_title (w ++ " " ++ t) = _normalize_title t.
Proof.
  intros Hw. rewrite !normalize_title_words. f_equal. f_equal.
  unfold title_words.
  destruct (stopword_is_word w Hw) as [Hword Hsettled].
  assert (Hchars : Py.chars (w ++ " " ++ t)
                   = Py.chars w ++ " "%char :: Py.chars t).
  { unfold Py.chars. clear. induction w as [|c w IH]; [reflexivity|].
    simpl. now rewrite IH. }
  rewrite Hchars, List.map_app, List.filter_app.
  rewrite (settled_fixed _ Hsettled). cbn [List.map List.filter].
  change (Py.keep (Py.lower_char " "%char)) with true. cbv iota.
  change (Py.lower_char " "%char) with " "%char.
  rewrite (split_chars_word_space _ _ Hword). cbn [List.filter].
  unfold content_word at 1. rewrite str_chars, (is_stopword_In w Hw).
  reflexivity.
Qed.

Lemma normalize_title_stopword_witness :
  In "the"%string stopwords /\
  _normalize_title ("the" ++ " " ++ "Cat") = _normalize_title "Cat".
Proof.
  assert (H : In "the"%string stopwords) by (simpl; auto).
  split; [exact H|].
  apply (normalize_title_drops_leading_stopword "the" "Cat" H).
Defined.


(** ** [_merge] *)

Lemma existsb_eqb_In (x : string) (l : list string) :
  existsb (String.eqb x) l = true <-> In x l.
Proof.
  rewrite existsb_exists. split.
  - intros (y & Hy & Heq). apply String.eqb_eq in Heq. now subst.
  - intros H. exists x. split; [exact H | apply String.eqb_refl].
Qed.

(** [append_new] adds to [acc], in their order, the elements of [xs] that
    are not there yet. *)
Lemma append_new_In (xs acc : list string) (x : string) :
  In x (append_new acc xs) <-> In x acc \/ In x xs.
Proof.
  unfold append_new. revert acc.
  induction xs as [|y xs IH]; intros acc; simpl; [tauto|].
  rewrite IH. destruct (existsb (String.eqb y) acc) eqn:Hy.
  - apply existsb_eqb_In in Hy. split; [tauto|].
    intros [H|[<-|H]]; auto.
  - rewrite in_app_iff. simpl. tauto.
Qed.

Lemma append_new_NoDup (xs acc : list string) :
  List.NoDup acc -> List.NoDup (append_new acc xs).
Proof.
  unfold append_new. revert acc.
  induction xs as [|y xs IH]; intros acc Hacc; simpl; [exact Hacc|].
  destruct (existsb (String.eqb y) acc) eqn:Hy; apply IH; [exact Hacc|].
  apply List.NoDup_app; [exact Hacc | repeat constructor; intros [] |].
  intros x Hx [<-|[]].
  apply existsb_eqb_In in Hx. congruence.
Qed.

Lemma append_new_absorbs (xs acc : list string) :
  (forall x, In x xs -> In x acc) -> append_new acc xs = acc.
Proof.
  unfold append_new. revert acc.
  induction xs as [|y xs IH]; intros acc Hin; simpl; [reflexivity|].
  assert (Hy : existsb (String.eqb y) acc = true)
    by (apply existsb_eqb_In, Hin; now left).
  rewrite Hy. apply IH. intros x Hx. apply Hin. now right.
Qed.

Lemma append_new_twice (xs acc : list string) :
  append_new (append_new acc xs) xs = append_new acc xs.
Proof.
  apply append_new_absorbs. intros x Hx. apply append_new_In. now right.
Qed.

Lemma truthy_fill (t s : option string) :
  Py.truthy_str
    (if negb (Py.truthy_str t) && Py.truthy_str s then s else t)
  = Py.truthy_str t || Py.truthy_str s.
Proof.
  destruct (Py.truthy_str t) eqn:Ht; simpl; [exact Ht|].
  destruct (Py.truthy_str s) eqn:Hs; assumption.
Qed.

(** A merge loses nothing (union, not replacement): the target keeps its
    identity; an identifier or an abstract that either paper has is
    there afterwards, the target's own one if it has one; the citation
    count is the larger of the two; the access is open as soon as one of
    the two is, and is the target's otherwise. *)
Theorem merge_loses_nothing (target source : Paper) :
  let merged := _merge target source in
  (id merged = id target /\ title merged = title target) /\
  (Py.truthy_str (doi merged)
     = Py.truthy_str (doi target) || Py.truthy_str (doi source) /\
   Py.truthy_str (pmid merged)
     = Py.truthy_str (pmid target) || Py.truthy_str (pmid source) /\
   Py.truthy_str (arxiv_id merged)
     = Py.truthy_str (arxiv_id target) || Py.truthy_str (arxiv_id source) /\
   Py.truthy_str (abstract merged)
     = Py.truthy_str (abstract target) || Py.truthy_str (abstract source)) /\
  (forall X k, key_of X target = Some k -> key_of X merged = Some k) /\
  citation_count merged
    = Z.max (citation_count target) (citation_count source) /\
  (access_type merged = OPEN <->
   access_type target = OPEN \/ access_type source = OPEN) /\
  (access_type source <> OPEN -> access_type merged = access_type target).
Proof.
  cbv zeta. split; [split; reflexivity|].
  split; [repeat split; apply truthy_fill|].
  split; [intros X k; apply merge_key_kept|].
  split.
  - cbn [_merge citation_count].
    destruct (Z.ltb_spec (citation_count target) (citation_count source));
      lia.
  - cbn [_merge access_type].
    destruct (access_type source), (access_type target); cbn;
      (split; [split; [auto | intros [H|H]; congruence] | congruence]).
Qed.

(** After a merge the sources in which the paper was found are those of
    the two papers, the target's first and in their order, and no source
    is there twice if none was in the target; the same holds for the
    keywords. *)
Theorem merge_unions_sources (target source : Paper) :
  let merged := _merge target source in
  (exists added,
     sources_found_in merged = sources_found_in target ++ added) /\
  (forall s, In s (sources_found_in merged) <->
             In s (sources_found_in target) \/
             In s (sources_found_in source)) /\
  (List.NoDup (sources_found_in target) ->
   List.NoDup (sources_found_in merged)) /\
  (forall k, In k (keywords merged) <->
             In k (keywords target) \/ In k (keywords source)) /\
  (List.NoDup (keywords target) -> List.NoDup (keywords merged)).
Proof.
  cbv zeta. cbn [_merge sources_found_in keywords].
  split.
  - destruct (append_new_extends (sources_found_in source)
                (sources_found_in target)) as (extra & H & _).
    now exists extra.
  - repeat split; try apply append_new_In; try apply append_new_NoDup;
      intros; apply append_new_In; assumption.
Qed.

Lemma union_absorbs (a b : gmap string string) : a ∪ (a ∪ b) = a ∪ b.
Proof. now rewrite (assoc_L (∪)), (idemp_L (∪)). Qed.

Lemma fill_twice (t s : option string) :
  let fill t s :=
    if negb (Py.truthy_str t) && Py.truthy_str s then s else t in
  fill (fill t s) s = fill t s.
Proof.
  cbv zeta. unfold Py.truthy_str.
  destruct t as [t|], s as [s|];
    try destruct (String.eqb t "") eqn:Ht;
    try destruct (String.eqb s "") eqn:Hs;
    simpl; rewrite ?Ht, ?Hs; reflexivity.
Qed.

(** Merging the same source a second time changes nothing. *)
Theorem merge_twice (target source : Paper) :
  _merge (_merge target source) source = _merge target source.
Proof.
  unfold _merge.
  cbn [id title authors year journal publisher volume issue pages doi pmid
       pmcid arxiv_id abstract keywords citation_count reference_count
       access_type pdf_url html_url PaperModel.source source_type
       sources_found_in reliability urls relevance_score].
  rewrite !append_new_twice, union_absorbs.
  rewrite (fill_twice (doi target)), (fill_twice (pmid target)),
    (fill_twice (arxiv_id target)), (fill_twice (abstract target)).
  destruct (Z.ltb_spec (citation_count target) (citation_count source))
    as [Hlt|Hge]; cbv iota;
    [rewrite Z.ltb_irrefl | rewrite (proj2 (Z.ltb_ge _ _) Hge)];
    destruct (AccessType_eqb (access_type source) OPEN); cbn [andb];
    try destruct (Py.truthy_str (pdf_url source)); reflexivity.
Qed.


(** ** [_deduplicate]: what it returns *)

Local Open Scope nat_scope.

Lemma length_omap_heap (h : list Paper) (l : list nat) :
  (forall u, In u l -> u < length h) ->
  length (omap (fun i => h !! i) l) = length l.
Proof.
  induction l as [|u l IH]; intros Hl; [reflexivity|].
  destruct (lookup_lt_is_Some_2 h u) as [P HP]; [apply Hl; now left|].
  cbn [omap list_omap]. rewrite HP. cbn [length]. f_equal.
  apply IH. intros v Hv. apply Hl. now right.
Qed.

Lemma unique_upto_step (L : list Paper) (n : nat) :
  n < length L ->
  unique (dedup_upto L (S n)) = unique (dedup_upto L n) \/
  unique (dedup_upto L (S n)) = unique (dedup_upto L n) ++ [n].
Proof.
  intros Hn. destruct (lookup_lt_is_Some_2 L n Hn) as [P HP].
  pose proof (dedup_inv_upto L n ltac:(lia)) as Hinv.
  rewrite dedup_upto_S.
  apply (outcome_unique _ n P). now apply (step_heap_n L n _ P).
Qed.

Lemma unique_upto_increasing (L : list Paper) (n : nat) :
  n <= length L ->
  forall a b i j, a < b ->
    unique (dedup_upto L n) !! a = Some i ->
    unique (dedup_upto L n) !! b = Some j -> i < j.
Proof.
  induction n as [|n IH]; intros Hn a b i j Hab Ha Hb.
  - discriminate Ha.
  - destruct (unique_upto_step L n ltac:(lia)) as [Heq|Heq];
      rewrite Heq in Ha, Hb.
    + apply (IH ltac:(lia) a b); assumption.
    + pose proof (dedup_inv_upto L n ltac:(lia)) as Hinv.
      destruct (Nat.lt_ge_cases b (length (unique (dedup_upto L n))))
        as [Hb'|Hb'].
      * rewrite lookup_app_l in Ha, Hb by lia.
        apply (IH ltac:(lia) a b); assumption.
      * rewrite lookup_app_r in Hb by lia.
        destruct (b - length (unique (dedup_upto L n))) as [|k] eqn:Hk;
          [|destruct k; discriminate Hb].
        injection Hb as <-.
        assert (Ha' : a < length (unique (dedup_upto L n))) by lia.
        rewrite lookup_app_l in Ha by lia.
        apply (inv_unique_lt _ _ _ Hinv i).
        apply list_elem_of_In. eapply list_elem_of_lookup_2, Ha.
Qed.

Lemma unique_upto_length (L : list Paper) (n : nat) :
  n <= length L -> length (unique (dedup_upto L n)) <= n.
Proof.
  induction n as [|n IH]; intros Hn; [reflexivity|].
  destruct (unique_upto_step L n ltac:(lia)) as [-> | ->].
  - specialize (IH ltac:(lia)). lia.
  - rewrite length_app. cbn [length]. specialize (IH ltac:(lia)). lia.
Qed.

Lemma unique_upto_head (L : list Paper) (n : nat) :
  1 <= n -> n <= length L -> unique (dedup_upto L n) !! 0 = Some 0.
Proof.
  intros H1 Hn. induction n as [|n IH]; [lia|].
  destruct (Nat.eq_dec n 0) as [->|Hne].
  - destruct (lookup_lt_is_Some_2 L 0 ltac:(lia)) as [P HP].
    rewrite dedup_upto_S.
    destruct (dedup_paper_outcome (dedup_upto L 0) 0 P HP)
      as [(X & t & ((k & _ & Hmap) & _))|(_ & -> & _)].
    + destruct X; cbn in Hmap; rewrite lookup_empty in Hmap;
        discriminate Hmap.
    + reflexivity.
  - destruct (unique_upto_step L n ltac:(lia)) as [-> | ->].
    + apply IH; lia.
    + rewrite lookup_app_l; [apply IH; lia|].
      apply lookup_lt_Some with (x := 0). apply IH; lia.
Qed.

Lemma deduplicate_length (L : list Paper) :
  length (_deduplicate L) = length (_deduplicate_positions L).
Proof.
  pose proof (dedup_run_inv L) as Hinv.
  unfold _deduplicate, _deduplicate_positions. cbv zeta.
  apply length_omap_heap. intros u Hu. rewrite (inv_len _ _ _ Hinv).
  apply (inv_unique_lt _ _ _ Hinv u Hu).
Qed.

Lemma deduplicate_length_le (L : list Paper) :
  length (_deduplicate L) <= length L.
Proof.
  rewrite deduplicate_length. unfold _deduplicate_positions.
  rewrite dedup_run_upto. apply unique_upto_length. lia.
Qed.

(** [_deduplicate] returns at most as many papers as it gets (so the
    count of removed duplicates is not negative), in the order in which
    they came, and the first paper that came is the first one returned. *)
Theorem deduplicate_keeps_arrival_order (L : list Paper) :
  length (_deduplicate L) = length (_deduplicate_positions L) /\
  length (_deduplicate L) <= length L /\
  (forall a b i j, a < b ->
     _deduplicate_positions L !! a = Some i ->
     _deduplicate_positions L !! b = Some j -> i < j) /\
  (L <> [] -> _deduplicate_positions L !! 0 = Some 0).
Proof.
  split; [apply deduplicate_length|].
  split; [apply deduplicate_length_le|].
  unfold _deduplicate_positions. rewrite dedup_run_upto.
  split; [apply unique_upto_increasing; lia|].
  intros Hne. apply unique_upto_head; [|lia].
  destruct L; [contradiction | cbn [length]; lia].
Qed.

(** A list in which no two papers have the same DOI, the same PMID, the
    same arXiv id or the same normalized title is returned as it is:
    nothing is merged. *)
Theorem deduplicate_leaves_distinct_papers (L : list Paper) :
  Spec.distinct_by doi_key L -> Spec.distinct_by pmid_key L ->
  Spec.distinct_by arxiv_key L -> Spec.distinct_titles L ->
  _deduplicate L = L /\ _deduplicate_positions L = seq 0 (length L).
Proof.
  intros Hdoi Hpmid Harxiv Htitle.
  assert (Hall : forall X, Spec.distinct_by (key_of X) L)
    by (intros []; assumption).
  split; [now apply deduplicate_fixed|].
  unfold _deduplicate_positions. rewrite dedup_run_upto.
  apply (fixed_unique _ _ _ (fixed_inv_upto L Hall (length L) ltac:(lia))).
Qed.

Lemma distinct_two (key : Paper -> option string) (P Q : Paper) :
  (forall k, key P = Some k -> key Q <> Some k) ->
  Spec.distinct_by key [P; Q].
Proof.
  intros Hk a b P' Q' k Hab Ha Hb HP HQ.
  destruct a as [|[|a]], b as [|[|b]]; try discriminate; try lia;
    injection Ha as <-; injection Hb as <-.
  - now apply (Hk k).
  - apply (Hk k); assumption.
Qed.

Lemma deduplicate_leaves_distinct_papers_witness :
  _deduplicate Examples.distinct_papers = Examples.distinct_papers /\
  _deduplicate_positions Examples.distinct_papers = [0; 1].
Proof.
  apply (deduplicate_leaves_distinct_papers Examples.distinct_papers);
    apply distinct_two; intros k Hk; vm_compute in Hk; vm_compute;
    congruence.
Defined.

(** ** [_deduplicate]: what a survivor holds *)

Lemma enriched_refl (P : Paper) : enriched P P.
Proof.
  unfold enriched. repeat split; try (exists []; now rewrite app_nil_r);
    try tauto; lia.
Qed.

Lemma enriched_trans (P0 P1 P2 : Paper) :
  enriched P0 P1 -> enriched P1 P2 -> enriched P0 P2.
Proof.
  intros (Hs1 & (a1 & Ha1) & (k1 & Hk1) & Hkey1 & Hc1 & Ho1)
         (Hs2 & (a2 & Ha2) & (k2 & Hk2) & Hkey2 & Hc2 & Ho2).
  unfold enriched. split; [|split; [|split; [|split; [|split]]]].
  - repeat match goal with H : _ /\ _ |- _ => destruct H end.
    repeat split; congruence.
  - exists (a1 ++ a2). now rewrite Ha2, Ha1, app_assoc.
  - exists (k1 ++ k2). now rewrite Hk2, Hk1, app_assoc.
  - intros X k H. apply Hkey2, Hkey1, H.
  - lia.
  - intros H. apply Ho2, Ho1, H.
Qed.

Lemma enriched_merge (T S : Paper) : enriched T (_merge T S).
Proof.
  unfold enriched. split; [|split; [|split; [|split; [|split]]]].
  - repeat split.
  - destruct (append_new_extends (sources_found_in S) (sources_found_in T))
      as (extra & H & _). exists extra. exact H.
  - destruct (append_new_extends (keywords S) (keywords T))
      as (extra & H & _). exists extra. exact H.
  - intros X k H. now apply merge_key_kept.
  - cbn [_merge citation_count].
    destruct (Z.ltb_spec (citation_count T) (citation_count S)); lia.
  - cbn [_merge access_type]. intros ->.
    now destruct (AccessType_eqb (access_type S) OPEN).
Qed.

Lemma heap_upto_enriched (L : list Paper) (n : nat) :
  n <= length L ->
  forall i P0 P, L !! i = Some P0 -> heap (dedup_upto L n) !! i = Some P ->
    enriched P0 P.
Proof.
  induction n as [|n IH]; intros Hn i P0 P HP0 HP.
  - cbn in HP. rewrite HP0 in HP. injection HP as <-. apply enriched_refl.
  - specialize (IH ltac:(lia)).
    destruct (lookup_lt_is_Some_2 L n ltac:(lia)) as [S HS].
    pose proof (dedup_inv_upto L n ltac:(lia)) as Hinv.
    pose proof (step_heap_n L n _ S Hinv HS) as HSn.
    rewrite dedup_upto_S in HP.
    destruct (dedup_paper_outcome _ n S HSn)
      as [(X & t & (_ & Hheap & _))|(Hheap & _)]; rewrite Hheap in HP.
    + unfold merge_at in HP.
      destruct (heap (dedup_upto L n) !! t) as [T|] eqn:HT;
        [|now apply IH with (i := i)].
      rewrite HSn in HP.
      destruct (Nat.eq_dec t i) as [->|Hne].
      * rewrite list_lookup_insert_eq in HP
          by (now apply lookup_lt_Some with (x := T)).
        injection HP as <-.
        apply enriched_trans with (P1 := T);
          [now apply IH with (i := i) | apply enriched_merge].
      * rewrite list_lookup_insert_ne in HP by exact Hne.
        now apply IH with (i := i).
    + now apply IH with (i := i).
Qed.

(** Each paper that [_deduplicate] returns is one of the papers it got,
    at the position recorded for it, with what the merges into it have
    brought: its own fields, keys, sources and keywords are kept, the
    sources and keywords of duplicates come after its own, its citation
    count has not gone down and an open access has stayed open. *)
Theorem deduplicate_survivors_enriched (L : list Paper) (a : nat)
    (P : Paper) :
  _deduplicate L !! a = Some P ->
  exists i P0, _deduplicate_positions L !! a = Some i /\
               L !! i = Some P0 /\ enriched P0 P.
Proof.
  intros HP. apply deduplicate_lookup in HP as (u & Hu & Hin & HP).
  pose proof (dedup_run_inv L) as Hinv.
  destruct (lookup_lt_is_Some_2 L u) as [P0 HP0];
    [apply (inv_unique_lt _ _ _ Hinv u Hin)|].
  exists u, P0. split; [exact Hu|]. split; [exact HP0|].
  rewrite dedup_run_upto in HP.
  now apply (heap_upto_enriched L (length L) ltac:(lia) u).
Qed.


Lemma deduplicate_survivors_enriched_witness :
  exists i P0,
    _deduplicate_positions Examples.same_title_papers !! 0 = Some i /\
    Examples.same_title_papers !! i = Some P0 /\
    enriched P0
      (_merge
         (Examples.paper_of "Deep Learning" (Some "10.1/a") None None [])
         (Examples.paper_of "Deep learning." (Some "10.1/b") None None [])).
Proof.
  apply (deduplicate_survivors_enriched Examples.same_title_papers 0).
  vm_compute. reflexivity.
Defined.

(** ** [_deduplicate] on two papers *)

Lemma first_paper_kept (P : Paper) (L : list Paper) :
  let reg (key : option string) : gmap string nat :=
    match key with Some k => {[ k := 0 ]} | None => ∅ end in
  dedup_paper (dedup_init (P :: L)) 0
  = {| heap := P :: L; by_doi := reg (doi_key P);
       by_pmid := reg (pmid_key P); by_arxiv := reg (arxiv_key P);
       by_title := {[ title_key P := 0 ]}; unique := [0] |}.
Proof.
  cbv zeta. unfold dedup_paper, dedup_init, check, probe.
  cbn [heap by_doi by_pmid by_arxiv by_title unique lookup list_lookup].
  destruct (doi_key P), (pmid_key P), (arxiv_key P);
    rewrite ?lookup_empty; reflexivity.
Qed.

(** Of two papers, the second is merged into the first exactly when
    they have the same DOI key, the same PMID key, the same arXiv key or
    the same normalized title; otherwise both are returned. *)
Theorem deduplicate_pair (P Q : Paper) :
  _deduplicate [P; Q]
  = if share_a_key P Q then [_merge P Q] else [P; Q].
Proof.
  unfold _deduplicate, dedup_run. cbv zeta.
  cbn [length seq fold_left]. rewrite first_paper_kept.
  unfold share_a_key, dedup_paper, check, probe, merge_at.
  cbn [heap by_doi by_pmid by_arxiv by_title unique lookup list_lookup].
  assert (Hreg : forall (a b : option string),
    match b with
    | Some k => match a with Some k' => ({[ k' := 0 ]} : gmap string nat)
                           | None => ∅ end !! k
    | None => None
    end = if same_key a b then Some 0 else None).
  { intros [x|] [y|]; cbn [same_key]; rewrite ?lookup_empty; try reflexivity.
    destruct (String.eqb_spec x y) as [->|Hne].
    - now rewrite lookup_singleton_eq.
    - now rewrite lookup_singleton_ne. }
  assert (Htitle : ({[ title_key P := 0 ]} : gmap string nat) !! title_key Q
                   = if String.eqb (title_key P) (title_key Q)
                     then Some 0 else None).
  { destruct (String.eqb_spec (title_key P) (title_key Q)) as [->|Hne].
    - now rewrite lookup_singleton_eq.
    - now rewrite lookup_singleton_ne. }
  pose proof (Hreg (doi_key P) (doi_key Q)) as Hd.
  pose proof (Hreg (pmid_key P) (pmid_key Q)) as Hp.
  pose proof (Hreg (arxiv_key P) (arxiv_key Q)) as Ha.
  rewrite Htitle.
  destruct (doi_key Q) as [kd|];
    [rewrite Hd; destruct (same_key (doi_key P) (Some kd))
    | clear Hd; replace (same_key (doi_key P) None) with false
        by now destruct (doi_key P)];
  (destruct (pmid_key Q) as [kp|];
    [rewrite ?Hp; destruct (same_key (pmid_key P) (Some kp))
    | clear Hp; replace (same_key (pmid_key P) None) with false
        by now destruct (pmid_key P)]);
  (destruct (arxiv_key Q) as [ka|];
    [rewrite ?Ha; destruct (same_key (arxiv_key P) (Some ka))
    | clear Ha; replace (same_key (arxiv_key P) None) with false
        by now destruct (arxiv_key P)]);
  destruct (String.eqb (title_key P) (title_key Q));
  reflexivity.
Qed.


(** ** The filters of [search] *)

Local Open Scope Z_scope.

Lemma filter_option {A} (o : option Z) (f : Z -> A -> bool) (l : list A) :
  match o with
  | Some b => if Py.truthy_int (Some b) then List.filter (f b) l else l
  | None => l
  end
  = List.filter
      (fun x => match o with
                | Some b => negb (Py.truthy_int (Some b)) || f b x
                | None => true
                end) l.
Proof.
  destruct o as [b|].
  - apply filter_when.
  - symmetry. now apply filter_all.
Qed.

Lemma apply_filters_test (config : SearchConfig) (l : list Paper) :
  apply_filters config l = List.filter (passes_test config) l.
Proof.
  unfold apply_filters, passes_test.
  rewrite (filter_when (PrimFloat.ltb 0 (min_reliability config))).
  rewrite (filter_option (year_start config)
             (fun ys p => match year p with
                          | Some y => Py.truthy_int (Some y) && (ys <=? y)
                          | None => false
                          end)).
  rewrite (filter_option (year_end config)
             (fun ye p => match year p with
                          | Some y => Py.truthy_int (Some y) && (y <=? ye)
                          | None => false
                          end)).
  rewrite filter_unless, !filter_and. apply filter_ext. intros p.
  now rewrite !andb_assoc.
Qed.

Lemma truthy_int_Some (z : Z) : Py.truthy_int (Some z) = negb (z =? 0).
Proof. reflexivity. Qed.

Lemma SourceType_eqb_eq (a b : SourceType) :
  SourceType_eqb a b = true <-> a = b.
Proof. destruct a, b; cbn; split; intros H; congruence. Qed.

Lemma year_test (o : option Z) (p : Paper) (cmp : Z -> Z -> Prop)
    (cmpb : Z -> Z -> bool) :
  (forall a b, cmpb a b = true <-> cmp a b) ->
  match o with
  | Some b =>
      negb (Py.truthy_int (Some b))
      || match year p with
         | Some y => Py.truthy_int (Some y) && cmpb b y
         | None => false
         end
  | None => true
  end = true
  <-> (forall b, o = Some b -> b <> 0 ->
         exists y, year p = Some y /\ y <> 0 /\ cmp b y).
Proof.
  intros Hcmp.
  destruct o as [b|];
    [|split; [intros _ b H; discriminate H | reflexivity]].
  rewrite truthy_int_Some, negb_involutive.
  destruct (Z.eqb_spec b 0) as [->|Hb]; cbn [orb].
  - split; [intros _ b Hb Hne; injection Hb as <-; contradiction | reflexivity].
  - destruct (year p) as [y|].
    + rewrite truthy_int_Some, andb_true_iff, negb_true_iff, Z.eqb_neq, Hcmp.
      split.
      * intros [Hy Hc] b' Hb' _. injection Hb' as <-. now exists y.
      * intros H. destruct (H b eq_refl Hb) as (y' & Hy' & Hne & Hc).
        injection Hy' as <-. now split.
    + split; [discriminate|].
      intros H. destruct (H b eq_refl Hb) as (y' & Hy' & _). discriminate Hy'.
Qed.

Lemma passes_test_spec (config : SearchConfig) (p : Paper) :
  passes_test config p = true <-> passes config p.
Proof.
  unfold passes_test, passes. rewrite !andb_true_iff.
  rewrite (year_test (year_start config) p Z.le Z.leb Z.leb_le).
  rewrite (year_test (year_end config) p (fun ye y => y <= ye)
             (fun ye y => y <=? ye) (fun ye y => Z.leb_le y ye)).
  assert (Hrel : negb (PrimFloat.ltb 0 (min_reliability config))
                 || PrimFloat.leb (min_reliability config)
                      (reliability_score p) = true
                 <-> (PrimFloat.ltb 0 (min_reliability config) = true ->
                      PrimFloat.leb (min_reliability config)
                        (reliability_score p) = true)).
  { destruct (PrimFloat.ltb 0 (min_reliability config)); cbn [negb orb].
    - tauto.
    - split; [discriminate | reflexivity]. }
  assert (Hpre : include_preprints config
                 || negb (SourceType_eqb (source_type p) PREPRINT) = true
                 <-> (include_preprints config = false ->
                      source_type p <> PREPRINT)).
  { destruct (include_preprints config); cbn [orb].
    - split; [discriminate | reflexivity].
    - rewrite negb_true_iff, <- not_true_iff_false, SourceType_eqb_eq. tauto. }
  rewrite Hrel, Hpre. tauto.
Qed.

(** The filters keep exactly the papers that pass the reliability
    threshold when it is positive, have a year other than 0 inside each
    year bound that is set and is not 0, and are no preprints when those
    are excluded. *)
Theorem apply_filters_keeps_what_passes (config : SearchConfig)
    (ranked_papers : list Paper) (p : Paper) :
  In p (apply_filters config ranked_papers)
  <-> In p ranked_papers /\ passes config p.
Proof.
  rewrite apply_filters_test, filter_In, passes_test_spec. reflexivity.
Qed.

Lemma filter_sublist {A} (f : A -> bool) (l : list A) :
  sublist (List.filter f l) l.
Proof.
  induction l as [|x l IH]; cbn [List.filter]; [constructor|].
  destruct (f x); now constructor.
Qed.

(** The filters keep the ranking: what they return is the ranked list
    with some papers left out. They work paper by paper, so filtering
    twice changes nothing and filtering two lists one after the other
    filters their concatenation. *)
Theorem apply_filters_keeps_ranking (config : SearchConfig)
    (l l' : list Paper) :
  sublist (apply_filters config l) l /\
  apply_filters config (apply_filters config l) = apply_filters config l /\
  apply_filters config (l ++ l')
  = apply_filters config l ++ apply_filters config l'.
Proof.
  rewrite !apply_filters_test. split; [apply filter_sublist|].
  split; [apply filter_idem | apply List.filter_app].
Qed.

(** With the default configuration nothing is filtered; the same holds
    whenever preprints are included, the threshold is not positive and
    each year bound is unset or 0. *)
Theorem apply_filters_inactive (config : SearchConfig) (l : list Paper) :
  PrimFloat.ltb 0 (min_reliability config) = false ->
  (year_start config = None \/ year_start config = Some 0) ->
  (year_end config = None \/ year_end config = Some 0) ->
  include_preprints config = true ->
  apply_filters config l = l.
Proof.
  intros Hrel Hs He Hpre. rewrite apply_filters_test.
  apply filter_all. intros p. unfold passes_test.
  rewrite Hrel, Hpre. destruct Hs as [-> | ->], He as [-> | ->]; reflexivity.
Qed.

Lemma apply_filters_inactive_witness :
  PrimFloat.ltb 0 (min_reliability Pipeline.default_config) = false /\
  apply_filters Pipeline.default_config Examples.same_title_papers
  = Examples.same_title_papers.
Proof.
  split; [reflexivity|].
  apply (apply_filters_inactive Pipeline.default_config);
    [reflexivity | now left | now left | reflexivity].
Defined.


(** ** The statistics of a search result *)

Import Pipeline.
Local Open Scope Z_scope.

Lemma SFltb_finite_mono (x : spec_float) (m1 m2 : positive) (e : Z) :
  (m1 < m2)%positive ->
  SFltb x (S754_finite false m1 e) = true ->
  SFltb x (S754_finite false m2 e) = true.
Proof.
  intros Hlt. unfold SFltb.
  destruct x as [s | s | | s m e']; cbn [SFcompare]; try trivial.
  destruct s; [trivial|]. destruct (e' ?= e); try trivial.
  rewrite !Pos.compare_cont_spec. cbn [Pos.switch_Eq].
  destruct (Pos.compare_spec m m1) as [Hm|Hm|Hm]; try discriminate.
  intros _. rewrite (proj2 (Pos.compare_lt_iff m m2)); [reflexivity|].
  now apply (Pos.lt_trans _ _ _ Hm).
Qed.

Lemma below_half_below_high (t : float) :
  PrimFloat.ltb t Scoring.f0_5 = true -> PrimFloat.ltb t Scoring.f0_8 = true.
Proof.
  rewrite !FloatAxioms.ltb_spec.
  change (Prim2SF Scoring.f0_5)
    with (S754_finite false 4503599627370496 (-53)).
  change (Prim2SF Scoring.f0_8)
    with (S754_finite false 7205759403792794 (-53)).
  apply SFltb_finite_mono. vm_compute. reflexivity.
Qed.

Lemma level_tests (p : Paper) :
  PrimFloat.leb Scoring.f0_8 (reliability_score p)
  = has_level Scoring.HIGH p /\
  PrimFloat.leb Scoring.f0_5 (reliability_score p)
  && PrimFloat.ltb (reliability_score p) Scoring.f0_8
  = has_level Scoring.MEDIUM p /\
  PrimFloat.ltb (reliability_score p) Scoring.f0_5
  = has_level Scoring.LOW p.
Proof.
  unfold has_level, Scoring.level, reliability_score. cbv zeta.
  pose proof (total_range (reliability p)) as [H0 _].
  pose proof (below_half_below_high (Reliability.total (reliability p)))
    as Hlow.
  rewrite (leb_negb_ltb Scoring.f0_8 _ eq_refl H0).
  rewrite (leb_negb_ltb Scoring.f0_5 _ eq_refl H0).
  destruct (PrimFloat.ltb (Reliability.total (reliability p)) Scoring.f0_5);
    [rewrite (Hlow eq_refl); now repeat split|].
  destruct (PrimFloat.ltb (Reliability.total (reliability p)) Scoring.f0_8);
    now repeat split.
Qed.

Lemma count_ext (f g : Paper -> bool) (l : list Paper) :
  (forall p, f p = g p) -> count f l = count g l.
Proof. intros H. unfold count. now rewrite (filter_ext f g H). Qed.

Lemma count_cons (f : Paper -> bool) (p : Paper) (l : list Paper) :
  count f (p :: l) = (if f p then 1 else 0) + count f l.
Proof.
  unfold count. cbn [List.filter]. destruct (f p); cbn [length]; lia.
Qed.

Lemma count_levels (l : list Paper) :
  count (has_level Scoring.HIGH) l + count (has_level Scoring.MEDIUM) l
  + count (has_level Scoring.LOW) l = Z.of_nat (length l).
Proof.
  induction l as [|p l IH]; [reflexivity|].
  rewrite !count_cons. cbn [length]. unfold has_level at 1 3 5.
  destruct (Scoring.level (reliability p)); cbn [level_eqb]; lia.
Qed.

Lemma count_access (l : list Paper) :
  0 <= count (fun p => AccessType_eqb (access_type p) OPEN) l /\
  0 <= count (fun p => AccessType_eqb (access_type p) PAYWALLED) l /\
  count (fun p => AccessType_eqb (access_type p) OPEN) l
  + count (fun p => AccessType_eqb (access_type p) PAYWALLED) l
  <= Z.of_nat (length l).
Proof.
  induction l as [|p l IH]; [unfold count; cbn; lia|].
  rewrite !count_cons. cbn [length].
  destruct (access_type p); cbn [AccessType_eqb]; lia.
Qed.

(** The reliability counts of a result are the numbers of its papers of
    level HIGH, MEDIUM and LOW, as [ReliabilityScore.level] gives it, and
    add up to [total_found]; the open and the paywalled papers are
    counted apart and are no more than [total_found] together. *)
Theorem build_result_counts (query : string) (ranked_papers : list Paper)
    (sources : list string) (removed : Z) (duration : float) :
  let r := build_result query ranked_papers sources removed duration in
  high_reliability r = count (has_level Scoring.HIGH) ranked_papers /\
  medium_reliability r = count (has_level Scoring.MEDIUM) ranked_papers /\
  low_reliability r = count (has_level Scoring.LOW) ranked_papers /\
  high_reliability r + medium_reliability r + low_reliability r
  = total_found r /\
  0 <= open_access r /\ 0 <= paywalled r /\
  open_access r + paywalled r <= total_found r.
Proof.
  cbv zeta. unfold build_result.
  cbn [high_reliability medium_reliability low_reliability total_found
       open_access paywalled].
  rewrite (count_ext _ _ ranked_papers (fun p => proj1 (level_tests p))).
  rewrite (count_ext _ _ ranked_papers
             (fun p => proj1 (proj2 (level_tests p)))).
  rewrite (count_ext _ _ ranked_papers
             (fun p => proj2 (proj2 (level_tests p)))).
  repeat split; try apply count_levels; apply count_access.
Qed.

(** *** The timeline *)

Lemma fold_min_spec (rest : list Z) (y : Z) :
  In (fold_left Z.min rest y) (y :: rest) /\
  forall z, In z (y :: rest) -> fold_left Z.min rest y <= z.
Proof.
  revert y. induction rest as [|x rest IH]; intros y; cbn [fold_left].
  - split; [now left | intros z [<-|[]]; lia].
  - destruct (IH (Z.min y x)) as [Hin Hle]. split.
    + destruct Hin as [Heq|Hin]; [|right; now right].
      rewrite <- Heq. destruct (Z.min_spec y x) as [[_ ->]|[_ ->]];
        [now left | right; now left].
    + intros z [<-|[<-|Hz]].
      * specialize (Hle _ (or_introl eq_refl)). lia.
      * specialize (Hle _ (or_introl eq_refl)). lia.
      * apply Hle. now right.
Qed.

Lemma fold_max_spec (rest : list Z) (y : Z) :
  In (fold_left Z.max rest y) (y :: rest) /\
  forall z, In z (y :: rest) -> z <= fold_left Z.max rest y.
Proof.
  revert y. induction rest as [|x rest IH]; intros y; cbn [fold_left].
  - split; [now left | intros z [<-|[]]; lia].
  - destruct (IH (Z.max y x)) as [Hin Hle]. split.
    + destruct Hin as [Heq|Hin]; [|right; now right].
      rewrite <- Heq. destruct (Z.max_spec y x) as [[_ ->]|[_ ->]];
        [right; now left | now left].
    + intros z [<-|[<-|Hz]].
      * specialize (Hle _ (or_introl eq_refl)). lia.
      * specialize (Hle _ (or_introl eq_refl)). lia.
      * apply Hle. now right.
Qed.

Lemma years_of_In (l : list Paper) (y : Z) :
  In y (years_of l) <-> exists p, In p l /\ year p = Some y /\ y <> 0.
Proof.
  unfold years_of. rewrite <- list_elem_of_In, list_elem_of_omap.
  split.
  - intros (p & Hp & Hy). exists p. rewrite <- list_elem_of_In.
    split; [exact Hp|]. destruct (year p) as [z|]; [|discriminate Hy].
    unfold Py.truthy_int in Hy. destruct (Z.eqb_spec z 0); cbn in Hy;
      [discriminate Hy|]. injection Hy as <-. now split.
  - intros (p & Hp & Hy & Hne). exists p. rewrite list_elem_of_In.
    split; [exact Hp|]. rewrite Hy. unfold Py.truthy_int.
    destruct (Z.eqb_spec y 0); [contradiction | reflexivity].
Qed.

(** The timeline of a result: when no paper has a year other than 0 both
    ends are unset; otherwise both are set, each is the year of a paper
    of the result, and the year of every paper that has one lies between
    them. *)
Theorem build_result_timeline (query : string) (ranked_papers : list Paper)
    (sources : list string) (removed : Z) (duration : float) :
  let r := build_result query ranked_papers sources removed duration in
  let dated y := exists p, In p ranked_papers /\ year p = Some y /\ y <> 0 in
  ((forall y, ~ dated y) /\ earliest_year r = None /\ latest_year r = None)
  \/ (exists lo hi, earliest_year r = Some lo /\ latest_year r = Some hi /\
        dated lo /\ dated hi /\ forall y, dated y -> lo <= y <= hi).
Proof.
  cbv zeta. unfold build_result. cbn [earliest_year latest_year].
  pose proof (years_of_In ranked_papers) as Hin.
  destruct (years_of ranked_papers) as [|y rest].
  - left. split; [|split; reflexivity].
    intros y Hy. apply Hin in Hy. destruct Hy.
  - right. cbn [min_year max_year].
    destruct (fold_min_spec rest y) as [Hmin Hle].
    destruct (fold_max_spec rest y) as [Hmax Hge].
    exists (fold_left Z.min rest y), (fold_left Z.max rest y).
    split; [reflexivity|]. split; [reflexivity|].
    split; [now apply Hin|]. split; [now apply Hin|].
    intros z Hz. apply Hin in Hz. split; [now apply Hle | now apply Hge].
Qed.


(** ** The pipeline of [search] *)




(** *** The papers whose citations are followed *)

Lemma insert_by_citations_In (p x : Paper) (l : list Paper) :
  In x (insert_by_citations p l) <-> x = p \/ In x l.
Proof.
  induction l as [|q l IH]; cbn [insert_by_citations].
  - cbn. intuition congruence.
  - destruct (citation_count p <? citation_count q); cbn [In].
    + rewrite IH. intuition congruence.
    + intuition congruence.
Qed.

Lemma sort_by_citations_In (x : Paper) (l : list Paper) :
  In x (sort_by_citations l) <-> In x l.
Proof.
  unfold sort_by_citations. induction l as [|p l IH]; [reflexivity|].
  cbn [fold_right In]. rewrite insert_by_citations_In, IH.
  intuition congruence.
Qed.

Lemma insert_by_citations_sorted (p : Paper) (l : list Paper) :
  StronglySorted by_citations l ->
  StronglySorted by_citations (insert_by_citations p l).
Proof.
  induction 1 as [|q l Hl IH Hq]; cbn [insert_by_citations].
  - repeat constructor.
  - destruct (Z.ltb_spec (citation_count p) (citation_count q)) as [Hlt|Hge].
    + constructor; [exact IH|].
      apply List.Forall_forall. intros x Hx.
      apply insert_by_citations_In in Hx as [->|Hx].
      * unfold by_citations. lia.
      * revert x Hx. now apply List.Forall_forall.
    + constructor; [now constructor|].
      constructor; [exact Hge|].
      apply List.Forall_forall. intros x Hx.
      rewrite List.Forall_forall in Hq. specialize (Hq x Hx).
      unfold by_citations in *. lia.
Qed.

Lemma sort_by_citations_sorted (l : list Paper) :
  StronglySorted by_citations (sort_by_citations l).
Proof.
  unfold sort_by_citations. induction l as [|p l IH]; [constructor|].
  cbn [fold_right]. now apply insert_by_citations_sorted.
Qed.

Lemma sorted_split (l : list Paper) (n : nat) (p q : Paper) :
  StronglySorted by_citations l ->
  In p (firstn n l) -> In q (skipn n l) -> by_citations p q.
Proof.
  intros Hs. revert n. induction Hs as [|x l Hl IH Hx]; intros n Hp Hq.
  - destruct n; destruct Hp.
  - destruct n as [|n]; [destruct Hp|].
    cbn [firstn skipn In] in Hp, Hq. destruct Hp as [<-|Hp].
    + rewrite List.Forall_forall in Hx. apply Hx.
      rewrite <- (firstn_skipn n l). apply in_or_app. now right.
    + now apply (IH n).
Qed.

(** The papers whose citations are followed are at most 20 papers of
    the list, each cited at least once, the most cited first; a cited
    paper that is left out is cited no more than any of them. *)
Theorem top_papers_most_cited (all_papers : list Paper) :
  let top := top_papers all_papers in
  (length top <= 20)%nat /\
  StronglySorted by_citations top /\
  (forall p, In p top -> In p all_papers /\ 0 < citation_count p) /\
  (forall p q, In p top -> In q all_papers -> 0 < citation_count q ->
     ~ In q top -> citation_count q <= citation_count p) /\
  ((length (List.filter (fun p => (0 <? citation_count p)%Z) all_papers)
    <= 20)%nat ->
   forall q, In q all_papers -> 0 < citation_count q -> In q top).
Proof.
  cbv zeta. unfold top_papers.
  assert (Hslice : forall l : list Paper, Py.slice_to l 20 = firstn 20 l)
    by reflexivity.
  rewrite Hslice. clear Hslice.
  set (cited := List.filter (fun p => 0 <? citation_count p) all_papers).
  pose proof (sort_by_citations_sorted cited) as Hsorted.
  assert (Hcited : forall q, In q (sort_by_citations cited)
                             <-> In q all_papers /\ 0 < citation_count q).
  { intros q. rewrite sort_by_citations_In. unfold cited.
    rewrite filter_In, Z.ltb_lt. reflexivity. }
  assert (Hleft : forall q, In q all_papers -> 0 < citation_count q ->
            ~ In q (firstn 20 (sort_by_citations cited)) ->
            In q (skipn 20 (sort_by_citations cited))).
  { intros q Hq Hpos Hout.
    assert (Hin : In q (sort_by_citations cited)) by now apply Hcited.
    rewrite <- (firstn_skipn 20 (sort_by_citations cited)) in Hin.
    apply in_app_or in Hin as [Hin|Hin]; [contradiction | exact Hin]. }
  split; [rewrite length_firstn; lia|].
  split.
  { rewrite <- (firstn_skipn 20 (sort_by_citations cited)) in Hsorted.
    clear -Hsorted.
    induction (firstn 20 (sort_by_citations cited)) as [|x l IH];
      [constructor|].
    cbn [app] in Hsorted. inversion Hsorted as [|? ? Hl Hx]; subst.
    constructor; [now apply IH|].
    apply List.Forall_app in Hx. apply Hx. }
  split.
  { intros p Hp. apply Hcited.
    rewrite <- (firstn_skipn 20 (sort_by_citations cited)).
    apply in_or_app. now left. }
  split.
  - intros p q Hp Hq Hpos Hout.
    apply (sorted_split (sort_by_citations cited) 20 p q Hsorted Hp).
    now apply Hleft.
  - intros Hfew q Hq Hpos.
    rewrite firstn_all2; [now apply Hcited|].
    assert (Hlen : length (sort_by_citations cited) = length cited).
    { clear. unfold sort_by_citations.
      induction cited as [|p l IH]; [reflexivity|].
      cbn [fold_right length]. rewrite <- IH. clear IH.
      induction (fold_right insert_by_citations [] l) as [|q l' IH'];
        [reflexivity|].
      cbn [insert_by_citations].
      destruct (citation_count p <? citation_count q); cbn [length];
        [now rewrite IH' | reflexivity]. }
    rewrite Hlen. exact Hfew.
Qed.

Lemma flat_map_length_le {A B} (f : A -> list B) (l : list A) (n : nat) :
  (forall x, length (f x) <= n)%nat ->
  (length (flat_map f l) <= n * length l)%nat.
Proof.
  intros Hf. induction l as [|x l IH]; [cbn; lia|].
  cbn [flat_map length]. rewrite length_app. specialize (Hf x). lia.
Qed.

(** The citation walk keeps every paper that was found, in its place,
    and puts after them at most 200 papers: up to 5 citing and 5 cited
    papers for each of the papers whose citations are followed. It adds
    nothing when it is switched off, when nothing was found, when no
    paper found is cited, or when every request fails. *)
Theorem expand_adds_at_most_200
    (get_citations get_references : Paper -> Result (list Paper) string)
    (config : SearchConfig) (all_papers : list Paper) :
  exists added,
    expand get_citations get_references config all_papers
    = all_papers ++ added /\
    (length added <= 200)%nat /\
    (length added <= 10 * length (top_papers all_papers))%nat /\
    (expand_citations config = false -> added = []) /\
    ((forall p, In p all_papers -> citation_count p <= 0) -> added = []) /\
    ((forall p, is_err (get_citations p) = true /\
                is_err (get_references p) = true) -> added = []).
Proof.
  assert (Hlen : forall top,
    (length (citation_papers get_citations get_references top)
     <= 10 * length top)%nat).
  { intros top. apply flat_map_length_le. intros p. rewrite length_app.
    assert (H5 : forall r : Result (list Paper) string,
              (length match r with
                      | Ok l => Py.slice_to l 5
                      | Err _ => []
                      end <= 5)%nat).
    { intros [l|e]; [apply (slice_to_length l 5) | cbn; lia]. }
    pose proof (H5 (get_citations p)). pose proof (H5 (get_references p)).
    lia. }
  assert (Htop : (length (top_papers all_papers) <= 20)%nat)
    by apply (slice_to_length _ 20).
  unfold expand. destruct all_papers as [|p0 rest] eqn:Hall.
  - exists []. cbn. repeat split; auto; lia.
  - rewrite <- Hall in *. destruct (expand_citations config) eqn:Hexp.
    + exists (citation_papers get_citations get_references
                (top_papers all_papers)).
      specialize (Hlen (top_papers all_papers)).
      split; [reflexivity|]. split; [lia|]. split; [exact Hlen|].
      split; [discriminate|]. split.
      * intros Hnone.
        assert (Hempty : top_papers all_papers = []).
        { unfold top_papers.
          replace (List.filter (fun p => 0 <? citation_count p) all_papers)
            with (@nil Paper); [reflexivity|].
          symmetry. clear -Hnone.
          induction all_papers as [|p l IH]; [reflexivity|].
          cbn [List.filter].
          pose proof (Hnone p (or_introl eq_refl)) as Hp.
          destruct (Z.ltb_spec 0 (citation_count p)); [lia|].
          apply IH. intros q Hq. apply Hnone. now right. }
        now rewrite Hempty.
      * intros Hfail. unfold citation_papers. clear Hlen Htop.
        induction (top_papers all_papers) as [|p l IH]; [reflexivity|].
        cbn [flat_map]. rewrite IH.
        destruct (Hfail p) as [Hc Hr].
        destruct (get_citations p); [discriminate Hc|].
        destruct (get_references p); [discriminate Hr|]. reflexivity.
    + exists []. rewrite app_nil_r. cbn. repeat split; auto; lia.
Qed.

(** *** Reliability after deduplication *)

Lemma set_reliability_fields (p : Paper)
    (r : Reliability.ReliabilityScore) :
  source_type (set_reliability p r) = source_type p /\
  journal (set_reliability p r) = journal p /\
  publisher (set_reliability p r) = publisher p /\
  citation_count (set_reliability p r) = citation_count p /\
  sources_found_in (set_reliability p r) = sources_found_in p /\
  year (set_reliability p r) = year p.
Proof. repeat split. Qed.

(** [_update_reliability] gives every paper a total of at least 0.1 and
    below 1, changes no field but the reliability, and changes nothing
    when it is run again. *)
Theorem update_reliability_scores (current_year : Z)
    (papers : list Paper) :
  let updated := _update_reliability current_year papers in
  length updated = length papers /\
  (forall i p', updated !! i = Some p' ->
     exists p, papers !! i = Some p /\
               p' = set_reliability p (reliability p') /\
               PrimFloat.leb f0_10 (reliability_score p') = true /\
               PrimFloat.ltb (reliability_score p') 1 = true) /\
  _update_reliability current_year updated = updated.
Proof.
  cbv zeta. unfold _update_reliability.
  split; [apply length_map|]. split.
  - intros i p' Hi. rewrite list_lookup_fmap in Hi.
    destruct (papers !! i) as [p|]; [|discriminate Hi].
    injection Hi as <-. exists p. split; [reflexivity|].
    split; [reflexivity|].
    unfold reliability_score. cbn [set_reliability reliability].
    apply (calculate_reliability_range current_year p).
  - rewrite List.map_map. apply List.map_ext. intros p.
    cbv zeta. reflexivity.
Qed.

(** *** [search] from end to end *)

Section SearchOutcome.

Variable adapters :
  list (string * (string -> Z -> Result (list Paper) string)).
Variable get_citations get_references : Paper -> Result (list Paper) string.
Variable _rank_papers : list Paper -> string -> list Paper.
Variable current_year : Z.
Variable duration : float.

Local Abbreviation search :=
  (Pipeline.search adapters get_citations get_references _rank_papers
     current_year duration).


End SearchOutcome.


(** ** The arXiv adapter *)

Section SearchBounds.

Variable batch : string -> Z -> Z -> Result (list Paper) string.
Variable query : string.
Variable max_results : Z.

Local Abbreviation bs := (Z.min 100 max_results).
Local Abbreviation page := (ArXiv.page batch query max_results).
Local Abbreviation pages_before := (ArXiv.pages_before batch query max_results).

Lemma slice_to_split {A} (l : list A) (n : Z) :
  exists rest, l = Py.slice_to l n ++ rest.
Proof.
  unfold Py.slice_to. destruct (0 <=? n).
  - exists (skipn (Z.to_nat n) l). symmetry. apply firstn_skipn.
  - exists (skipn (Z.to_nat (Z.of_nat (length l) + n)) l).
    symmetry. apply firstn_skipn.
Qed.

Lemma slice_to_bound {A} (l : list A) (n : Z) :
  0 <= n \/ l = [] -> Z.of_nat (length (Py.slice_to l n)) <= Z.max 0 n.
Proof.
  intros [Hn| ->].
  - unfold Py.slice_to. rewrite (proj2 (Z.leb_le 0 n) Hn).
    rewrite length_firstn. lia.
  - unfold Py.slice_to. destruct (0 <=? n); rewrite firstn_nil; cbn; lia.
Qed.

(** What the loop returns from the state in which it asks for page [k],
    having made [k] requests that each brought a paper. *)
Lemma search_loop_bounds (fuel : nat) :
  forall (k : nat) (papers : list Paper),
    papers = pages_before k ->
    (k <= length papers)%nat ->
    Z.of_nat k <= Z.max 0 max_results ->
    max_results - Z.of_nat (length papers) <= Z.of_nat fuel ->
    exists res fetched,
      ArXiv.search_loop batch query max_results bs fuel papers
        (Z.of_nat k * bs) k = Some (res, fetched) /\
      Z.of_nat fetched <= Z.max 0 max_results /\
      forall found, res = Ok found ->
        Z.of_nat (length found) <= Z.max 0 max_results /\
        exists j rest, (j <= fetched)%nat /\ pages_before j = found ++ rest.
Proof.
  induction fuel as [|fuel IH]; intros k papers Hpapers Hk Hmax Hfuel.
  all: cbn [ArXiv.search_loop].
  all: destruct (Z.of_nat (length papers) <? max_results) eqn:Hlt.
  all: try (apply Z.ltb_lt in Hlt; lia).
  all: try (eexists _, _; split; [reflexivity|]; split; [exact Hmax|];
            intros found Hfound; injection Hfound as <-;
            apply Z.ltb_ge in Hlt;
            split;
            [ apply slice_to_bound;
              destruct (Z.le_gt_cases 0 max_results) as [H0|H0];
              [now left | right];
              assert (k = 0%nat) as -> by lia; exact Hpapers
            | destruct (slice_to_split papers max_results) as (rest & Hrest);
              exists k, rest; split; [lia | now rewrite <- Hpapers] ]).
  apply Z.ltb_lt in Hlt.
  assert (Hnext : Z.of_nat (S k) <= Z.max 0 max_results) by lia.
  fold (page k). destruct (page k) as [results|e] eqn:Hpage.
  - destruct results as [|p results].
    + eexists _, _; split; [reflexivity|]. split; [exact Hnext|].
      intros found Hfound. injection Hfound as <-.
      split; [apply slice_to_bound; left; lia|].
      destruct (slice_to_split papers max_results) as (rest & Hrest).
      exists k, rest. split; [lia | now rewrite <- Hpapers].
    + assert (Hpages : papers ++ p :: results = pages_before (S k)).
      { rewrite pages_before_S. now rewrite Hpage, Hpapers. }
      destruct (Z.of_nat (length (p :: results)) <? bs).
      * eexists _, _; split; [reflexivity|]. split; [exact Hnext|].
        intros found Hfound. injection Hfound as <-.
        split; [apply slice_to_bound; left; lia|].
        destruct (slice_to_split (papers ++ p :: results) max_results)
          as (rest & Hrest).
        exists (S k), rest. split; [lia | now rewrite <- Hpages].
      * replace (Z.of_nat k * bs + bs) with (Z.of_nat (S k) * bs) by lia.
        apply IH.
        -- exact Hpages.
        -- rewrite length_app. cbn [length]. lia.
        -- exact Hnext.
        -- rewrite length_app. cbn [length]. lia.
  - destruct papers as [|p papers].
    + eexists _, _; split; [reflexivity|]. split; [exact Hnext|].
      intros found Hfound. discriminate Hfound.
    + eexists _, _; split; [reflexivity|]. split; [exact Hnext|].
      intros found Hfound. injection Hfound as <-.
      split; [lia|]. exists k, []. split; [lia|].
      now rewrite app_nil_r, Hpapers.
Qed.

End SearchBounds.

(** A search makes no request for a blank query and at most
    [max_results] requests otherwise; what it returns with success is at
    most [max_results] papers, the first papers of the pages that it
    fetched, in their order. *)
Theorem search_within_max_results
    (batch : string -> Z -> Z -> Result (list Paper) string)
    (query : string) (max_results : Z) :
  exists res fetched,
    ArXiv.search batch query max_results = Some (res, fetched) /\
    Z.of_nat fetched <= Z.max 0 max_results /\
    (Py.blank query = true ->
     res = Err "Empty query" /\ fetched = 0%nat) /\
    forall found, res = Ok found ->
      Z.of_nat (length found) <= Z.max 0 max_results /\
      exists j rest,
        (j <= fetched)%nat /\
        ArXiv.pages_before batch query max_results j = found ++ rest.
Proof.
  unfold ArXiv.search. destruct (Py.blank query) eqn:Hblank.
  - eexists _, _. split; [reflexivity|]. split; [cbn; lia|].
    split; [now split|]. intros found Hfound. discriminate Hfound.
  - cbv zeta.
    destruct (search_loop_bounds batch query max_results
                (Z.to_nat max_results) 0%nat [])
      as (res & fetched & Hrun & Hfetched & Hfound);
      [reflexivity | cbn; lia | lia | cbn [length]; lia |].
    exists res, fetched. split; [exact Hrun|]. split; [exact Hfetched|].
    split; [discriminate | exact Hfound].
Qed.

(** *** The parser *)

Lemma split_join_split (t : string) :
  Py.split (Py.join_space (Py.split t)) = Py.split t.
Proof.
  unfold Py.split, Py.join_space.
  rewrite map_chars_str, chars_str, split_join_chars; [reflexivity|].
  apply split_chars_words.
Qed.

(** A paper that the parser returns is an open preprint found in arXiv,
    named after the identifier that [_extract_id] reads in the [id] of
    the entry, which is not empty: the paper has an arXiv key for the
    deduplication, no PMID and no citation. Its title has no whitespace
    at its ends and single spaces inside; it has a journal, a PDF link
    and the two arXiv URLs. *)
Theorem parse_entry_paper (_extract_id : string -> option string)
    (calculate_reliability :
       Paper -> bool -> option string -> Z -> Z -> option Z ->
       Reliability.ReliabilityScore)
    (entry : ArXiv.Entry) (p : Paper) :
  ArXiv._parse_entry _extract_id calculate_reliability entry
  = Returns (Some p) ->
  exists id_text a,
    ArXiv.atom_id entry = Some id_text /\ _extract_id id_text = Some a /\
    a <> ""%string /\
    id p = ("arxiv_" ++ a)%string /\ arxiv_id p = Some a /\
    arxiv_key p = Some (Py.strip (Py.lower a)) /\
    pmid p = None /\ citation_count p = 0 /\
    PaperModel.source p = "arXiv"%string /\
    sources_found_in p = ["arXiv"%string] /\
    source_type p = PREPRINT /\ access_type p = OPEN /\
    Py.join_space (Py.split (title p)) = title p /\
    journal p <> None /\
    pdf_url p = Some ("https://arxiv.org/pdf/" ++ a ++ ".pdf")%string /\
    urls p !! "pdf"%string = pdf_url p /\
    urls p !! "arxiv"%string
    = Some ("https://arxiv.org/abs/" ++ a)%string /\
    ArXiv.year_of_published (ArXiv.atom_published entry)
    = Returns (year p).
Proof.
  intros Hparse. unfold ArXiv._parse_entry in Hparse.
  destruct (ArXiv.atom_id entry) as [id_text|] eqn:Hid; [|discriminate].
  destruct (String.eqb id_text ""); [discriminate|].
  destruct (_extract_id id_text) as [a|] eqn:Ha; [|discriminate].
  destruct (String.eqb_spec a "") as [|Hne]; [discriminate|].
  destruct (ArXiv.year_of_published (ArXiv.atom_published entry))
    as [y|] eqn:Hyear; [|discriminate].
  injection Hparse as <-. exists id_text, a.
  cbn [id arxiv_id pmid citation_count PaperModel.source sources_found_in
       source_type access_type title journal pdf_url urls year].
  split; [reflexivity|]. split; [exact Ha|]. split; [exact Hne|].
  split; [reflexivity|]. split; [reflexivity|].
  split.
  { unfold arxiv_key. cbn [arxiv_id Py.truthy_str option_map].
    destruct (String.eqb_spec a ""); [contradiction | reflexivity]. }
  do 6 (split; [reflexivity|]).
  split.
  { unfold Py.join_space at 1. rewrite split_join_split. reflexivity. }
  split.
  { destruct (ArXiv.arxiv_primary_category entry) as [c|]; [|discriminate].
    destruct (String.eqb c ""); cbv iota; [discriminate|].
    destruct (ArXiv.text_or_none (ArXiv.arxiv_journal_ref entry)) as [j|];
      cbn [Py.truthy_str]; [destruct (negb _)|]; discriminate. }
  split; [reflexivity|].
  split; [|split; [|reflexivity]].
  - destruct (ArXiv.text_or_none (ArXiv.arxiv_doi entry)) as [d|];
      [destruct (String.eqb d "")|];
      rewrite ?lookup_insert_ne by discriminate;
      now rewrite lookup_insert_eq.
  - destruct (ArXiv.text_or_none (ArXiv.arxiv_doi entry)) as [d|];
      [destruct (String.eqb d "")|];
      rewrite ?lookup_insert_ne by discriminate;
      now rewrite lookup_insert_eq.
Qed.

Lemma parse_entry_paper_witness :
  exists p id_text a,
    ArXiv._parse_entry Examples.extract_id_stub
      Examples.calculate_reliability_stub Examples.entry_of_twelve
    = Returns (Some p) /\
    ArXiv.atom_id Examples.entry_of_twelve = Some id_text /\
    Examples.extract_id_stub id_text = Some a /\
    id p = ("arxiv_" ++ a)%string /\
    title p = "Attention is all"%string /\ year p = Some 2023.
Proof.
  destruct (ArXiv._parse_entry Examples.extract_id_stub
              Examples.calculate_reliability_stub Examples.entry_of_twelve)
    as [[p|]|] eqn:Hparse;
    [| vm_compute in Hparse; discriminate Hparse ..].
  destruct (parse_entry_paper _ _ _ p Hparse)
    as (id_text & a & H1 & H2 & _ & H3 & _).
  exists p, id_text, a. split; [reflexivity|].
  split; [exact H1|]. split; [exact H2|]. split; [exact H3|].
  vm_compute in Hparse. injection Hparse as <-. split; reflexivity.
Defined.


(** *** The year of an entry *)

(** The year of an entry whose [published] text begins with four decimal
    digits, as an arXiv date does, is the number that they write. *)
Theorem year_of_published_reads_year (d1 d2 d3 d4 : ascii)
    (rest : list ascii) :
  Forall (fun c => SafeConv.isdecimal c = true) [d1; d2; d3; d4] ->
  ArXiv.year_of_published (Some (Py.str (d1 :: d2 :: d3 :: d4 :: rest)))
  = Returns (Some (SafeConv.decimal [d1; d2; d3; d4])) /\
  0 <= SafeConv.decimal [d1; d2; d3; d4] <= 9999.
Proof.
  intros Hd.
  assert (Hval : forall c, SafeConv.isdecimal c = true ->
                           0 <= Z.of_N (Py.ord c) - 48 <= 9).
  { intros c Hc. unfold SafeConv.isdecimal, Py.between in Hc.
    apply andb_prop in Hc as [H1 H2].
    apply N.leb_le in H1. apply N.leb_le in H2. lia. }
  inversion Hd as [|? ? H1 Hd1]; subst.
  inversion Hd1 as [|? ? H2 Hd2]; subst.
  inversion Hd2 as [|? ? H3 Hd3]; subst.
  inversion Hd3 as [|? ? H4 _]; subst.
  split.
  - assert (Hk : forall c, SafeConv.isdecimal c = true ->
                           SafeConv.kept c = true
                           /\ SafeConv.isdigit c = true
                           /\ Ascii.eqb c "-"%char = false).
    { intros c Hc. unfold SafeConv.kept, SafeConv.isdigit.
      unfold SafeConv.isdecimal in Hc. rewrite Hc. cbn [orb].
      split; [reflexivity|]. split; [reflexivity|].
      destruct (Ascii.eqb_spec c "-"%char) as [->|]; [discriminate Hc|].
      reflexivity. }
    destruct (Hk d1 H1) as (K1 & D1 & M1).
    destruct (Hk d2 H2) as (K2 & _ & _).
    destruct (Hk d3 H3) as (K3 & _ & _).
    destruct (Hk d4 H4) as (K4 & _ & _).
    assert (Hprefix : Py.prefix 4 (Py.str (d1 :: d2 :: d3 :: d4 :: rest))
                      = Py.str [d1; d2; d3; d4])
      by (unfold Py.prefix; now rewrite chars_str).
    assert (Hsafe : SafeConv.safe_int (Py.str [d1; d2; d3; d4]) 0
                    = Returns (SafeConv.decimal [d1; d2; d3; d4])).
    { unfold SafeConv.safe_int. rewrite chars_str. cbn [List.filter].
      rewrite K1, K2, K3, K4, D1. cbn [orb].
      unfold SafeConv.int_of. rewrite M1. cbn [forallb].
      rewrite H1, H2, H3, H4. cbn [andb].
      change (length [d1; d2; d3; d4] <=? SafeConv.max_str_digits)%nat
        with true.
      cbv iota. f_equal. lia. }
    unfold ArXiv.year_of_published.
    rewrite Hprefix, Hsafe. reflexivity.
  - pose proof (Hval d1 H1). pose proof (Hval d2 H2).
    pose proof (Hval d3 H3). pose proof (Hval d4 H4).
    unfold SafeConv.decimal. cbn [fold_left]. lia.
Qed.

Lemma year_of_published_reads_year_witness :
  ArXiv.year_of_published (Some "2023-01-03T00:00:00Z")
  = Returns (Some 2023).
Proof.
  apply (proj1 (year_of_published_reads_year "2"%char "0"%char "2"%char
                  "3"%char (Py.chars "-01-03T00:00:00Z")
                  ltac:(repeat constructor))).
Defined.

(** *** Identifiers *)

Section Identifiers.

Import ArXivIds.

Lemma take_digits_Some (n : nat) (l ds rest : list ascii) :
  take_digits n l = Some (ds, rest) ->
  l = ds ++ rest /\ length ds = n /\ Forall (fun c => isdecimal c = true) ds.
Proof.
  revert l ds rest. induction n as [|n IH]; intros l ds rest H.
  - injection H as <- <-. repeat split. constructor.
  - cbn [take_digits] in H. destruct l as [|c l]; [discriminate H|].
    destruct (isdecimal c) eqn:Hc; [|discriminate H].
    destruct (take_digits n l) as [[ds' rest']|] eqn:Ht; [|discriminate H].
    injection H as <- <-. destruct (IH _ _ _ Ht) as (-> & <- & Hds).
    repeat split. now constructor.
Qed.

Lemma take_digits_app (ds rest : list ascii) :
  Forall (fun c => isdecimal c = true) ds ->
  take_digits (length ds) (ds ++ rest) = Some (ds, rest).
Proof.
  induction 1 as [|c ds Hc _ IH]; [reflexivity|].
  cbn [length app take_digits]. now rewrite Hc, IH.
Qed.

Lemma new_style_at_Some (l m : list ascii) :
  new_style_at l = Some m -> new_style m /\ new_style_at m = Some m.
Proof.
  unfold new_style_at. intros H.
  destruct (take_digits 4 l) as [[yymm [|c rest]]|] eqn:Hy;
    try discriminate H.
  destruct (Ascii.eqb_spec c "."%char) as [->|]; [|discriminate H].
  destruct (take_digits 4 rest) as [[number rest']|] eqn:Hn;
    [|discriminate H].
  apply take_digits_Some in Hy as (_ & Hly & Hdy).
  apply take_digits_Some in Hn as (_ & Hln & Hdn).
  set (fifth := match rest' with
                | d :: _ => if isdecimal d then [d] else []
                | [] => []
                end) in *.
  assert (Hfifth : (length fifth <= 1)%nat
                   /\ Forall (fun c => isdecimal c = true) fifth
                   /\ match fifth with
                      | d :: _ => if isdecimal d then [d] else []
                      | [] => []
                      end = fifth).
  { unfold fifth. destruct rest' as [|d r]; [repeat split; auto|].
    destruct (isdecimal d) eqn:Hd; [|repeat split; auto].
    cbn [length]. rewrite Hd. repeat split; auto. }
  destruct Hfifth as (Hlf & Hdf & Hagain).
  injection H as <-. split.
  - exists yymm, number, fifth. repeat split; try assumption.
    apply List.Forall_app. split; [exact Hdy|].
    apply List.Forall_app. now split.
  - rewrite <- Hly at 1. rewrite (take_digits_app yymm _ Hdy).
    rewrite Ascii.eqb_refl.
    rewrite <- Hln at 1. rewrite (take_digits_app number _ Hdn).
    now rewrite Hagain.
Qed.

Lemma take_while_spec (f : ascii -> bool) (l : list ascii) :
  Forall (fun c => f c = true) (take_while f l) /\
  l = take_while f l ++ skipn (length (take_while f l)) l.
Proof.
  induction l as [|c l [IH1 IH2]]; [split; [constructor | reflexivity]|].
  cbn [take_while]. destruct (f c) eqn:Hc.
  - cbn [length skipn app]. split; [now constructor | now f_equal].
  - split; [constructor | reflexivity].
Qed.

Lemma take_while_app (f : ascii -> bool) (run : list ascii) (c : ascii)
    (rest : list ascii) :
  Forall (fun c => f c = true) run -> f c = false ->
  take_while f (run ++ c :: rest) = run.
Proof.
  intros Hrun Hc. induction Hrun as [|d run Hd _ IH].
  - cbn [app take_while]. now rewrite Hc.
  - cbn [app take_while]. now rewrite Hd, IH.
Qed.

Lemma old_style_at_Some (l m : list ascii) :
  old_style_at l = Some m -> old_style m /\ old_style_at m = Some m.
Proof.
  unfold old_style_at. cbv zeta. intros H.
  destruct (take_while_spec islowerdash l) as [Hcat _].
  destruct (take_while islowerdash l) as [|c0 category] eqn:Hrun;
    [discriminate H|].
  destruct (skipn (length (c0 :: category)) l) as [|c rest];
    [discriminate H|].
  destruct (Ascii.eqb_spec c "/"%char) as [->|]; [|discriminate H].
  destruct (take_digits 7 rest) as [[number rest']|] eqn:Hn;
    [|discriminate H].
  apply take_digits_Some in Hn as (_ & Hln & Hdn).
  injection H as <-. split.
  - exists (c0 :: category), number. repeat split; try assumption.
    discriminate.
  - change (c0 :: category ++ "/"%char :: number)
      with ((c0 :: category) ++ "/"%char :: number).
    rewrite (take_while_app islowerdash (c0 :: category) "/"%char number
               Hcat eq_refl).
    rewrite skipn_app, skipn_all, Nat.sub_diag. cbn [app skipn].
    rewrite Ascii.eqb_refl.
    rewrite <- Hln at 1.
    rewrite <- (app_nil_r number) at 2.
    now rewrite (take_digits_app number [] Hdn).
Qed.

Lemma first_match_Some (at_head : list ascii -> option (list ascii))
    (l m : list ascii) :
  first_match at_head l = Some m -> exists l', at_head l' = Some m.
Proof.
  induction l as [|c l IH]; cbn [first_match].
  - destruct (at_head []) eqn:H; [|discriminate].
    intros [= <-]. now exists [].
  - destruct (at_head (c :: l)) eqn:H; [|exact IH].
    intros [= <-]. now exists (c :: l).
Qed.

Lemma first_match_head (at_head : list ascii -> option (list ascii))
    (m : list ascii) :
  at_head m = Some m -> first_match at_head m = Some m.
Proof. intros H. destruct m; cbn [first_match]; now rewrite H. Qed.

(** No identifier of the new style is found where there is no dot. *)
Lemma new_style_at_dot (l m : list ascii) :
  new_style_at l = Some m -> In "."%char l.
Proof.
  unfold new_style_at. intros H.
  destruct (take_digits 4 l) as [[yymm [|c rest]]|] eqn:Hy;
    try discriminate H.
  destruct (Ascii.eqb_spec c "."%char) as [->|]; [|discriminate H].
  apply take_digits_Some in Hy as (-> & _). apply in_or_app. right.
  now left.
Qed.

Lemma first_match_no_dot (l : list ascii) :
  ~ In "."%char l -> first_match new_style_at l = None.
Proof.
  induction l as [|c l IH]; intros Hdot; cbn [first_match].
  - reflexivity.
  - destruct (new_style_at (c :: l)) as [m|] eqn:H.
    + exfalso. apply Hdot. now apply (new_style_at_dot _ m).
    + apply IH. intros Hin. apply Hdot. now right.
Qed.

Lemma old_style_no_dot (m : list ascii) : old_style m -> ~ In "."%char m.
Proof.
  intros (category & number & -> & _ & Hcat & _ & Hnum) Hin.
  apply in_app_or in Hin as [Hin|[Hin|Hin]].
  - rewrite List.Forall_forall in Hcat. specialize (Hcat _ Hin).
    discriminate Hcat.
  - discriminate Hin.
  - rewrite List.Forall_forall in Hnum. specialize (Hnum _ Hin).
    discriminate Hnum.
Qed.

Lemma extract_chars_Some (l m : list ascii) :
  extract_chars l = Some m ->
  (new_style m \/ old_style m) /\ extract_chars m = Some m.
Proof.
  unfold extract_chars. intros H.
  destruct (first_match new_style_at l) as [m'|] eqn:Hnew.
  - injection H as ->. apply first_match_Some in Hnew as (l' & Hl').
    apply new_style_at_Some in Hl' as [Hshape Hhead].
    split; [now left|]. now rewrite (first_match_head _ _ Hhead).
  - apply first_match_Some in H as (l' & Hl').
    apply old_style_at_Some in Hl' as [Hshape Hhead].
    split; [now right|].
    rewrite (first_match_no_dot m (old_style_no_dot m Hshape)).
    now apply first_match_head.
Qed.

(** What [_extract_id] finds is an identifier of the new style or of
    the old one, without its version; it is not empty, so the test that
    [_parse_entry] makes of it never fails; and [_extract_id] finds it
    again in itself. *)
Theorem extract_id_is_an_identifier (url_or_id a : string) :
  _extract_id url_or_id = Some a ->
  (new_style (Py.chars a) \/ old_style (Py.chars a)) /\
  a <> ""%string /\
  _extract_id a = Some a.
Proof.
  unfold _extract_id.
  destruct (String.eqb url_or_id ""); [discriminate|].
  destruct (extract_chars (Py.chars url_or_id)) as [m|] eqn:Hm;
    [|discriminate].
  intros [= <-]. apply extract_chars_Some in Hm as [Hshape Hagain].
  rewrite chars_str.
  assert (Hne : Py.str m <> ""%string).
  { intros Hempty. apply (f_equal Py.chars) in Hempty.
    rewrite chars_str in Hempty. cbn in Hempty. subst m.
    destruct Hshape as [(y & n & f & H & _)|(c & n & H & _)];
      symmetry in H; apply app_eq_nil in H as [_ H]; discriminate H. }
  split; [exact Hshape|]. split; [exact Hne|].
  destruct (String.eqb_spec (Py.str m) ""); [contradiction|].
  now rewrite Hagain.
Qed.

Lemma extract_id_is_an_identifier_witness :
  _extract_id "http://arxiv.org/abs/2301.01234v2" = Some "2301.01234"%string
  /\ _extract_id "2301.01234" = Some "2301.01234"%string.
Proof.
  split; [reflexivity|].
  apply (extract_id_is_an_identifier "http://arxiv.org/abs/2301.01234v2"
           "2301.01234" eq_refl).
Defined.

End Identifiers.

(** ** The token bucket *)

(** A refill never leaves more tokens than the capacity, whatever the
    clock says, and moves [last_refill] to the current time. *)
Theorem refill_caps_tokens (now : float) (b : RateLimiter.TokenBucket) :
  PrimFloat.leb (RateLimiter.capacity b) (RateLimiter.capacity b) = true ->
  let b' := RateLimiter.refill now b in
  PrimFloat.leb (RateLimiter.tokens b') (RateLimiter.capacity b') = true /\
  RateLimiter.capacity b' = RateLimiter.capacity b /\
  RateLimiter.refill_rate b' = RateLimiter.refill_rate b /\
  RateLimiter.last_refill b' = now.
Proof.
  intros Hcap. cbv zeta. unfold RateLimiter.refill.
  cbn [RateLimiter.tokens RateLimiter.capacity RateLimiter.refill_rate
       RateLimiter.last_refill].
  split; [|repeat split]. unfold Py.min.
  destruct (PrimFloat.ltb _ (RateLimiter.capacity b)) eqn:Hlt;
    [now apply ltb_leb | exact Hcap].
Qed.

Lemma refill_caps_tokens_witness :
  PrimFloat.leb 2 2 = true /\
  PrimFloat.leb
    (RateLimiter.tokens
       (RateLimiter.refill 100
          {| RateLimiter.capacity := 2; RateLimiter.tokens := 0.5;
             RateLimiter.refill_rate := 2;
             RateLimiter.last_refill := 4.875 |})) 2 = true.
Proof.
  split; [reflexivity|].
  apply (refill_caps_tokens 100
           {| RateLimiter.capacity := 2; RateLimiter.tokens := 0.5;
              RateLimiter.refill_rate := 2;
              RateLimiter.last_refill := 4.875 |} eq_refl).
Defined.
